(** * Prueba_Dapper: the ANI regulations pipeline

    A shallow embedding of the extract / validate / write pipeline
    ([src/extraccion.py], [src/validacion.py], [src/validaciones.py],
    [src/escritura.py], [lambda.py]) and the properties its
    specification states about it.

    Python strings are sequences of Unicode code points, so [len] counts
    code points: they are modelled as lists of [N].  Character
    classification follows CPython for white space; decimal digits and
    case mapping are those of ASCII and Latin-1, the alphabet of the
    scraped site. *)

From Stdlib Require Import List ZArith NArith Bool Lia String Ascii DecimalString DecimalPos.
Import ListNotations.

Set Implicit Arguments.

(* ===================================================================== *)
(** * Part I. Definitions *)
(* ===================================================================== *)

(** ** Python strings *)

Module PyStr.

Definition char := N.
Definition str := list char.

(** An ASCII literal as a Python string. *)
Definition lit (s : string) : str := List.map N_of_ascii (list_ascii_of_string s).

Fixpoint eqb (a b : str) : bool :=
  match a, b with
  | [], [] => true
  | x :: a', y :: b' => N.eqb x y && eqb a' b'
  | _, _ => false
  end.

Definition is_empty (s : str) : bool :=
  match s with [] => true | _ => false end.

(** [len(s)] as a Python integer. *)
Definition len (s : str) : Z := Z.of_nat (List.length s).

(** [str.isspace] on one code point. *)
Definition isspace (c : char) : bool :=
  ((9 <=? c) && (c <=? 13) || (28 <=? c) && (c <=? 32) || (c =? 133) || (c =? 160)
   || (c =? 5760) || (8192 <=? c) && (c <=? 8202) || (c =? 8232) || (c =? 8233)
   || (c =? 8239) || (c =? 8287) || (c =? 12288))%N.

Definition isdigit (c : char) : bool := ((48 <=? c) && (c <=? 57))%N.

(** A string is blank when every code point of it is white space. *)
Definition blank_str (s : str) : bool := forallb isspace s.

(** A string without any white space. *)
Definition no_space (s : str) : bool := forallb (fun c => negb (isspace c)) s.

Fixpoint lstrip (s : str) : str :=
  match s with
  | [] => []
  | c :: s' => if isspace c then lstrip s' else s
  end.

Fixpoint rstrip (s : str) : str :=
  match s with
  | [] => []
  | c :: s' =>
      match rstrip s' with
      | [] => if isspace c then [] else [c]
      | r => c :: r
      end
  end.

(** [s.strip()] *)
Definition strip (s : str) : str := rstrip (lstrip s).

(** [s.split()]: the maximal runs of non-space code points. *)
Fixpoint split (s : str) : list str :=
  match s with
  | [] => []
  | c :: s' =>
      if isspace c then split s'
      else match s' with
           | [] => [[c]]
           | c' :: _ =>
               if isspace c' then [c] :: split s'
               else match split s' with
                    | t :: ts => (c :: t) :: ts
                    | [] => [[c]]
                    end
           end
  end.

(** [s.split(sep)] for a one-character separator. *)
Fixpoint split_on (sep : char) (s : str) : list str :=
  match s with
  | [] => [[]]
  | c :: s' =>
      if (c =? sep)%N then [] :: split_on sep s'
      else match split_on sep s' with
           | t :: ts => (c :: t) :: ts
           | [] => [[c]]
           end
  end.

(** [sep.join(parts)] *)
Fixpoint join (sep : str) (parts : list str) : str :=
  match parts with
  | [] => []
  | [p] => p
  | p :: ps => p ++ sep ++ join sep ps
  end.

Fixpoint startswith (p s : str) : bool :=
  match p, s with
  | [], _ => true
  | x :: p', y :: s' => N.eqb x y && startswith p' s'
  | _ :: _, [] => false
  end.

(** [needle in hay] *)
Fixpoint contains (needle hay : str) : bool :=
  startswith needle hay
  || match hay with
     | [] => false
     | _ :: hay' => contains needle hay'
     end.

(** [c in s] for one code point. *)
Definition has_char (c : char) (s : str) : bool := existsb (N.eqb c) s.

(** [s.replace(c, "")] for one code point. *)
Definition remove_char (c : char) (s : str) : str :=
  filter (fun x => negb (N.eqb x c)) s.

Definition lower_char (c : char) : char :=
  if ((65 <=? c) && (c <=? 90) || (192 <=? c) && (c <=? 222) && negb (c =? 215))%N
  then (c + 32)%N else c.

Definition upper_char (c : char) : char :=
  if ((97 <=? c) && (c <=? 122) || (224 <=? c) && (c <=? 254) && negb (c =? 247))%N
  then (c - 32)%N else c.

(** [s.lower()] *)
Definition lower (s : str) : str := List.map lower_char s.

(** [s.capitalize()] *)
Definition capitalize (s : str) : str :=
  match s with
  | [] => []
  | c :: s' => upper_char c :: lower s'
  end.

(** [s.zfill(width)] *)
Definition zfill (width : nat) (s : str) : str :=
  let pad := List.repeat 48%N (width - List.length s) in
  match s with
  | c :: s' => if ((c =? 43) || (c =? 45))%N then c :: pad ++ s' else pad ++ s
  | [] => pad
  end.

(** [str(n)] for an integer. *)
Definition of_Z (z : Z) : str := lit (NilZero.string_of_int (Z.to_int z)).

(** The decimal numeral of [n], padded with zeros to [width] digits. *)
Definition of_Z_padded (width : nat) (z : Z) : str := zfill width (of_Z z).

End PyStr.

Import PyStr.

(** ** Dates and times *)

Record datetime := mk_datetime {
  year : Z; month : Z; day : Z;
  hour : Z; minute : Z; second : Z; microsecond : Z;
  tzinfo : option Z (* offset from UTC in seconds; [None] for a naive value *)
}.

(** The order of naive [datetime] values: [a > b]. *)
Definition datetime_gt (a b : datetime) : bool :=
  let key d := [year d; month d; day d; hour d; minute d; second d; microsecond d] in
  (fix gt (x y : list Z) : bool :=
     match x, y with
     | u :: x', v :: y' => (v <? u)%Z || (u =? v)%Z && gt x' y'
     | _, _ => false
     end) (key a) (key b).

(** The calendar day of a value. *)
Definition date_of (d : datetime) : Z * Z * Z := (year d, month d, day d).

Definition is_leap (y : Z) : bool :=
  ((y mod 4 =? 0) && (negb (y mod 100 =? 0) || (y mod 400 =? 0)))%Z.

Definition days_in_month (y m : Z) : Z :=
  (if m =? 2 then (if is_leap y then 29 else 28)
   else if (m =? 4) || (m =? 6) || (m =? 9) || (m =? 11) then 30 else 31)%Z.

(** *** [datetime.strptime]

    CPython compiles a format to a regular expression: a directive
    becomes an ordered alternation of fixed shapes, a run of white space
    becomes [\s+], any other character stands for itself.  The
    expression is matched at the start of the data, alternatives in
    order and with backtracking, and the match must then end where the
    data ends. *)

Inductive directive := DY | Dm | Dd | DH | DM | DS.

Inductive fmt_item :=
| FLit (c : char)
| FSpace
| FDir (d : directive).

(** A character class is a range of code points; a shape a sequence of them. *)
Definition shape := list (N * N).

Definition any_digit : N * N := (48, 57)%N.
Definition digits (lo hi : N) : N * N := (48 + lo, 48 + hi)%N.
Definition blank : N * N := (32, 32)%N.

Definition shapes_of (d : directive) : list shape :=
  match d with
  | DY => [[any_digit; any_digit; any_digit; any_digit]]
  | Dm => [[digits 1 1; digits 0 2]; [digits 0 0; digits 1 9]; [digits 1 9]]
  | Dd => [[digits 3 3; digits 0 1]; [digits 1 2; any_digit]; [digits 0 0; digits 1 9];
           [digits 1 9]; [blank; digits 1 9]]
  | DH => [[digits 2 2; digits 0 3]; [digits 0 1; any_digit]; [any_digit]]
  | DM => [[digits 0 5; any_digit]; [any_digit]]
  | DS => [[digits 6 6; digits 0 1]; [digits 0 5; any_digit]; [any_digit]]
  end.

Definition directive_of (c : char) : option directive :=
  (if c =? 89 then Some DY else if c =? 109 then Some Dm else if c =? 100 then Some Dd
   else if c =? 72 then Some DH else if c =? 77 then Some DM else if c =? 83 then Some DS
   else None)%N.

(** The items of a format string; [None] for a directive outside the six above. *)
Fixpoint compile_format (fmt : str) : option (list fmt_item) :=
  match fmt with
  | [] => Some []
  | c :: fmt' =>
      if (c =? 37)%N then
        match fmt' with
        | d :: fmt'' =>
            match directive_of d, compile_format fmt'' with
            | Some dir, Some items => Some (FDir dir :: items)
            | _, _ => None
            end
        | [] => None
        end
      else
        match compile_format fmt' with
        | Some items =>
            if isspace c then
              match items with
              | FSpace :: _ => Some items
              | _ => Some (FSpace :: items)
              end
            else Some (FLit c :: items)
        | None => None
        end
  end.

Fixpoint match_shape (sh : shape) (s : str) : option (str * str) :=
  match sh, s with
  | [], _ => Some ([], s)
  | (lo, hi) :: sh', c :: s' =>
      if ((lo <=? c) && (c <=? hi))%N then
        match match_shape sh' s' with
        | Some (txt, rest) => Some (c :: txt, rest)
        | None => None
        end
      else None
  | _ :: _, [] => None
  end.

(** [\s+] followed by [k], longest run first. *)
Fixpoint match_spaces (R : Type) (k : str -> option R) (s : str) : option R :=
  match s with
  | c :: s' =>
      if isspace c then
        match match_spaces k s' with
        | Some r => Some r
        | None => k s'
        end
      else None
  | [] => None
  end.

Definition captures := list (directive * str).

Fixpoint match_items (items : list fmt_item) (s : str) : option (captures * str) :=
  match items with
  | [] => Some ([], s)
  | FLit c :: items' =>
      match s with
      | x :: s' => if (x =? c)%N then match_items items' s' else None
      | [] => None
      end
  | FSpace :: items' => match_spaces (match_items items') s
  | FDir d :: items' =>
      (fix try (shs : list shape) : option (captures * str) :=
         match shs with
         | [] => None
         | sh :: shs' =>
             match match_shape sh s with
             | Some (txt, rest) =>
                 match match_items items' rest with
                 | Some (caps, r) => Some ((d, txt) :: caps, r)
                 | None => try shs'
                 end
             | None => try shs'
             end
         end) (shapes_of d)
  end.

(** [int(txt)] for a captured group: digits, possibly after a blank. *)
Definition int_of_group (txt : str) : Z :=
  fold_left (fun acc c => if isdigit c then (acc * 10 + Z.of_N (c - 48))%Z else acc) txt 0%Z.

Definition directive_eqb (a b : directive) : bool :=
  match a, b with
  | DY, DY | Dm, Dm | Dd, Dd | DH, DH | DM, DM | DS, DS => true
  | _, _ => false
  end.

Fixpoint group (d : directive) (dflt : Z) (caps : captures) : Z :=
  match caps with
  | [] => dflt
  | (d', txt) :: caps' => if directive_eqb d d' then int_of_group txt else group d dflt caps'
  end.

(** The value built from the groups; the constructor of [datetime]
    refuses year 0, a day the month does not have, and second 60 or 61. *)
Definition datetime_of_captures (caps : captures) : option datetime :=
  let y := group DY 1900 caps in
  let m := group Dm 1 caps in
  let d := group Dd 1 caps in
  let s := group DS 0 caps in
  if ((1 <=? y) && (d <=? days_in_month y m) && (s <=? 59))%Z
  then Some (mk_datetime y m d (group DH 0 caps) (group DM 0 caps) s 0 None)
  else None.

(** [datetime.strptime(data, fmt)]; [None] when it raises [ValueError]. *)
Definition strptime (data fmt : str) : option datetime :=
  match compile_format fmt with
  | Some items =>
      match match_items items data with
      | Some (caps, []) => datetime_of_captures caps
      | _ => None
      end
  | None => None
  end.

Definition fmt_date : str := lit "%Y-%m-%d".
Definition fmt_datetime : str := lit "%Y-%m-%d %H:%M:%S".

(** [dt.strftime("%Y-%m-%d")] *)
Definition strftime_date (dt : datetime) : str :=
  of_Z_padded 4 (year dt) ++ lit "-" ++ of_Z_padded 2 (month dt) ++ lit "-" ++ of_Z_padded 2 (day dt).

(** [dt.strftime("%Y-%m-%d %H:%M:%S")], also [str(dt)] for a naive value
    without microseconds. *)
Definition strftime_datetime (dt : datetime) : str :=
  strftime_date dt ++ lit " " ++ of_Z_padded 2 (hour dt) ++ lit ":"
  ++ of_Z_padded 2 (minute dt) ++ lit ":" ++ of_Z_padded 2 (second dt).

(** The outcome of a call that may raise: its value, or the text of the
    exception. *)
Inductive result (A : Type) :=
| Ok (a : A)
| Raise (exc : str).
Arguments Ok {A} a.
Arguments Raise {A} exc.

(** ** Extraction ([src/extraccion.py]) *)

Module extraccion.

Definition ENTITY_VALUE : str := lit "Agencia Nacional de Infraestructura".
Definition FIXED_CLASSIFICATION_ID : Z := 13.

(** [CLASSIFICATION_KEYWORDS], in the order of the dictionary:
    "resolución", "resolucion", "decreto". *)
Definition CLASSIFICATION_KEYWORDS : list (str * Z) :=
  [ (lit "resoluci" ++ [243%N] ++ lit "n", 15%Z);
    (lit "resolucion", 15%Z);
    (lit "decreto", 14%Z) ].

Definition DEFAULT_RTYPE_ID : Z := 14.

(** The keys of [quotes_map], in order; every one maps to the empty string. *)
Definition quotes_map : list char :=
  [ 8220; 8216; 8217; 171; 187; 8222; 8218; 8249; 8250; 34; 39; 180; 96; 8242; 8243 ]%N.

(** The character class of [quotes_pattern]. *)
Definition quotes_pattern : list char :=
  [ 39; 34; 8220; 8221; 8216; 8217; 171; 187; 8222; 8218; 8249; 8250; 8242; 8243 ]%N.

(** [clean_quotes] on a string ([None] never reaches it from this module). *)
Definition clean_quotes (text : str) : str :=
  if is_empty text then text
  else
    let cleaned_text := fold_left (fun acc quote_char => remove_char quote_char acc) quotes_map text in
    let cleaned_text := filter (fun c => negb (existsb (N.eqb c) quotes_pattern)) cleaned_text in
    let cleaned_text := strip cleaned_text in
    join (lit " ") (split cleaned_text).

Definition get_rtype_id (title : str) : Z :=
  let title_lower := lower title in
  (fix scan (kws : list (str * Z)) : Z :=
     match kws with
     | [] => DEFAULT_RTYPE_ID
     | (keyword, rtype_id) :: kws' =>
         if contains keyword title_lower then rtype_id else scan kws'
     end) CLASSIFICATION_KEYWORDS.

(** What a [created_at] slot can hold. *)
Inductive created_at_value :=
| CaNone
| CaStr (s : str)
| CaDatetime (d : datetime).

Definition is_valid_created_at (created_at_value : created_at_value) : bool :=
  match created_at_value with
  | CaNone => false
  | CaStr s => if is_empty s then false else negb (is_empty (strip s))
  | CaDatetime _ => true
  end.

Definition normalize_datetime (dt : option datetime) : option datetime :=
  match dt with
  | None => None
  | Some d =>
      match tzinfo d with
      | Some _ => Some (mk_datetime (year d) (month d) (day d) (hour d) (minute d)
                                    (second d) (microsecond d) None)
      | None => Some d
      end
  end.

(** *** The parsed table row

    What the functions below read from a [<tr>]: the results of the
    [find], [get] and [get_text(strip=True)] calls they make. *)

Record anchor := { a_text : str; a_href : option str }.

Record fecha_span := { span_content : option str; span_text : str }.

Record fecha_cell := { fecha_span_of : option fecha_span; fecha_text : str }.

Record table_row := {
  title_a : option (option anchor);  (* the title cell, and its first [<a>] *)
  body_text : option str;             (* the summary cell *)
  fecha_td : option fecha_cell        (* the date cell *)
}.

(** The dictionary [norma_data]. *)
Record norma := {
  created_at : option str;
  update_at : str;
  is_active : bool;
  title : option str;
  gtype : option str;
  entity : str;
  external_link : option str;
  rtype_id : option Z;
  summary : option str;
  classification_id : Z
}.

Definition set_created_at (v : option str) (n : norma) : norma :=
  Build_norma v (update_at n) (is_active n) (title n) (gtype n) (entity n)
              (external_link n) (rtype_id n) (summary n) (classification_id n).

Definition set_title (v : option str) (n : norma) : norma :=
  Build_norma (created_at n) (update_at n) (is_active n) v (gtype n) (entity n)
              (external_link n) (rtype_id n) (summary n) (classification_id n).

Definition set_link (link gt : option str) (n : norma) : norma :=
  Build_norma (created_at n) (update_at n) (is_active n) (title n) gt (entity n)
              link (rtype_id n) (summary n) (classification_id n).

Definition set_summary (v : option str) (n : norma) : norma :=
  Build_norma (created_at n) (update_at n) (is_active n) (title n) (gtype n) (entity n)
              (external_link n) (rtype_id n) v (classification_id n).

Definition set_rtype_id (v : option Z) (n : norma) : norma :=
  Build_norma (created_at n) (update_at n) (is_active n) (title n) (gtype n) (entity n)
              (external_link n) v (summary n) (classification_id n).

(** The fresh dictionary of a row; [now] is the clock reading in
    [%Y-%m-%d %H:%M:%S]. *)
Definition new_norma (now : str) : norma :=
  {| created_at := None; update_at := now; is_active := true; title := None;
     gtype := None; entity := ENTITY_VALUE; external_link := None;
     rtype_id := None; summary := None;
     classification_id := FIXED_CLASSIFICATION_ID |}.

Definition extract_title_and_link (row : table_row) (norma_data : norma) : bool * norma :=
  match title_a row with
  | None => (false, norma_data)
  | Some None => (false, norma_data)
  | Some (Some title_link) =>
      let raw_title := a_text title_link in
      let cleaned_title := clean_quotes raw_title in
      if (65 <? len cleaned_title)%Z then (false, norma_data)
      else
        let norma_data := set_title (Some cleaned_title) norma_data in
        let external_link :=
          match a_href title_link with
          | Some href =>
              if negb (is_empty href) && negb (startswith (lit "http") href)
              then Some (lit "https://www.ani.gov.co" ++ href)
              else Some href
          | None => None
          end in
        let truthy := match external_link with Some l => negb (is_empty l) | None => false end in
        let norma_data :=
          set_link external_link (if truthy then Some (lit "link") else None) norma_data in
        (truthy, norma_data)
  end.

Definition extract_summary (row : table_row) (norma_data : norma) : norma :=
  match body_text row with
  | Some raw_summary =>
      let cleaned_summary := clean_quotes raw_summary in
      set_summary (Some (capitalize cleaned_summary)) norma_data
  | None => set_summary None norma_data
  end.

(** The value stored in [norma_data["created_at"]] for a raw date text. *)
Definition normalize_created_at (created_at_raw : str) : str :=
  if has_char 84%N created_at_raw then
    hd [] (split_on 84%N created_at_raw)
  else if has_char 47%N created_at_raw then
    match split_on 47%N created_at_raw with
    | [day; month; year] => year ++ lit "-" ++ zfill 2 month ++ lit "-" ++ zfill 2 day
    | _ => created_at_raw
    end
  else created_at_raw.

(** [fecha_span.get("content", fecha_span.get_text(strip=True))] *)
Definition created_at_raw (fecha_span : fecha_span) : str :=
  match span_content fecha_span with
  | Some content => content
  | None => span_text fecha_span
  end.

(** What [extract_creation_date] stores in [norma_data["created_at"]]. *)
Definition created_at_of_row (row : table_row) : option str :=
  match fecha_td row with
  | Some fecha_cell =>
      match fecha_span_of fecha_cell with
      | Some fecha_span => Some (normalize_created_at (created_at_raw fecha_span))
      | None => Some (fecha_text fecha_cell)
      end
  | None => None
  end.

(** The date text of a row as the page gives it, when there is a date cell. *)
Definition date_text_of_row (row : table_row) : option str :=
  match fecha_td row with
  | Some fecha_cell =>
      match fecha_span_of fecha_cell with
      | Some fecha_span => Some (created_at_raw fecha_span)
      | None => Some (fecha_text fecha_cell)
      end
  | None => None
  end.

(** The two shapes the specification calls parseable: a
    [YYYY-MM-DDTHH:MM:SS]-style text, and a [DD/MM/YYYY] text. *)
Definition date_shape : shape :=
  [any_digit; any_digit; any_digit; any_digit; (45, 45); any_digit; any_digit; (45, 45);
   any_digit; any_digit]%N.

Definition iso_datetime_style (s : str) : bool :=
  match match_shape date_shape s with
  | Some (_, c :: _) => (c =? 84)%N
  | _ => false
  end.

Definition dmy_style (s : str) : bool :=
  match split_on 47%N s with
  | [d; m; y] =>
      forallb isdigit (d ++ m ++ y)
      && (1 <=? List.length d)%nat && (List.length d <=? 2)%nat
      && (1 <=? List.length m)%nat && (List.length m <=? 2)%nat
      && (List.length y =? 4)%nat
  | _ => false
  end.

Definition blank_opt (v : option str) : bool :=
  match v with
  | Some s => blank_str s
  | None => true
  end.

Definition as_created_at (v : option str) : created_at_value :=
  match v with Some s => CaStr s | None => CaNone end.

Definition extract_creation_date (row : table_row) (norma_data : norma) : bool * norma :=
  let norma_data := set_created_at (created_at_of_row row) norma_data in
  if is_valid_created_at (as_created_at (created_at norma_data))
  then (true, norma_data) else (false, norma_data).

(** The body of the row loop of [scrape_page]: the record appended to
    [page_data], or [None] when the row is skipped. *)
Definition scrape_row (now : str) (row : table_row) : option norma :=
  let norma_data := new_norma now in
  let (ok, norma_data) := extract_title_and_link row norma_data in
  if negb ok then None
  else
    let norma_data := extract_summary row norma_data in
    let (ok, norma_data) := extract_creation_date row norma_data in
    if negb ok then None
    else
      match title norma_data with
      | Some t => Some (set_rtype_id (Some (get_rtype_id t)) norma_data)
      | None => None
      end.

(** What fetching a page gives: the [<tr>] rows of its [<tbody>], or a
    failure of the request, of the status check or of the parse, or a
    page without a table. *)
Inductive page :=
| PageRows (rows : list table_row)
| PageNoTable
| PageError (exc : str).

(** The web site and the clock that [scrape_page] reads. *)
Record web := { fetch : Z -> page; now : str }.

Definition scrape_page (w : web) (page_num : Z) : list norma :=
  match fetch w page_num with
  | PageRows rows =>
      flat_map (fun row => match scrape_row (now w) row with
                           | Some n => [n]
                           | None => []
                           end) rows
  | PageNoTable => []
  | PageError _ => []
  end.

(** [range(lo, lo + n)] *)
Fixpoint range_from (lo : Z) (n : nat) : list Z :=
  match n with
  | O => []
  | S n' => lo :: range_from (lo + 1) n'
  end.

Definition scrape_recent_pages (w : web) (start_page end_page : Z) : list norma :=
  flat_map (scrape_page w) (range_from start_page (Z.to_nat (end_page + 1 - start_page))).

(** The two attempts of the probe on a candidate date. *)
Definition parse_web_date (created_at_val : str) : option datetime :=
  match strptime created_at_val fmt_datetime with
  | Some web_date => Some web_date
  | None =>
      match split created_at_val with
      | first :: _ => strptime first fmt_date
      | [] => None
      end
  end.

(** The body of the record loop of [check_for_new_content]: [true] when
    it reaches [return True], [false] when it goes on to the next record. *)
Definition record_is_new (latest_db_date : option datetime) (record : norma) : bool :=
  match created_at record with
  | None => false
  | Some created_at_val =>
      if negb (is_valid_created_at (CaStr created_at_val)) then false
      else
        match parse_web_date created_at_val with
        | None => false
        | Some web_date =>
            match latest_db_date, normalize_datetime (Some web_date) with
            | None, _ => true
            | Some latest, Some web_date => datetime_gt web_date latest
            | Some _, None => false
            end
        end
  end.

Definition check_for_new_content (w : web)
    (fetch_latest_created_at : unit -> result (option datetime))
    (num_pages_to_check : Z) : bool :=
  match fetch_latest_created_at tt with
  | Raise _ => true
  | Ok latest_db_date =>
      let latest_db_date := normalize_datetime latest_db_date in
      existsb (fun page_num => existsb (record_is_new latest_db_date) (scrape_page w page_num))
              (range_from 0 (Z.to_nat num_pages_to_check))
  end.

End extraccion.

(** ** Cell values and data frames *)

(** A Python value held by a cell.  A float is kept as its [repr], the
    one thing the pipeline reads from it; ["nan"] is the not-a-number. *)
Inductive value :=
| VNone
| VNA
| VBool (b : bool)
| VInt (z : Z)
| VFloat (repr : str)
| VStr (s : str)
| VDatetime (dt : datetime).

Definition nan : value := VFloat (lit "nan").

(** [pd.isna] *)
Definition is_null (v : value) : bool :=
  match v with
  | VNone | VNA => true
  | VFloat r => eqb r (lit "nan")
  | _ => false
  end.

Definition utc_offset_str (off : Z) : str :=
  let a := Z.abs off in
  (if (off <? 0)%Z then lit "-" else lit "+")
  ++ of_Z_padded 2 (a / 3600) ++ lit ":" ++ of_Z_padded 2 ((a / 60) mod 60).

(** [str(v)] *)
Definition py_str (v : value) : str :=
  match v with
  | VNone => lit "None"
  | VNA => lit "<NA>"
  | VBool true => lit "True"
  | VBool false => lit "False"
  | VInt z => of_Z z
  | VFloat r => r
  | VStr s => s
  | VDatetime dt =>
      strftime_datetime dt
      ++ (if (microsecond dt =? 0)%Z then [] else lit "." ++ of_Z_padded 6 (microsecond dt))
      ++ match tzinfo dt with Some off => utc_offset_str off | None => [] end
  end.

Definition datetime_eqb (a b : datetime) : bool :=
  ((year a =? year b) && (month a =? month b) && (day a =? day b) && (hour a =? hour b)
   && (minute a =? minute b) && (second a =? second b) && (microsecond a =? microsecond b))%Z
  && match tzinfo a, tzinfo b with
     | Some x, Some y => (x =? y)%Z
     | None, None => true
     | _, _ => false
     end.

Definition value_eqb (a b : value) : bool :=
  match a, b with
  | VNone, VNone | VNA, VNA => true
  | VBool x, VBool y => Bool.eqb x y
  | VInt x, VInt y => (x =? y)%Z
  | VFloat x, VFloat y => eqb x y
  | VStr x, VStr y => eqb x y
  | VDatetime x, VDatetime y => datetime_eqb x y
  | _, _ => false
  end.

Module pandas.

(** A row is a dictionary from column names to values, a column a list
    of values in row order, a frame its column names and its rows. *)
Definition row := list (str * value).
Definition Series := list value.

Record DataFrame := { columns : list str; rows : list row }.

Fixpoint row_get (c : str) (r : row) : value :=
  match r with
  | [] => nan
  | (k, v) :: r' => if eqb k c then v else row_get c r'
  end.

Fixpoint row_set (c : str) (v : value) (r : row) : row :=
  match r with
  | [] => [(c, v)]
  | (k, v') :: r' => if eqb k c then (k, v) :: r' else (k, v') :: row_set c v r'
  end.

Definition row_drop (c : str) (r : row) : row :=
  filter (fun kv => negb (eqb (fst kv) c)) r.

Definition has_column (c : str) (df : DataFrame) : bool :=
  existsb (eqb c) (columns df).

(** [len(df)] *)
Definition df_len (df : DataFrame) : Z := Z.of_nat (List.length (rows df)).

(** [df.empty] *)
Definition empty (df : DataFrame) : bool :=
  match rows df, columns df with
  | [], _ | _, [] => true
  | _, _ => false
  end.

(** [df[c]], when [c] is a column. *)
Definition column (c : str) (df : DataFrame) : Series := List.map (row_get c) (rows df).

(** [df[c] = series] *)
Definition set_column (c : str) (series : Series) (df : DataFrame) : DataFrame :=
  {| columns := if has_column c df then columns df else columns df ++ [c];
     rows := List.map (fun rv : row * value => row_set c (snd rv) (fst rv)) (combine (rows df) series) |}.

(** [df[mask]] *)
Definition select (mask : list bool) (df : DataFrame) : DataFrame :=
  {| columns := columns df;
     rows := List.map fst (filter snd (combine (rows df) mask)) |}.

(** [df.drop(columns=[c])] *)
Definition drop_column (c : str) (df : DataFrame) : DataFrame :=
  {| columns := filter (fun k => negb (eqb k c)) (columns df);
     rows := List.map (row_drop c) (rows df) |}.

(** [df.dropna(subset=fields)] *)
Definition dropna (subset : list str) (df : DataFrame) : DataFrame :=
  {| columns := columns df;
     rows := filter (fun r => forallb (fun f => negb (is_null (row_get f r))) subset) (rows df) |}.

Definition key_of (subset : list str) (r : row) : list value :=
  List.map (fun c => row_get c r) subset.

Fixpoint key_eqb (a b : list value) : bool :=
  match a, b with
  | [], [] => true
  | x :: a', y :: b' => value_eqb x y && key_eqb a' b'
  | _, _ => false
  end.

Fixpoint keep_first (subset : list str) (seen : list (list value)) (rs : list row) : list row :=
  match rs with
  | [] => []
  | r :: rs' =>
      if existsb (key_eqb (key_of subset r)) seen then keep_first subset seen rs'
      else r :: keep_first subset (key_of subset r :: seen) rs'
  end.

(** [df.drop_duplicates(subset=subset, keep="first")] *)
Definition drop_duplicates (subset : list str) (df : DataFrame) : DataFrame :=
  {| columns := columns df; rows := keep_first subset [] (rows df) |}.

(** [series.fillna("")] *)
Definition fillna_empty (s : Series) : Series :=
  List.map (fun v => if is_null v then VStr [] else v) s.

(** [series.astype(str)] *)
Definition astype_str (s : Series) : list str := List.map py_str s.

(** [series.where(mask, pd.NA)] *)
Definition where_na (s : Series) (mask : list bool) : Series :=
  List.map (fun vm : value * bool => if snd vm then fst vm else VNA) (combine s mask).

(** [a &= b] on masks. *)
Definition mask_and (a b : list bool) : list bool :=
  List.map (fun p : bool * bool => fst p && snd p) (combine a b).

(** [int((~mask).sum())] *)
Definition count_false (mask : list bool) : Z :=
  Z.of_nat (List.length (filter negb mask)).

End pandas.

Import pandas.

(** ** The interpreter's numeric and pattern libraries

    [float] and [re] are not retold here: a development over this file
    holds for every behaviour of the two.  [float_of_text t] is the
    [repr] of [float(t)], [re_compile p] the test "the pattern matches
    at the start of", as [re.compile(p)] followed by [Series.str.match]
    computes it; [None] stands for [ValueError], [Raise] carries the
    text of [re.error]. *)
Class PyRuntime := {
  float_of_text : str -> option str;
  re_compile : str -> result (str -> bool)
}.

(** [int(text)] on a stripped text: a sign, then digits, single
    underscores allowed between digits. *)
Fixpoint int_digits (acc : Z) (after_digit : bool) (s : str) : option Z :=
  match s with
  | [] => if after_digit then Some acc else None
  | c :: s' =>
      if isdigit c then int_digits (acc * 10 + Z.of_N (c - 48)%N)%Z true s'
      else if (c =? 95)%N && after_digit then
        match s' with
        | d :: _ => if isdigit d then int_digits acc false s' else None
        | [] => None
        end
      else None
  end.

Definition int_of_text (text : str) : option Z :=
  match text with
  | c :: s' =>
      if (c =? 45)%N then option_map Z.opp (int_digits 0 false s')
      else if (c =? 43)%N then int_digits 0 false s'
      else int_digits 0 false text
  | [] => None
  end.

(** What the pattern [.+] asks of a text at its start: one character
    that is not a line feed. *)
Definition match_any_plus (s : str) : bool :=
  match s with
  | c :: _ => negb (c =? 10)%N
  | [] => false
  end.

(** ** Validation rules ([src/validaciones.py]) *)

Module validaciones.

(** The configuration of one field: [config.get("type")],
    [config.get("regex")], the truth of [config.get("required")] and
    [config.get("max_length")]. *)
Record field_config := {
  cfg_type : option str;
  cfg_regex : option str;
  cfg_required : bool;
  cfg_max_length : option Z
}.

(** The ["fields"] dictionary of a ruleset, in insertion order. *)
Definition rules := list (str * field_config).

Definition DEFAULT_RULES : rules :=
  [ (lit "title",
     {| cfg_type := Some (lit "string"); cfg_regex := Some (lit ".+");
        cfg_required := true; cfg_max_length := Some 65%Z |});
    (lit "created_at",
     {| cfg_type := Some (lit "date"); cfg_regex := Some (lit "^\d{4}-\d{2}-\d{2}");
        cfg_required := true; cfg_max_length := None |});
    (lit "external_link",
     {| cfg_type := Some (lit "string"); cfg_regex := Some (lit "^https?://.+");
        cfg_required := true; cfg_max_length := None |});
    (lit "summary",
     {| cfg_type := Some (lit "string"); cfg_regex := None;
        cfg_required := false; cfg_max_length := None |});
    (lit "rtype_id",
     {| cfg_type := Some (lit "integer"); cfg_regex := None;
        cfg_required := true; cfg_max_length := None |});
    (lit "classification_id",
     {| cfg_type := Some (lit "integer"); cfg_regex := None;
        cfg_required := true; cfg_max_length := None |});
    (lit "is_active",
     {| cfg_type := Some (lit "boolean"); cfg_regex := None;
        cfg_required := true; cfg_max_length := None |});
    (lit "update_at",
     {| cfg_type := Some (lit "string");
        cfg_regex := Some (lit "^\d{4}-\d{2}-\d{2} \d{2}:\d{2}:\d{2}$");
        cfg_required := true; cfg_max_length := None |}) ].

(** The entry of [DEFAULT_RULES] for the title, as a ruleset of its own. *)
Definition title_rules : rules :=
  filter (fun kv => eqb (fst kv) (lit "title")) DEFAULT_RULES.

(** [load_rules()]: the rules of the file at the configured path when
    there is one, the defaults otherwise. *)
Definition load_rules (rules_file : option rules) : rules :=
  match rules_file with
  | Some r => r
  | None => DEFAULT_RULES
  end.

End validaciones.

Import validaciones.

(** ** Validation ([src/validacion.py]) *)

Module validacion.

Section WithRuntime.
Context {rt : PyRuntime}.

(** The date branch of [_coerce_type] on a text: the formats in order. *)
Definition parse_date_text (text : str) : option datetime :=
  match strptime text fmt_date with
  | Some dt => Some dt
  | None => strptime text fmt_datetime
  end.

(** The date branch on a value that is not a [datetime], from its [str]. *)
Definition date_of_text (s : str) : option datetime :=
  let text := strip s in
  if is_empty text then None else parse_date_text text.

Definition truthy_texts : list str :=
  [ lit "true"; lit "1"; lit "t"; lit "yes"; lit "si"; lit "s" ++ [237%N] ].
Definition falsy_texts : list str := [ lit "false"; lit "0"; lit "f"; lit "no" ].

(** One turn of the loop of [_coerce_type]: the converted value, or
    [None] when the value is null or the conversion raises. *)
Definition coerce_value (expected_type : str) (v : value) : option value :=
  if is_null v then None
  else if eqb expected_type (lit "string") then
    let text := strip (py_str v) in
    if is_empty text then None else Some (VStr text)
  else if eqb expected_type (lit "integer") then
    let text := strip (py_str v) in
    if is_empty text then None else option_map VInt (int_of_text text)
  else if eqb expected_type (lit "float") then
    let text := strip (py_str v) in
    if is_empty text then None else option_map VFloat (float_of_text text)
  else if eqb expected_type (lit "boolean") then
    match v with
    | VBool _ => Some v
    | _ =>
        let text := lower (strip (py_str v)) in
        if existsb (eqb text) truthy_texts then Some (VBool true)
        else if existsb (eqb text) falsy_texts then Some (VBool false)
        else None
    end
  else if eqb expected_type (lit "date") then
    match
      match v with
      | VDatetime dt => Some dt
      | _ => date_of_text (py_str v)
      end
    with
    | Some dt => Some (VStr (strftime_date dt))
    | None => None
    end
  else Some v.

Definition _coerce_type (series : Series) (expected_type : str) : Series * list bool :=
  (List.map (fun v => match coerce_value expected_type v with
                      | Some c => c
                      | None => VNA
                      end) series,
   List.map (fun v => match coerce_value expected_type v with
                      | Some _ => true
                      | None => false
                      end) series).

Record stats := {
  rows_received : Z;
  rows_discarded : Z;
  rows_valid : Z;
  invalid_cells : list (str * Z)
}.

Fixpoint dict_set (k : str) (n : Z) (d : list (str * Z)) : list (str * Z) :=
  match d with
  | [] => [(k, n)]
  | (k', n') :: d' => if eqb k' k then (k', n) :: d' else (k', n') :: dict_set k n d'
  end.

(** The state of the loop over the rules: [df_clean], [invalid_cells]
    and [required_fields]. *)
Definition loop_state := (DataFrame * list (str * Z) * list str)%type.

(** The type step of a field. *)
Definition type_step (config : field_config) (series : Series) : Series * list bool :=
  match cfg_type config with
  | Some expected_type =>
      if is_empty expected_type then (series, List.map (fun _ => true) series)
      else _coerce_type series expected_type
  | None => (series, List.map (fun _ => true) series)
  end.

(** The pattern step: the mask of the matching cells, when there is a pattern. *)
Definition regex_step (config : field_config) (coerced : Series) : result (option (list bool)) :=
  match cfg_regex config with
  | Some regex_pattern =>
      if is_empty regex_pattern then Ok None
      else
        match re_compile regex_pattern with
        | Ok regex => Ok (Some (List.map regex (astype_str (fillna_empty coerced))))
        | Raise e => Raise e
        end
  | None => Ok None
  end.

(** The length step: the mask of the cells that are short enough. *)
Definition length_step (config : field_config) (coerced : Series) : option (list bool) :=
  match cfg_max_length config with
  | Some max_length =>
      Some (List.map (fun t => (len t <=? max_length)%Z) (astype_str (fillna_empty coerced)))
  | None => None
  end.

Definition narrow (coerced_mask : Series * list bool) (m : option (list bool))
  : Series * list bool :=
  match m with
  | Some mask => (where_na (fst coerced_mask) mask, mask_and (snd coerced_mask) mask)
  | None => coerced_mask
  end.

(** One turn of the loop over [rules_fields.items()]. *)
Definition field_step (st : loop_state) (field : str) (config : field_config)
  : result loop_state :=
  let '(df_clean, invalid_cells, required_fields) := st in
  let required_fields :=
    if cfg_required config then required_fields ++ [field] else required_fields in
  if negb (has_column field df_clean) then
    Ok (set_column field (List.map (fun _ => VNA) (rows df_clean)) df_clean,
        dict_set field (df_len df_clean) invalid_cells,
        required_fields)
  else
    let series := column field df_clean in
    let cm := type_step config series in
    match regex_step config (fst cm) with
    | Raise e => Raise e
    | Ok mask_regex =>
        let cm := narrow cm mask_regex in
        let cm := narrow cm (length_step config (fst cm)) in
        let invalid_count := count_false (snd cm) in
        let invalid_cells :=
          if (invalid_count =? 0)%Z then invalid_cells
          else dict_set field invalid_count invalid_cells in
        Ok (set_column field (fst cm) df_clean, invalid_cells, required_fields)
    end.

(** The fields a ruleset marks required, in its order. *)
Definition required_fields_of (rules_fields : rules) : list str :=
  List.map fst (filter (fun kv => cfg_required (snd kv)) rules_fields).

Fixpoint fields_loop (st : loop_state) (rules_fields : rules) : result loop_state :=
  match rules_fields with
  | [] => Ok st
  | (field, config) :: rest =>
      match field_step st field config with
      | Ok st' => fields_loop st' rest
      | Raise e => Raise e
      end
  end.

Definition apply_validation (df : DataFrame) (rules : rules) : result (DataFrame * stats) :=
  if empty df then
    Ok (df, {| rows_received := 0; rows_discarded := 0; rows_valid := 0; invalid_cells := [] |})
  else
    match fields_loop (df, [], []) rules with
    | Raise e => Raise e
    | Ok (df_clean, invalid_cells, required_fields) =>
        let before_drop := df_len df_clean in
        let df_clean :=
          match required_fields with
          | [] => df_clean
          | _ => dropna required_fields df_clean
          end in
        let after_drop := df_len df_clean in
        Ok (df_clean,
            {| rows_received := df_len df;
               rows_discarded := before_drop - after_drop;
               rows_valid := after_drop;
               invalid_cells := invalid_cells |})
    end.

End WithRuntime.

End validacion.

(** ** Writing ([src/escritura.py]) *)

Module escritura.

(** *** The database

    The server is outside the repository.  The model keeps what the
    queries of this module observe: the committed rows of each table,
    the next value of the [id] sequence, and what the server will
    answer to the coming driver calls ([None] or no entry: the call
    succeeds; [Some e]: it raises an error of text [e]).  Every driver
    call is recorded in [log], newest first.  A column keeps the value
    it is given, and [created_at::text] renders it as [str] does.
    [connected] tells whether the manager holds a connection and a
    cursor. *)

Inductive driver_call :=
| CallConnect
| CallExecute
| CallExecutemany (table_name : str) (nrows : Z)
| CallRollback.

Record database := {
  connected : bool;
  tables : list (str * list row);
  next_id : Z;
  faults : list (option str);
  log : list (driver_call * option str)
}.

(** Computations on the database that may raise. *)
Definition M (A : Type) := database -> result A * database.

Definition ret {A} (a : A) : M A := fun db => (Ok a, db).
Definition raise {A} (e : str) : M A := fun db => (Raise e, db).
Definition bind {A B} (m : M A) (k : A -> M B) : M B :=
  fun db => match m db with
            | (Ok a, db') => k a db'
            | (Raise e, db') => (Raise e, db')
            end.
(** [try: m  except Exception as exc: h exc] *)
Definition try_except {A} (m : M A) (h : str -> M A) : M A :=
  fun db => match m db with
            | (Ok a, db') => (Ok a, db')
            | (Raise e, db') => h e db'
            end.
Definition lift {A} (r : result A) : M A := fun db => (r, db).

Declare Scope db_scope.
Delimit Scope db_scope with db.
Notation "x <- m ;; k" := (bind m (fun x => k))
  (at level 61, m at next level, right associativity) : db_scope.
Notation "' p <- m ;; k" := (bind m (fun x => let p := x in k))
  (at level 61, p pattern, m at next level, right associativity) : db_scope.
Open Scope db_scope.

(** One call of the driver: the next answer of the server is consumed
    and the call recorded. *)
Definition next_answer (db : database) : option str :=
  match faults db with a :: _ => a | [] => None end.

Definition advance (c : driver_call) (db : database) : database :=
  {| connected := connected db; tables := tables db; next_id := next_id db;
     faults := tl (faults db); log := (c, next_answer db) :: log db |}.

Definition driver (c : driver_call) : M unit :=
  fun db =>
    match next_answer db with
    | Some e => (Raise e, advance c db)
    | None => (Ok tt, advance c db)
    end.

Definition table_rows (table_name : str) (db : database) : list row :=
  (fix find (ts : list (str * list row)) : list row :=
     match ts with
     | [] => []
     | (k, rs) :: ts' => if eqb k table_name then rs else find ts'
     end) (tables db).

Fixpoint tables_append (table_name : str) (new : list row) (ts : list (str * list row))
  : list (str * list row) :=
  match ts with
  | [] => [(table_name, new)]
  | (k, rs) :: ts' =>
      if eqb k table_name then (k, rs ++ new) :: ts'
      else (k, rs) :: tables_append table_name new ts'
  end.

(** The rows as the server stores them: nulls become [NULL], and a row
    without [id] takes the next value of the sequence. *)
Fixpoint stored_rows (next : Z) (rs : list row) : list row * Z :=
  match rs with
  | [] => ([], next)
  | r :: rs' =>
      let r := List.map (fun kv : str * value => (fst kv, if is_null (snd kv) then VNone else snd kv)) r in
      if existsb (fun kv : str * value => eqb (fst kv) (lit "id")) r then
        let (out, n) := stored_rows next rs' in (r :: out, n)
      else
        let (out, n) := stored_rows (next + 1) rs' in (row_set (lit "id") (VInt next) r :: out, n)
  end.

(** The database once the rows are committed to a table. *)
Definition committed (table_name : str) (rs : list row) (db : database) : database :=
  let (new, n) := stored_rows (next_id db) rs in
  {| connected := connected db;
     tables := tables_append table_name new (tables db); next_id := n;
     faults := faults db; log := log db |}.

Definition commit_rows (table_name : str) (rs : list row) : M unit :=
  fun db => (Ok tt, committed table_name rs db).

(** *** The queries of this module *)

Inductive query :=
| SelectExisting (table_name entity : str)
| SelectNewIds (table_name entity : str) (limit : Z)
| SelectMaxCreatedAt (table_name entity : str).

Definition of_entity (entity : str) (r : row) : bool :=
  value_eqb (row_get (lit "entity") r) (VStr entity).

Definition sql_null (v : value) : value := if is_null v then VNone else v.
Definition sql_text (v : value) : value := if is_null v then VNone else VStr (py_str v).
Definition sql_coalesce_empty (v : value) : value := if is_null v then VStr [] else v.

Definition id_of (r : row) : Z :=
  match row_get (lit "id") r with
  | VInt z => z
  | _ => 0
  end.

Fixpoint insert_desc (z : Z) (l : list Z) : list Z :=
  match l with
  | [] => [z]
  | y :: l' => if (y <=? z)%Z then z :: l else y :: insert_desc z l'
  end.

Definition sort_desc (l : list Z) : list Z := fold_right insert_desc [] l.

Fixpoint str_ltb (a b : str) : bool :=
  match a, b with
  | _, [] => false
  | [], _ :: _ => true
  | x :: a', y :: b' => (x <? y)%N || (x =? y)%N && str_ltb a' b'
  end.

Definition value_ltb (a b : value) : bool :=
  match a, b with
  | VStr x, VStr y => str_ltb x y
  | VDatetime x, VDatetime y => datetime_gt y x
  | VInt x, VInt y => (x <? y)%Z
  | _, _ => false
  end.

(** [MAX] over a column: [NULL] on no value. *)
Definition sql_max (vs : list value) : value :=
  fold_left (fun acc v => if is_null v then acc
                          else if is_null acc then v
                          else if value_ltb acc v then v else acc) vs VNone.

(** The rows a query answers, each a tuple in column order. *)
Definition answer (q : query) (db : database) : list (list value) :=
  match q with
  | SelectExisting t entity =>
      List.map (fun r => [ sql_null (row_get (lit "title") r);
                           sql_text (row_get (lit "created_at") r);
                           sql_null (row_get (lit "entity") r);
                           sql_coalesce_empty (row_get (lit "external_link") r) ])
               (filter (of_entity entity) (table_rows t db))
  | SelectNewIds t entity limit =>
      List.map (fun z => [VInt z])
               (firstn (Z.to_nat limit)
                       (sort_desc (List.map id_of (filter (of_entity entity) (table_rows t db)))))
  | SelectMaxCreatedAt t entity =>
      [[ sql_max (List.map (row_get (lit "created_at"))
                           (filter (of_entity entity) (table_rows t db))) ]]
  end.

(** *** The environment variables read at import time *)

Class Environ := {
  REGULATIONS_TABLE : str;
  REGULATIONS_COMPONENT_TABLE : str
}.

Definition default_environ : Environ :=
  {| REGULATIONS_TABLE := lit "regulations";
     REGULATIONS_COMPONENT_TABLE := lit "regulations_component" |}.

Definition ENTITY_VALUE : str := lit "Agencia Nacional de Infraestructura".

(** *** [DatabaseManager] *)

(** The database as a manager that holds, or has released, a connection sees it. *)
Definition with_connection (b : bool) (db : database) : database :=
  {| connected := b; tables := tables db; next_id := next_id db;
     faults := faults db; log := log db |}.

Definition set_connected (b : bool) : M unit :=
  fun db => (Ok tt, with_connection b db).

Definition is_connected : M bool := fun db => (Ok (connected db), db).

Definition connect : M bool :=
  try_except (_ <- driver CallConnect ;; _ <- set_connected true ;; ret true)
             (fun _ => ret false).

Definition close : M unit := set_connected false.

(** [with DatabaseManager() as db_manager: body] *)
Definition with_manager {A} (body : M A) : M A :=
  ok <- connect ;;
  if negb ok then raise (lit "Could not establish database connection")
  else fun db => let (r, db') := body db in (r, snd (close db')).

Definition execute_query (q : query) : M (list (list value)) :=
  c <- is_connected ;;
  if negb c then raise (lit "Database not connected")
  else _ <- driver CallExecute ;; fun db => (Ok (answer q db), db).

Definition bulk_insert (df : DataFrame) (table_name : str) : M Z :=
  c <- is_connected ;;
  if negb c then raise (lit "Database not connected")
  else
    try_except
      (_ <- driver (CallExecutemany table_name (df_len df)) ;;
       _ <- commit_rows table_name (rows df) ;;
       ret (df_len df))
      (fun exc =>
         _ <- driver CallRollback ;;
         raise (lit "Error inserting into " ++ table_name ++ lit ": " ++ exc)).

Section WithEnviron.
Context {env : Environ}.

Definition insert_regulations_component (new_ids : list Z) : M (Z * str) :=
  match new_ids with
  | [] => ret (0%Z, lit "No new regulation IDs provided")
  | _ =>
      try_except
        (let id_rows :=
           {| columns := [lit "regulations_id"; lit "components_id"];
              rows := List.map (fun i => [(lit "regulations_id", VInt i);
                                          (lit "components_id", VInt 7)]) new_ids |} in
         inserted_count <- bulk_insert id_rows REGULATIONS_COMPONENT_TABLE ;;
         ret (inserted_count,
              lit "Successfully inserted " ++ of_Z inserted_count ++ lit " regulation components"))
        (fun exc => ret (0%Z, lit "Error inserting regulation components: " ++ exc))
  end.

(** [str(KeyError(c))] *)
Definition KeyError (c : str) : str := lit "'" ++ c ++ lit "'".

Definition getitem (c : str) (df : DataFrame) : result Series :=
  if has_column c df then Ok (column c df) else Raise (KeyError c).

(** The three assignments that bring the key columns to strings. *)
Definition normalize_keys (df : DataFrame) : result DataFrame :=
  match getitem (lit "created_at") df with
  | Raise e => Raise e
  | Ok created_at =>
      let df := set_column (lit "created_at") (List.map VStr (astype_str created_at)) df in
      match getitem (lit "external_link") df with
      | Raise e => Raise e
      | Ok external_link =>
          let df := set_column (lit "external_link")
                               (List.map VStr (astype_str (fillna_empty external_link))) df in
          match getitem (lit "title") df with
          | Raise e => Raise e
          | Ok title =>
              Ok (set_column (lit "title")
                             (List.map (fun t => VStr (strip t)) (astype_str title)) df)
          end
      end
  end.

(** The three assignments of [normalize_keys] on one record. *)
Definition normalized_row (r : row) : row :=
  let r := row_set (lit "created_at") (VStr (py_str (row_get (lit "created_at") r))) r in
  let r := row_set (lit "external_link")
                   (VStr (py_str (let v := row_get (lit "external_link") r in
                                  if is_null v then VStr [] else v))) r in
  row_set (lit "title") (VStr (strip (py_str (row_get (lit "title") r)))) r.

(** [df["title"] + "|" + df["created_at"] + "|" + df["external_link"]] on
    one row of a frame whose key columns are strings. *)
Definition unique_key (r : row) : str :=
  py_str (row_get (lit "title") r) ++ lit "|" ++ py_str (row_get (lit "created_at") r)
  ++ lit "|" ++ py_str (row_get (lit "external_link") r).

Definition key_columns : list str := [lit "title"; lit "created_at"; lit "external_link"].

(** *** The identity key as the specification words it

    The key of a record is the triple (trimmed title, created_at as a
    string, external link or the empty string); the new records of a
    batch are those whose triple is not among the persisted triples,
    first occurrence kept. *)

Definition triple := (str * str * str)%type.

Definition key_triple (r : row) : triple :=
  (py_str (row_get (lit "title") r), py_str (row_get (lit "created_at") r),
   py_str (row_get (lit "external_link") r)).

Definition triple_eqb (a b : triple) : bool :=
  let '(t, d, l) := a in
  let '(t', d', l') := b in
  eqb t t' && eqb d d' && eqb l l'.

Fixpoint first_occurrences (seen : list triple) (ks : list triple) : list triple :=
  match ks with
  | [] => []
  | k :: ks' =>
      if existsb (triple_eqb k) seen then first_occurrences seen ks'
      else k :: first_occurrences (k :: seen) ks'
  end.

Definition spec_new_keys (persisted batch : list triple) : list triple :=
  first_occurrences [] (filter (fun k => negb (existsb (triple_eqb k) persisted)) batch).

(** A record whose title and date hold no ["|"]. *)
Definition separator_free (r : row) : bool :=
  negb (has_char 124%N (py_str (row_get (lit "title") r)))
  && negb (has_char 124%N (py_str (row_get (lit "created_at") r))).

(** A record whose three key columns hold strings. *)
Definition str_keys (r : row) : bool :=
  match row_get (lit "title") r, row_get (lit "created_at") r,
        row_get (lit "external_link") r with
  | VStr _, VStr _, VStr _ => true
  | _, _, _ => false
  end.

(** The outcome of the duplicate validation: [entity_df] and [db_df]
    after normalisation, [new_records] and the two counts. *)
Record partition := {
  p_entity_df : DataFrame;
  p_db_df : DataFrame;
  new_records : DataFrame;
  duplicates_found : Z;
  internal_duplicates : Z
}.

(** From the entity filter to the count of the internal duplicates;
    [None] stands for the early return on an empty [entity_df]. *)
Definition validate_duplicates (existing_records : list (list value)) (df : DataFrame)
    (entity : str) : result (option partition) :=
  let db_cols := [lit "title"; lit "created_at"; lit "entity"; lit "external_link"] in
  let db_df := {| columns := db_cols;
                  rows := List.map (fun t => combine db_cols t) existing_records |} in
  match getitem (lit "entity") df with
  | Raise e => Raise e
  | Ok entity_col =>
      let entity_df := select (List.map (fun v => value_eqb v (VStr entity)) entity_col) df in
      if empty entity_df then Ok None
      else
        match (if negb (empty db_df) then normalize_keys db_df else Ok db_df) with
        | Raise e => Raise e
        | Ok db_df =>
            match normalize_keys entity_df with
            | Raise e => Raise e
            | Ok entity_df =>
                let '(entity_df, db_df, new_records, duplicates_found) :=
                  if empty db_df then (entity_df, db_df, entity_df, 0%Z)
                  else
                    let entity_df :=
                      set_column (lit "unique_key")
                                 (List.map (fun r => VStr (unique_key r)) (rows entity_df))
                                 entity_df in
                    let db_df :=
                      set_column (lit "unique_key")
                                 (List.map (fun r => VStr (unique_key r)) (rows db_df)) db_df in
                    let existing_keys := astype_str (column (lit "unique_key") db_df) in
                    let is_duplicate :=
                      List.map (fun v => existsb (eqb (py_str v)) existing_keys)
                               (column (lit "unique_key") entity_df) in
                    let entity_df :=
                      set_column (lit "is_duplicate") (List.map VBool is_duplicate) entity_df in
                    let new_records :=
                      select (List.map (fun v => negb (value_eqb v (VBool true)))
                                       (column (lit "is_duplicate") entity_df)) entity_df in
                    (entity_df, db_df, new_records, (df_len entity_df - df_len new_records)%Z) in
                let new_records := drop_duplicates key_columns new_records in
                let internal_duplicates :=
                  (df_len entity_df - duplicates_found - df_len new_records)%Z in
                Ok (Some {| p_entity_df := entity_df; p_db_df := db_df;
                            new_records := new_records;
                            duplicates_found := duplicates_found;
                            internal_duplicates := internal_duplicates |})
            end
        end
  end.

Definition mentions_duplicate (insert_error : str) : bool :=
  contains (lit "duplicate") (lower insert_error) || contains (lit "unique") (lower insert_error).

(** The inner [try] of [insert_new_records]: [inl] is a [return] from
    inside it, [inr] the count with which the function goes on. *)
Definition insert_step (new_records : DataFrame) (entity : str) : M ((Z * str) + Z) :=
  try_except
    (total_rows_processed <- bulk_insert new_records REGULATIONS_TABLE ;;
     if (total_rows_processed =? 0)%Z then
       ret (inl (0%Z, lit "No records were actually inserted for entity " ++ entity))
     else ret (inr total_rows_processed))
    (fun insert_error =>
       if mentions_duplicate insert_error then
         ret (inl (0%Z, lit "Some records for entity " ++ entity
                        ++ lit " were duplicates and skipped"))
       else raise insert_error).

(** The insertion of the components: the count and the message it
    leaves in [inserted_count_comp] and [component_message]. *)
Definition component_step (new_ids : list Z) : M (Z * str) :=
  match new_ids with
  | [] => ret (0%Z, [])
  | _ =>
      try_except (insert_regulations_component new_ids)
                 (fun comp_error =>
                    ret (0%Z, lit "Error inserting components: " ++ comp_error))
  end.

(** The body of the outer [try] of [insert_new_records]. *)
Definition insert_new_records_body (df : DataFrame) (entity : str) : M (Z * str) :=
  existing_records <- execute_query (SelectExisting REGULATIONS_TABLE entity) ;;
  p <- lift (validate_duplicates existing_records df entity) ;;
  match p with
  | None => ret (0%Z, lit "No records found for entity " ++ entity)
  | Some p =>
      if empty (new_records p) then
        ret (0%Z, lit "No new records found for entity " ++ entity
                  ++ lit " after duplicate validation")
      else
        let new_records :=
          fold_left (fun nr col => if has_column col nr then drop_column col nr else nr)
                    [lit "unique_key"; lit "is_duplicate"] (new_records p) in
        inserted <- insert_step new_records entity ;;
        match inserted with
        | inl early => ret early
        | inr total_rows_processed =>
            new_ids_result <-
              execute_query (SelectNewIds REGULATIONS_TABLE entity total_rows_processed) ;;
            let new_ids := List.map (fun t => match t with VInt z :: _ => z | _ => 0%Z end)
                                    new_ids_result in
            component <- component_step new_ids ;;
            let component_message := snd component in
            let total_duplicates := (duplicates_found p + internal_duplicates p)%Z in
            let stats :=
              lit "Processed: " ++ of_Z (df_len (p_entity_df p)) ++ lit " | "
              ++ lit "Existing: " ++ of_Z (df_len (p_db_df p)) ++ lit " | "
              ++ lit "Duplicates skipped: " ++ of_Z total_duplicates ++ lit " | "
              ++ lit "New inserted: " ++ of_Z total_rows_processed in
            ret (total_rows_processed,
                 lit "Entity " ++ entity ++ lit ": " ++ stats ++ lit ". " ++ component_message)
        end
  end.

(** The outer [except] clause of [insert_new_records]. *)
Definition on_error (entity exc : str) : M (Z * str) :=
  c <- is_connected ;;
  _ <- (if c then driver CallRollback else ret tt) ;;
  ret (0%Z, lit "Error processing entity " ++ entity ++ lit ": " ++ exc).

Definition insert_new_records (df : DataFrame) (entity : str) : M (Z * str) :=
  try_except (insert_new_records_body df entity) (on_error entity).

(** Calls that only connect and query. *)
Definition reads_only (P : list (driver_call * option str)) : Prop :=
  forall c a, In (c, a) P -> c = CallConnect \/ c = CallExecute.

(** *** The runs of [insert_new_records]

    A run is told by the driver calls it makes, newest first, with the
    answer each one gets, and by what it returns or raises.
    [insert_new_records_runs] below shows that every run is one of these. *)

Definition error_result (entity exc : str) (rollback : option str) : result (Z * str) :=
  match rollback with
  | None => Ok (0%Z, lit "Error processing entity " ++ entity ++ lit ": " ++ exc)
  | Some e => Raise e
  end.

(** What [bulk_insert] raises when [executemany] fails with [exc] and
    its rollback is answered by [rollback]. *)
Definition insert_error_of (table_name exc : str) (rollback : option str) : str :=
  match rollback with
  | None => lit "Error inserting into " ++ table_name ++ lit ": " ++ exc
  | Some e => e
  end.

Inductive writer_run (entity : str) : list (driver_call * option str) -> result (Z * str) -> Prop :=
| run_not_connected :
    writer_run entity [] (error_result entity (lit "Database not connected") None)
| run_query_failed exc a :
    writer_run entity [(CallRollback, a); (CallExecute, Some exc)] (error_result entity exc a)
| run_frame_error exc a :
    writer_run entity [(CallRollback, a); (CallExecute, None)] (error_result entity exc a)
| run_nothing_new msg :
    writer_run entity [(CallExecute, None)] (Ok (0%Z, msg))
| run_insert_absorbed k exc a :
    mentions_duplicate (insert_error_of REGULATIONS_TABLE exc a) = true ->
    writer_run entity
      [(CallRollback, a); (CallExecutemany REGULATIONS_TABLE k, Some exc); (CallExecute, None)]
      (Ok (0%Z, lit "Some records for entity " ++ entity ++ lit " were duplicates and skipped"))
| run_insert_failed k exc a a' :
    mentions_duplicate (insert_error_of REGULATIONS_TABLE exc a) = false ->
    writer_run entity
      [(CallRollback, a'); (CallRollback, a);
       (CallExecutemany REGULATIONS_TABLE k, Some exc); (CallExecute, None)]
      (error_result entity (insert_error_of REGULATIONS_TABLE exc a) a')
| run_none_inserted k msg :
    writer_run entity [(CallExecutemany REGULATIONS_TABLE k, None); (CallExecute, None)]
               (Ok (0%Z, msg))
| run_ids_failed k exc a :
    writer_run entity
      [(CallRollback, a); (CallExecute, Some exc);
       (CallExecutemany REGULATIONS_TABLE k, None); (CallExecute, None)]
      (error_result entity exc a)
| run_inserted k msg components :
    (k <> 0)%Z ->
    (components = []
     \/ (exists j, components = [(CallExecutemany REGULATIONS_COMPONENT_TABLE j, None)])
     \/ (exists j exc a, components = [(CallRollback, a);
                                       (CallExecutemany REGULATIONS_COMPONENT_TABLE j, Some exc)])) ->
    writer_run entity
      (components ++ [(CallExecute, None); (CallExecutemany REGULATIONS_TABLE k, None);
                      (CallExecute, None)])
      (Ok (k, msg)).

Definition fetch_latest_created_at (entity : str) : M (option datetime) :=
  result <- execute_query (SelectMaxCreatedAt REGULATIONS_TABLE entity) ;;
  match result with
  | (VStr latest_db_date :: _) :: _ =>
      if is_empty latest_db_date then ret None
      else
        ret (match strptime latest_db_date fmt_datetime with
             | Some d => Some d
             | None =>
                 match split latest_db_date with
                 | first :: _ => strptime first fmt_date
                 | [] => None
                 end
             end)
  | (VDatetime latest_db_date :: _) :: _ =>
      ret (extraccion.normalize_datetime (Some latest_db_date))
  | _ => ret None
  end.

End WithEnviron.

End escritura.

(** ** The synchronous entry point ([lambda.py]) *)

Module lambda.

Import extraccion validacion escritura.

Inductive json :=
| JStr (s : str)
| JInt (z : Z)
| JBool (b : bool).

(** The returned dictionary; [body] is the object that [json.dumps] writes. *)
Record response := { statusCode : Z; body : list (str * json) }.

(** The recognised options of the event. *)
Record event := { num_pages_to_scrape : option Z; force_scrape : option bool }.

Definition opt_str (o : option str) : value :=
  match o with Some s => VStr s | None => VNone end.

Definition row_of_norma (n : norma) : row :=
  [ (lit "created_at", opt_str (created_at n));
    (lit "update_at", VStr (update_at n));
    (lit "is_active", VBool (is_active n));
    (lit "title", opt_str (title n));
    (lit "gtype", opt_str (gtype n));
    (lit "entity", VStr (entity n));
    (lit "external_link", opt_str (external_link n));
    (lit "rtype_id", match rtype_id n with Some z => VInt z | None => VNone end);
    (lit "summary", opt_str (summary n));
    (lit "classification_id", VInt (classification_id n)) ].

(** [pd.DataFrame(all_normas_data)] on a list that is not empty. *)
Definition DataFrame_of_normas (l : list norma) : DataFrame :=
  {| columns := [ lit "created_at"; lit "update_at"; lit "is_active"; lit "title"; lit "gtype";
                  lit "entity"; lit "external_link"; lit "rtype_id"; lit "summary";
                  lit "classification_id" ];
     rows := List.map row_of_norma l |}.

(** The two options of the event as [lambda_handler] reads them: the
    number of pages, 9 when it is not given and never less than 1, and
    whether the scrape is forced. *)
Definition pages_requested (event : option event) : Z :=
  Z.max (match event with
         | Some e => match num_pages_to_scrape e with Some n => n | None => 9%Z end
         | None => 9%Z
         end) 1.

Definition scrape_forced (event : option event) : bool :=
  match event with
  | Some e => match force_scrape e with Some b => b | None => false end
  | None => false
  end.

Definition o_acute : str := [243%N].
Definition a_acute : str := [225%N].

Section WithRuntime.
Context {rt : PyRuntime} {env : Environ}.

Definition _fetch_latest_created_at : M (option datetime) :=
  with_manager (fetch_latest_created_at escritura.ENTITY_VALUE).

(** The body of the [try] of [lambda_handler]. *)
Definition lambda_handler_body (w : web) (rules_file : option rules) (event : option event)
  : M response :=
  let num_pages_to_scrape :=
    match event with
    | Some e => match num_pages_to_scrape e with Some n => n | None => 9%Z end
    | None => 9%Z
    end in
  let num_pages_to_scrape := Z.max num_pages_to_scrape 1 in
  let force_scrape :=
    match event with
    | Some e => match force_scrape e with Some b => b | None => false end
    | None => false
    end in
  has_new_content <-
    (if negb force_scrape then
       fun db =>
         let (latest, db') := _fetch_latest_created_at db in
         (Ok (check_for_new_content w (fun _ => latest) (Z.min 3 num_pages_to_scrape)), db')
     else ret true) ;;
  if negb has_new_content then
    ret {| statusCode := 200;
           body := [ (lit "message",
                      JStr (lit "No se detect" ++ o_acute
                            ++ lit " contenido nuevo. Scraping omitido."));
                     (lit "records_scraped", JInt 0);
                     (lit "records_inserted", JInt 0);
                     (lit "content_check", JStr (lit "no_new_content"));
                     (lit "success", JBool true) ] |}
  else
    let start_page := 0%Z in
    let end_page := (num_pages_to_scrape - 1)%Z in
    let pages_processed := of_Z start_page ++ lit "-" ++ of_Z end_page in
    let all_normas_data := scrape_recent_pages w start_page end_page in
    match all_normas_data with
    | [] =>
        ret {| statusCode := 200;
               body := [ (lit "message",
                          JStr (lit "No se encontraron datos v" ++ a_acute
                                ++ lit "lidos durante el scraping"));
                         (lit "records_scraped", JInt 0);
                         (lit "records_inserted", JInt 0);
                         (lit "pages_processed", JStr pages_processed);
                         (lit "success", JBool true) ] |}
    | _ =>
        let df_normas := DataFrame_of_normas all_normas_data in
        let rules := load_rules rules_file in
        validated <- lift (apply_validation df_normas rules) ;;
        let validated_df := fst validated in
        if empty validated_df then
          ret {| statusCode := 200;
                 body := [ (lit "message",
                            JStr (lit "Todos los registros fueron descartados por validaci"
                                  ++ o_acute ++ lit "n"));
                           (lit "records_scraped", JInt (df_len df_normas));
                           (lit "records_validated", JInt 0);
                           (lit "records_inserted", JInt 0);
                           (lit "pages_processed", JStr pages_processed);
                           (lit "success", JBool true) ] |}
        else
          written <- with_manager (insert_new_records validated_df escritura.ENTITY_VALUE) ;;
          let '(inserted_count, status_message) := written in
          ret {| statusCode := 200;
                 body := [ (lit "message", JStr status_message);
                           (lit "records_scraped", JInt (df_len df_normas));
                           (lit "records_validated", JInt (df_len validated_df));
                           (lit "records_inserted", JInt inserted_count);
                           (lit "pages_processed", JStr pages_processed);
                           (lit "content_check",
                            JStr (if negb force_scrape then lit "new_content_found"
                                  else lit "forced_scrape"));
                           (lit "success", JBool true) ] |}
    end.

(** The failure result of the [except] clause. *)
Definition failure (exc : str) : response :=
  {| statusCode := 500;
     body := [ (lit "message",
                JStr (lit "Error en la ejecuci" ++ o_acute ++ lit "n del proceso: " ++ exc));
               (lit "success", JBool false) ] |}.

Definition lambda_handler (w : web) (rules_file : option rules) (event : option event)
    (db : database) : response * database :=
  match lambda_handler_body w rules_file event db with
  | (Ok r, db') => (r, db')
  | (Raise exc, db') => (failure exc, db')
  end.

End WithRuntime.

End lambda.

(** ** A runtime and sample data for the examples

    The theorems of Part II hold for every [PyRuntime].  To run the
    examples, [sample_runtime] answers for the four patterns of the
    built-in ruleset and for the float texts ["nan"] and plain digit
    strings; on every other pattern it reports [re.error], on every
    other text [ValueError]. *)

Module samples.

Import extraccion validacion escritura lambda.

Definition time_shape : shape :=
  [(32, 32); any_digit; any_digit; (58, 58); any_digit; any_digit; (58, 58);
   any_digit; any_digit]%N.

Definition match_date_prefix (s : str) : bool :=
  match match_shape date_shape s with Some _ => true | None => false end.

Definition match_url (s : str) : bool :=
  if startswith (lit "https://") s then match_any_plus (skipn 8 s)
  else if startswith (lit "http://") s then match_any_plus (skipn 7 s)
  else false.

Definition match_timestamp (s : str) : bool :=
  match match_shape (date_shape ++ time_shape) s with
  | Some (_, rest) => match rest with
                      | [] => true
                      | [c] => (c =? 10)%N
                      | _ => false
                      end
  | None => false
  end.

Definition sample_re_compile (p : str) : result (str -> bool) :=
  if eqb p (lit ".+") then Ok match_any_plus
  else if eqb p (lit "^\d{4}-\d{2}-\d{2}") then Ok match_date_prefix
  else if eqb p (lit "^https?://.+") then Ok match_url
  else if eqb p (lit "^\d{4}-\d{2}-\d{2} \d{2}:\d{2}:\d{2}$") then Ok match_timestamp
  else Raise (lit "unsupported pattern").

Definition sample_float_of_text (t : str) : option str :=
  if eqb (lower t) (lit "nan") then Some (lit "nan")
  else if negb (is_empty t) && forallb isdigit t && (List.length t <=? 15)%nat
  then option_map (fun z => of_Z z ++ lit ".0") (int_of_text t)
  else None.

Definition sample_runtime : PyRuntime :=
  {| float_of_text := sample_float_of_text; re_compile := sample_re_compile |}.

(** *** Rows of a listing page *)

Definition sample_now : str := lit "2024-03-20 08:00:00".

Definition resolucion_anchor : anchor :=
  {| a_text := lit "Resoluci" ++ [243%N] ++ lit "n 123 de 2024";
     a_href := Some (lit "/normatividad/resolucion-123") |}.

Definition row_with_date (fecha : fecha_span) : table_row :=
  {| title_a := Some (Some resolucion_anchor);
     body_text := Some (lit "por la cual se adopta el manual");
     fecha_td := Some {| fecha_span_of := Some fecha; fecha_text := span_text fecha |} |}.

(** A row whose date cell reads "pendiente". *)
Definition pending_row : table_row :=
  row_with_date {| span_content := None; span_text := lit "pendiente" |}.

(** A row dated 15/03/2024, and one dated 2024-03-15T00:00:00-05:00. *)
Definition slash_row : table_row :=
  row_with_date {| span_content := None; span_text := lit "15/03/2024" |}.

Definition iso_row : table_row :=
  row_with_date {| span_content := Some (lit "2024-03-15T00:00:00-05:00");
                   span_text := lit "15/03/2024" |}.

(** Anchors whose cleaned text has 65 and 66 characters. *)
Definition anchor65 : anchor :=
  {| a_text := [34%N] ++ lit "Decreto" ++ [34%N] ++ lit "  " ++ List.repeat 120%N 57; a_href := Some (lit "/d/65") |}.



(** *** Web sites *)

(** A site whose first page lists two rows and whose other pages fail. *)
Definition sample_web : web :=
  {| fetch := fun page_num =>
                if (page_num =? 0)%Z then PageRows [slash_row; pending_row]
                else PageError (lit "HTTPSConnectionPool: Read timed out.");
     now := sample_now |}.

(** A site every page of which fails. *)
Definition dead_web : web :=
  {| fetch := fun _ => PageError (lit "HTTPSConnectionPool: Read timed out.");
     now := sample_now |}.

Definition slash_record : norma :=
  match scrape_row sample_now slash_row with
  | Some n => n
  | None => new_norma sample_now
  end.

Definition march_15 : datetime := mk_datetime 2024 3 15 0 0 0 0 None.

(** *** One-row frames for the title rule *)

Definition title_frame_row (a : anchor) : row := [(lit "title", VStr (clean_quotes (a_text a)))].

Definition title_frame (a : anchor) : DataFrame :=
  {| columns := [lit "title"]; rows := [title_frame_row a] |}.

(** *** A frame of two records that have no field: [pd.DataFrame([{}, {}])] *)

Definition fieldless_frame : DataFrame := {| columns := []; rows := [[]; []] |}.

(** *** A persisted record and a batch

    The scenario of the specification: the store holds
    (A, 2024-01-01, http://x); the batch brings that record again,
    then (B, 2024-01-02, http://y) twice. *)

Definition E : str := escritura.ENTITY_VALUE.

Definition record (title created_at link : string) : row :=
  [ (lit "title", VStr (lit title)); (lit "created_at", VStr (lit created_at));
    (lit "entity", VStr E); (lit "external_link", VStr (lit link)) ].

Definition batch_columns : list str :=
  [lit "title"; lit "created_at"; lit "entity"; lit "external_link"].

Definition sample_batch : DataFrame :=
  {| columns := batch_columns;
     rows := [ record "A" "2024-01-01" "http://x";
               record "B" "2024-01-02" "http://y";
               record "B" "2024-01-02" "http://y" ] |}.

Definition database_of (stored : list row) (answers : list (option str)) : database :=
  {| connected := true;
     tables := [(lit "regulations", stored)];
     next_id := 2;
     faults := answers;
     log := [] |}.

Definition sample_db : database :=
  database_of [row_set (lit "id") (VInt 1) (record "A" "2024-01-01" "http://x")] [].

Definition sample_existing : list (list value) :=
  answer (SelectExisting (lit "regulations") E) sample_db.

Definition sample_partition : partition :=
  match validate_duplicates sample_existing sample_batch E with
  | Ok (Some p) => p
  | _ => {| p_entity_df := sample_batch; p_db_df := sample_batch; new_records := sample_batch;
            duplicates_found := 0; internal_duplicates := 0 |}
  end.

(** *** Databases that refuse the bulk insert

    The store is empty; the first call (the query of the existing
    records) succeeds, the second (the bulk insert) fails, and the
    rollbacks after it succeed. *)

Definition unique_violation : str :=
  lit "duplicate key value violates unique constraint regulations_title_key".

Definition value_too_long : str := lit "value too long for type character varying(50)".

Definition colliding_db : database := database_of [] [None; Some unique_violation; None].

Definition failing_db : database := database_of [] [None; Some value_too_long; None; None].

(** *** A run of the entry point whose bulk insert fails

    A forced scrape of the first page of [sample_web]; the manager
    connects, the query of the existing records succeeds, the bulk
    insert fails on a value that is too long, and the two rollbacks are
    granted. *)

Definition forced_event : option event :=
  Some {| num_pages_to_scrape := Some 1%Z; force_scrape := Some true |}.

Definition insert_refusing_db : database :=
  {| connected := false;
     tables := [(lit "regulations", [])];
     next_id := 1;
     faults := [None; None; Some value_too_long; None; None];
     log := [] |}.

Definition failed_run : response * database :=
  @lambda_handler sample_runtime default_environ sample_web None forced_event insert_refusing_db.

(** *** Two records that differ and share the joined key

    The store holds (A, 2024-01-01, http://x|2024-01-01|http://y); the
    batch brings (A|2024-01-01|http://x, 2024-01-01, http://y). *)

Definition collision_db : database :=
  database_of [row_set (lit "id") (VInt 1)
                 (record "A" "2024-01-01" "http://x|2024-01-01|http://y")] [].

Definition collision_batch : DataFrame :=
  {| columns := batch_columns;
     rows := [record "A|2024-01-01|http://x" "2024-01-01" "http://y"] |}.

(** *** The frame of a scrape, and a run of the validator

    The records of the first page of [sample_web] as a frame, and what
    [apply_validation] returns for a frame and a ruleset under
    [sample_runtime] (the frame itself, with no counts, should it raise). *)

Definition scraped_frame : DataFrame :=
  DataFrame_of_normas (scrape_recent_pages sample_web 0 0).

Definition validation_of (df : DataFrame) (rules_fields : rules) : DataFrame * stats :=
  match @apply_validation sample_runtime df rules_fields with
  | Ok p => p
  | Raise _ => (df, {| rows_received := 0; rows_discarded := 0; rows_valid := 0;
                       invalid_cells := [] |})
  end.

(** *** Stores for the runs of the writer and of the entry point

    The sample store when the query of the new ids fails after the
    bulk insert went through; an empty store that no manager is
    connected to and that grants every call; a forced scrape of the
    first page of [sample_web] and a probed run over [dead_web], both
    on the empty store. *)

Definition ids_refusing_db : database :=
  database_of [row_set (lit "id") (VInt 1) (record "A" "2024-01-01" "http://x")]
              [None; None; Some (lit "server closed the connection unexpectedly"); None].

Definition empty_store : database :=
  {| connected := false;
     tables := [(lit "regulations", [])];
     next_id := 1;
     faults := [];
     log := [] |}.

Definition forced_run : response * database :=
  @lambda_handler sample_runtime default_environ sample_web None forced_event empty_store.

Definition quiet_run : response * database :=
  @lambda_handler sample_runtime default_environ dead_web None None empty_store.

(** *** A store that holds the whole sample batch *)

Definition stocked_db : database :=
  database_of [ row_set (lit "id") (VInt 1) (record "A" "2024-01-01" "http://x");
                row_set (lit "id") (VInt 2) (record "B" "2024-01-02" "http://y") ] [].

Definition stocked_partition : partition :=
  match validate_duplicates (answer (SelectExisting (lit "regulations") E) stocked_db)
                            sample_batch E with
  | Ok (Some p) => p
  | _ => sample_partition
  end.

(** The first record that the built-in rules keep of [scraped_frame]. *)
Definition validated_row : row :=
  match rows (fst (validation_of scraped_frame DEFAULT_RULES)) with
  | r :: _ => r
  | [] => []
  end.

(** *** Stores that refuse a connection

    [unreachable_store] refuses the first connection, the one of the
    probe, and grants every later call; [writer_refusing_store] grants
    the connection and the query of the probe and refuses the
    connection of the writer.  Both runs are probed ones, over
    [sample_web]. *)

Definition unreachable_store : database :=
  {| connected := false;
     tables := [(lit "regulations", [])];
     next_id := 1;
     faults := [Some (lit "connection refused")];
     log := [] |}.

Definition writer_refusing_store : database :=
  {| connected := false;
     tables := [(lit "regulations", [])];
     next_id := 1;
     faults := [None; None; Some (lit "connection refused")];
     log := [] |}.

Definition probe_refused_run : response * database :=
  @lambda_handler sample_runtime default_environ sample_web None None unreachable_store.

Definition writer_refused_run : response * database :=
  @lambda_handler sample_runtime default_environ sample_web None None writer_refusing_store.

(** *** Stores on which the rollback of a refused bulk insert fails

    The store is empty; the query of the existing records succeeds, the
    bulk insert fails on a unique constraint, and the rollback of
    [bulk_insert] fails because the connection is lost; the rollback of
    [insert_new_records] fails too on the first store and goes through
    on the second.  On [spanish_colliding_db] the server words the
    unique violation in Spanish (here without its accent) and grants
    the rollbacks. *)

Definition lost_connection : str := lit "server closed the connection unexpectedly".

Definition rollback_refusing_db : database :=
  database_of [] [None; Some unique_violation; Some lost_connection; Some lost_connection].

Definition rollback_refusing_once_db : database :=
  database_of [] [None; Some unique_violation; Some lost_connection; None].

Definition violacion_de_unicidad : str :=
  lit "llave duplicada viola restriccion de unicidad regulations_title_key".

Definition spanish_colliding_db : database :=
  database_of [] [None; Some violacion_de_unicidad; None; None].

(** The frame of the nine pages a probed run scrapes by default, and
    [writer_refusing_store] as the probe leaves it. *)
Definition scraped_nine : DataFrame :=
  DataFrame_of_normas (scrape_recent_pages sample_web 0 (pages_requested None - 1)).

Definition after_sample_probe : database :=
  snd (@_fetch_latest_created_at default_environ writer_refusing_store).

End samples.

(* ===================================================================== *)
(** * Part II. Properties *)
(* ===================================================================== *)

(** ** Facts about strings *)

Section StringFacts.

Lemma eqb_refl (a : str) : eqb a a = true.
Proof.
  induction a as [|x a IH]; simpl; [reflexivity|].
  now rewrite N.eqb_refl, IH.
Qed.

Lemma eqb_eq (a b : str) : eqb a b = true <-> a = b.
Proof.
  split; [|intros ->; apply eqb_refl].
  revert b; induction a as [|x a IH]; destruct b as [|y b]; simpl; try discriminate; auto.
  intros H. apply andb_true_iff in H as [Hx Hab].
  apply N.eqb_eq in Hx. f_equal; auto.
Qed.

Lemma eqb_neq (a b : str) : eqb a b = false <-> a <> b.
Proof.
  split.
  - intros H E. apply eqb_eq in E. congruence.
  - intros H. destruct (eqb a b) eqn:E; [|reflexivity].
    apply eqb_eq in E. contradiction.
Qed.

Lemma lstrip_blank (s : str) : is_empty (lstrip s) = blank_str s.
Proof.
  induction s as [|c s IH]; simpl; [reflexivity|].
  destruct (isspace c); simpl; auto.
Qed.

Lemma rstrip_blank (s : str) : is_empty (rstrip s) = blank_str s.
Proof.
  induction s as [|c s IH]; simpl; [reflexivity|].
  destruct (rstrip s) as [|r rs]; simpl in *.
  - rewrite <- IH. destruct (isspace c); reflexivity.
  - rewrite <- IH. now rewrite andb_false_r.
Qed.

Lemma blank_lstrip (s : str) : blank_str (lstrip s) = blank_str s.
Proof.
  induction s as [|c s IH]; simpl; [reflexivity|].
  destruct (isspace c) eqn:E; simpl; [assumption|now rewrite E].
Qed.

Lemma strip_blank (s : str) : is_empty (strip s) = blank_str s.
Proof. unfold strip. now rewrite rstrip_blank, blank_lstrip. Qed.

Lemma split_blank (s : str) :
  match split s with [] => true | _ :: _ => false end = blank_str s.
Proof.
  induction s as [|c s IH]; [reflexivity|].
  cbn [split blank_str forallb]. fold (blank_str s).
  destruct (isspace c); simpl; [assumption|].
  destruct s as [|c' s']; [reflexivity|].
  destruct (isspace c'); [reflexivity|].
  destruct (split (c' :: s')); reflexivity.
Qed.

Lemma lstrip_no_space (s : str) : no_space s = true -> lstrip s = s.
Proof.
  destruct s as [|c s]; simpl; [reflexivity|].
  intros H. apply andb_true_iff in H as [Hc _].
  now destruct (isspace c).
Qed.

Lemma rstrip_fixed_app (a r : str) : rstrip r = r -> r <> [] -> rstrip (a ++ r) = a ++ r.
Proof.
  intros Hr Hne. induction a as [|c a IH]; simpl; [assumption|].
  rewrite IH. destruct (a ++ r) eqn:E; [|reflexivity].
  apply app_eq_nil in E as [_ E]. contradiction.
Qed.

Lemma rstrip_no_space (s : str) : no_space s = true -> rstrip s = s.
Proof.
  induction s as [|c s IH]; simpl; [reflexivity|].
  intros H. apply andb_true_iff in H as [Hc Hs].
  rewrite (IH Hs). destruct s; [|reflexivity].
  now destruct (isspace c).
Qed.

Lemma strip_no_space (s : str) : no_space s = true -> strip s = s.
Proof.
  intros H. unfold strip. rewrite (lstrip_no_space _ H). now apply rstrip_no_space.
Qed.

Lemma split_no_space (s : str) : no_space s = true -> s <> [] -> split s = [s].
Proof.
  induction s as [|c s IH]; [congruence|].
  intros H _. cbn [no_space forallb] in H. apply andb_true_iff in H as [Hc Hs].
  cbn [split]. destruct (isspace c); [discriminate|].
  destruct s as [|c' s']; [reflexivity|].
  assert (Hc' : isspace c' = false).
  { cbn [forallb] in Hs. apply andb_true_iff in Hs as [Hc' _]. now destruct (isspace c'). }
  rewrite Hc'. rewrite (IH Hs); [reflexivity|discriminate].
Qed.

(** The words of [split] are not empty and hold no white space. *)
Lemma split_words (s : str) :
  Forall (fun t => t <> [] /\ no_space t = true) (split s).
Proof.
  induction s as [|c s IH]; [constructor|].
  cbn [split]. destruct (isspace c) eqn:Ec; [assumption|].
  destruct s as [|c' s']; [repeat constructor; [discriminate|simpl; now rewrite Ec]|].
  destruct (isspace c') eqn:Ec'.
  - constructor; [|assumption]. split; [discriminate|simpl; now rewrite Ec].
  - destruct (split (c' :: s')) as [|t ts]; [repeat constructor; [discriminate|simpl; now rewrite Ec]|].
    inversion IH as [|? ? [Ht1 Ht2] Hts]; subst.
    constructor; [|assumption]. split; [discriminate|].
    simpl. now rewrite Ec, Ht2.
Qed.

Lemma join_words_head (ws : list str) :
  Forall (fun t => t <> [] /\ no_space t = true) ws ->
  match join (lit " ") ws with
  | c :: _ => isspace c = false
  | [] => ws = []
  end.
Proof.
  intros H. destruct ws as [|w ws]; [reflexivity|].
  inversion H as [|? ? [Hne Hns] _]; subst.
  destruct w as [|c w]; [congruence|].
  simpl in Hns. apply andb_true_iff in Hns as [Hc _].
  destruct ws; simpl; now destruct (isspace c).
Qed.

Lemma rstrip_join_words (ws : list str) :
  Forall (fun t => t <> [] /\ no_space t = true) ws ->
  rstrip (join (lit " ") ws) = join (lit " ") ws.
Proof.
  induction ws as [|w ws IH]; [reflexivity|].
  intros H. inversion H as [|? ? [Hne Hns] Hws]; subst.
  destruct ws as [|w' ws'].
  - simpl. now apply rstrip_no_space.
  - change (join (lit " ") (w :: w' :: ws')) with (w ++ lit " " ++ join (lit " ") (w' :: ws')).
    rewrite app_assoc. apply rstrip_fixed_app; [now apply IH|].
    pose proof (join_words_head Hws) as Hh.
    destruct (join (lit " ") (w' :: ws')); [discriminate|discriminate].
Qed.

Lemma strip_join_words (ws : list str) :
  Forall (fun t => t <> [] /\ no_space t = true) ws ->
  strip (join (lit " ") ws) = join (lit " ") ws.
Proof.
  intros H. unfold strip.
  pose proof (join_words_head H) as Hh.
  destruct (join (lit " ") ws) as [|c s] eqn:E; [reflexivity|].
  cbn [lstrip]. rewrite Hh. rewrite <- E. now apply rstrip_join_words.
Qed.

End StringFacts.

(** ** Extraction: which rows are skipped *)

Section ExtractionFacts.

Import extraccion.

Lemma is_valid_created_at_blank (v : option str) :
  is_valid_created_at (as_created_at v) = negb (blank_opt v).
Proof.
  destruct v as [s|]; [|reflexivity].
  simpl. destruct s as [|c s]; [reflexivity|].
  cbn [is_empty]. now rewrite strip_blank.
Qed.

Lemma blank_has_no_char (c : char) (s : str) :
  blank_str s = true -> isspace c = false -> has_char c s = false.
Proof.
  intros Hb Hc. induction s as [|x s IH]; [reflexivity|].
  simpl in *. apply andb_true_iff in Hb as [Hx Hs].
  rewrite (IH Hs), orb_false_r.
  destruct (N.eqb_spec c x); [subst; congruence|reflexivity].
Qed.

Lemma normalize_created_at_plain (raw : str) :
  has_char 84%N raw = false -> has_char 47%N raw = false -> normalize_created_at raw = raw.
Proof. intros HT Hs. unfold normalize_created_at. now rewrite HT, Hs. Qed.

Lemma extract_title_and_link_sets_title (row : table_row) (nd : norma) :
  fst (extract_title_and_link row nd) = true ->
  exists t, title (snd (extract_title_and_link row nd)) = Some t.
Proof.
  unfold extract_title_and_link.
  destruct (title_a row) as [[a|]|]; simpl; try discriminate.
  destruct (65 <? len (clean_quotes (a_text a)))%Z; simpl; [discriminate|].
  intros _. eexists. reflexivity.
Qed.

Lemma extract_title_and_link_keeps_date (row : table_row) (nd : norma) :
  created_at (snd (extract_title_and_link row nd)) = created_at nd.
Proof.
  unfold extract_title_and_link.
  destruct (title_a row) as [[a|]|]; simpl; try reflexivity.
  destruct (65 <? len (clean_quotes (a_text a)))%Z; reflexivity.
Qed.

(** A row is skipped exactly when the title and link step refuses it
    or the stored date is missing or blank. *)
Lemma scrape_row_None_iff (now : str) (row : table_row) :
  scrape_row now row = None <->
  fst (extract_title_and_link row (new_norma now)) = false
  \/ blank_opt (created_at_of_row row) = true.
Proof.
  unfold scrape_row.
  pose proof (extract_title_and_link_sets_title row (new_norma now)) as Ht.
  destruct (extract_title_and_link row (new_norma now)) as [ok nd]; simpl in *.
  destruct ok; simpl; [|tauto].
  unfold extract_creation_date. cbn [created_at set_created_at].
  rewrite is_valid_created_at_blank.
  destruct (blank_opt (created_at_of_row row)); simpl; [tauto|].
  destruct (Ht eq_refl) as [t Et].
  assert (E : title (extract_summary row nd) = Some t).
  { unfold extract_summary. destruct (body_text row); exact Et. }
  cbn [title set_created_at]. rewrite E.
  split; [discriminate|intros [H|H]; discriminate].
Qed.

Lemma scrape_row_created_at (now : str) (row : table_row) (n : norma) :
  scrape_row now row = Some n -> created_at n = created_at_of_row row.
Proof.
  unfold scrape_row.
  destruct (extract_title_and_link row (new_norma now)) as [ok nd]; simpl.
  destruct ok; simpl; [|discriminate].
  unfold extract_creation_date. cbn [created_at set_created_at].
  destruct (is_valid_created_at _); simpl; [|discriminate].
  destruct (title _); [|discriminate].
  intros H. injection H as <-. reflexivity.
Qed.

(** C7, as the specification words it, fails: a row whose date text is
    "pendiente", neither of the two shapes, is emitted. *)
Lemma unparseable_date_row_is_emitted :
  date_text_of_row samples.pending_row = Some (lit "pendiente")
  /\ iso_datetime_style (lit "pendiente") = false
  /\ dmy_style (lit "pendiente") = false
  /\ option_map created_at (scrape_row samples.sample_now samples.pending_row)
     = Some (Some (lit "pendiente")).
Proof. repeat split; vm_compute; reflexivity. Qed.

(** C7, amended.  A row is skipped for its date when the date cell is
    missing or the stored date is empty or all white space; a date text
    that is not blank and has neither a [T] nor a [/] is stored as it is
    and the row is emitted once the title and link step accepts it. *)
Theorem scrape_row_date_rule (now : str) (row : table_row) :
  (date_text_of_row row = None -> scrape_row now row = None)
  /\ (forall raw, date_text_of_row row = Some raw -> blank_str raw = true ->
        scrape_row now row = None)
  /\ (blank_opt (created_at_of_row row) = true -> scrape_row now row = None)
  /\ (forall raw,
        date_text_of_row row = Some raw ->
        blank_str raw = false -> has_char 84%N raw = false -> has_char 47%N raw = false ->
        fst (extract_title_and_link row (new_norma now)) = true ->
        exists n, scrape_row now row = Some n /\ created_at n = Some raw).
Proof.
  assert (Hstored : forall raw, date_text_of_row row = Some raw ->
            has_char 84%N raw = false -> has_char 47%N raw = false ->
            created_at_of_row row = Some raw).
  { intros raw Hraw HT Hs. unfold date_text_of_row, created_at_of_row in *.
    destruct (fecha_td row) as [cell|]; [|discriminate].
    destruct (fecha_span_of cell) as [sp|]; [|assumption].
    injection Hraw as Hraw. rewrite Hraw. now rewrite normalize_created_at_plain. }
  repeat split.
  - intros H. apply scrape_row_None_iff. right.
    unfold date_text_of_row, created_at_of_row in *.
    destruct (fecha_td row) as [cell|]; [|reflexivity].
    destruct (fecha_span_of cell); discriminate.
  - intros raw Hraw Hb. apply scrape_row_None_iff. right.
    rewrite (Hstored raw Hraw); [exact Hb| |]; now apply blank_has_no_char.
  - intros H. apply scrape_row_None_iff. now right.
  - intros raw Hraw Hb HT Hs Hok.
    destruct (scrape_row now row) as [n|] eqn:E.
    + exists n. split; [reflexivity|].
      rewrite (scrape_row_created_at _ _ E). now apply Hstored.
    + apply scrape_row_None_iff in E. rewrite (Hstored raw Hraw HT Hs) in E.
      simpl in E. destruct E; congruence.
Qed.

Lemma scrape_row_date_rule_witness :
  date_text_of_row samples.pending_row = Some (lit "pendiente")
  /\ blank_str (lit "pendiente") = false
  /\ has_char 84%N (lit "pendiente") = false
  /\ has_char 47%N (lit "pendiente") = false
  /\ fst (extract_title_and_link samples.pending_row (new_norma samples.sample_now)) = true
  /\ exists n, scrape_row samples.sample_now samples.pending_row = Some n
               /\ created_at n = Some (lit "pendiente").
Proof.
  repeat (split; [reflexivity|]).
  apply (proj2 (proj2 (proj2 (scrape_row_date_rule samples.sample_now samples.pending_row)))
           (lit "pendiente")); reflexivity.
Defined.

End ExtractionFacts.

(** ** The change probe *)

Section ProbeFacts.

Import extraccion.

Lemma range_from_In (x lo : Z) (k : nat) :
  In x (range_from lo k) <-> (lo <= x < lo + Z.of_nat k)%Z.
Proof.
  revert lo. induction k as [|k IH]; intros lo; simpl range_from.
  - simpl. lia.
  - simpl In. rewrite IH. lia.
Qed.

Lemma isdigit_not_space (c : char) : isdigit c = true -> isspace c = false.
Proof.
  unfold isdigit, isspace. intros H.
  apply andb_true_iff in H as [H1 H2].
  apply N.leb_le in H1. apply N.leb_le in H2.
  replace (c <=? 13)%N with false by (symmetry; apply N.leb_gt; lia).
  replace (c <=? 32)%N with false by (symmetry; apply N.leb_gt; lia).
  replace (8192 <=? c)%N with false by (symmetry; apply N.leb_gt; lia).
  repeat match goal with
  | |- context [(c =? ?b)%N] =>
      replace (c =? b)%N with false by (symmetry; apply N.eqb_neq; lia)
  end.
  now rewrite !andb_false_r.
Qed.

(** A text that [strptime] accepts in a format that opens with [%Y]
    opens with a digit. *)
Lemma match_year_head (items : list fmt_item) (s : str) (r : captures * str) :
  match_items (FDir DY :: items) s = Some r ->
  exists c s', s = c :: s' /\ isdigit c = true.
Proof.
  destruct s as [|c s']; [discriminate|].
  intros H. exists c, s'. split; [reflexivity|].
  cbn [match_items shapes_of match_shape any_digit] in H.
  unfold isdigit. destruct ((48 <=? c)%N && (c <=? 57)%N); [reflexivity|discriminate].
Qed.

Lemma strptime_date_head (s : str) (d : datetime) :
  strptime s fmt_date = Some d -> exists c s', s = c :: s' /\ isdigit c = true.
Proof.
  unfold strptime.
  change (compile_format fmt_date) with (Some [FDir DY; FLit 45%N; FDir Dm; FLit 45%N; FDir Dd]).
  cbv beta iota.
  destruct (match_items (FDir DY :: _) s) as [r|] eqn:E; [|discriminate].
  intros _. eapply match_year_head. exact E.
Qed.

Lemma strptime_datetime_head (s : str) (d : datetime) :
  strptime s fmt_datetime = Some d -> exists c s', s = c :: s' /\ isdigit c = true.
Proof.
  unfold strptime.
  change (compile_format fmt_datetime)
    with (Some [FDir DY; FLit 45%N; FDir Dm; FLit 45%N; FDir Dd; FSpace;
                FDir DH; FLit 58%N; FDir DM; FLit 58%N; FDir DS]).
  cbv beta iota.
  destruct (match_items (FDir DY :: _) s) as [r|] eqn:E; [|discriminate].
  intros _. eapply match_year_head. exact E.
Qed.

Lemma parse_web_date_not_blank (s : str) (d : datetime) :
  parse_web_date s = Some d -> blank_str s = false.
Proof.
  unfold parse_web_date. intros H.
  destruct (strptime s fmt_datetime) as [d'|] eqn:E.
  - apply strptime_datetime_head in E as (c & s' & -> & Hc).
    simpl. now rewrite (isdigit_not_space _ Hc).
  - rewrite <- split_blank. destruct (split s); [discriminate|reflexivity].
Qed.

(** A record counts as new on an empty history as soon as its date parses. *)
Lemma record_is_new_without_history (record : norma) (s : str) (d : datetime) :
  created_at record = Some s -> parse_web_date s = Some d ->
  record_is_new None record = true.
Proof.
  intros Hs Hd. unfold record_is_new. rewrite Hs.
  change (CaStr s) with (as_created_at (Some s)).
  rewrite is_valid_created_at_blank. simpl.
  rewrite (parse_web_date_not_blank _ Hd). simpl. now rewrite Hd.
Qed.

(** A record whose date does not parse never counts as new. *)
Lemma record_is_new_unparseable (latest : option datetime) (record : norma) :
  (forall s, created_at record = Some s -> parse_web_date s = None) ->
  record_is_new latest record = false.
Proof.
  intros H. unfold record_is_new.
  destruct (created_at record) as [s|]; [|reflexivity].
  rewrite (H s eq_refl). now destruct (negb _).
Qed.

(** C3.  The probe answers [true] when the accessor raises, and when
    the accessor finds no persisted date and some probed page holds a
    record whose creation date parses. *)
Theorem probe_conservatism (w : web) (accessor : unit -> result (option datetime))
    (num_pages_to_check : Z) :
  (forall exc, accessor tt = Raise exc ->
     check_for_new_content w accessor num_pages_to_check = true)
  /\ (accessor tt = Ok None ->
      (exists page_num record s d,
         (0 <= page_num < num_pages_to_check)%Z
         /\ In record (scrape_page w page_num)
         /\ created_at record = Some s
         /\ parse_web_date s = Some d) ->
      check_for_new_content w accessor num_pages_to_check = true).
Proof.
  split.
  - intros exc H. unfold check_for_new_content. now rewrite H.
  - intros H (page_num & record & s & d & Hp & Hin & Hs & Hd).
    unfold check_for_new_content. rewrite H. simpl normalize_datetime.
    apply existsb_exists. exists page_num. split.
    + apply range_from_In. lia.
    + apply existsb_exists. exists record. split; [assumption|].
      eapply record_is_new_without_history; eassumption.
Qed.

(** C10.  When the accessor answers and no record of the probed pages
    has a creation date that parses, the probe answers [false],
    whatever the persisted date, also when there is none; this is so
    when every page fetch fails. *)
Theorem probe_without_dates_is_false (w : web) (accessor : unit -> result (option datetime))
    (latest : option datetime) (num_pages_to_check : Z) :
  accessor tt = Ok latest ->
  ((forall page_num record s,
      (0 <= page_num < num_pages_to_check)%Z ->
      In record (scrape_page w page_num) -> created_at record = Some s ->
      parse_web_date s = None) ->
   check_for_new_content w accessor num_pages_to_check = false)
  /\ ((forall page_num, (0 <= page_num < num_pages_to_check)%Z ->
         exists exc, fetch w page_num = PageError exc) ->
      check_for_new_content w accessor num_pages_to_check = false).
Proof.
  intros Hacc.
  assert (Hmain : (forall page_num record s,
      (0 <= page_num < num_pages_to_check)%Z ->
      In record (scrape_page w page_num) -> created_at record = Some s ->
      parse_web_date s = None) ->
   check_for_new_content w accessor num_pages_to_check = false).
  { intros H. unfold check_for_new_content. rewrite Hacc.
    apply not_true_is_false. intros Hex.
    apply existsb_exists in Hex as (page_num & Hr & Hex).
    apply existsb_exists in Hex as (record & Hin & Hnew).
    apply range_from_In in Hr.
    rewrite record_is_new_unparseable in Hnew; [discriminate|].
    intros s Hs. apply (H page_num record s); [lia|assumption|assumption]. }
  split; [exact Hmain|].
  intros Hfail. apply Hmain. intros page_num record s Hp Hin _.
  destruct (Hfail page_num Hp) as [exc Hexc].
  unfold scrape_page in Hin. rewrite Hexc in Hin. destruct Hin.
Qed.

End ProbeFacts.

Section ProbeExamples.

Import extraccion samples.

Lemma probe_conservatism_witness :
  (fun _ : unit => Ok (@None datetime)) tt = Ok None
  /\ check_for_new_content sample_web (fun _ => Ok None) 3 = true
  /\ check_for_new_content dead_web (fun _ => Raise (lit "connection refused")) 3 = true.
Proof.
  split; [reflexivity|]. split.
  - apply (proj2 (probe_conservatism sample_web (fun _ => Ok None) 3) eq_refl).
    exists 0%Z, slash_record, (lit "2024-03-15"), march_15.
    repeat split; try (vm_compute; congruence).
    left. reflexivity.
  - apply (proj1 (probe_conservatism dead_web (fun _ => Raise (lit "connection refused")) 3)
             (lit "connection refused")).
    reflexivity.
Defined.

Lemma probe_without_dates_is_false_witness :
  check_for_new_content dead_web (fun _ => Ok None) 3 = false.
Proof.
  apply (proj2 (probe_without_dates_is_false dead_web (fun _ => Ok None) 3 eq_refl)).
  intros page_num _. eexists. reflexivity.
Defined.

End ProbeExamples.

(** ** The probe's date parser and the coercion's *)

Section DateParsers.

Import extraccion validacion.

Lemma match_shape_app (sh : shape) (s txt rest : str) :
  match_shape sh s = Some (txt, rest) -> s = txt ++ rest.
Proof.
  revert s txt rest. induction sh as [|[lo hi] sh IH]; intros s txt rest.
  - simpl. intros H. injection H as <- <-. reflexivity.
  - destruct s as [|c s]; [discriminate|]. simpl.
    destruct ((lo <=? c)%N && (c <=? hi)%N); [|discriminate].
    destruct (match_shape sh s) as [[t r]|] eqn:E; [|discriminate].
    intros H. injection H as <- <-. simpl. f_equal. now apply IH.
Qed.

Lemma no_space_app (a b : str) : no_space (a ++ b) = no_space a && no_space b.
Proof. unfold no_space. apply forallb_app. Qed.

Lemma match_spaces_space (R : Type) (k : str -> option R) (s : str) (r : R) :
  match_spaces k s = Some r -> no_space s = false.
Proof.
  destruct s as [|c s]; [discriminate|]. simpl.
  destruct (isspace c); [reflexivity|discriminate].
Qed.

(** A format with a run of white space only matches a text that has some. *)
Lemma match_items_space (items : list fmt_item) (s : str) (r : captures * str) :
  In FSpace items -> match_items items s = Some r -> no_space s = false.
Proof.
  revert s r. induction items as [|it items IH]; intros s r Hin; [destruct Hin|].
  destruct it as [c| |d].
  - destruct Hin as [Hin|Hin]; [discriminate|].
    destruct s as [|x s]; [discriminate|]. cbn [match_items].
    destruct (x =? c)%N; [|discriminate].
    intros H. simpl. rewrite (IH _ _ Hin H). apply andb_false_r.
  - cbn [match_items]. apply match_spaces_space.
  - destruct Hin as [Hin|Hin]; [discriminate|].
    cbn [match_items]. generalize (shapes_of d) as shs.
    induction shs as [|sh shs IHs]; [discriminate|].
    destruct (match_shape sh s) as [[txt rest]|] eqn:Esh; [|exact IHs].
    destruct (match_items items rest) as [[caps r']|] eqn:Eit; [|exact IHs].
    intros _. rewrite (match_shape_app _ _ Esh), no_space_app.
    rewrite (IH _ _ Hin Eit). apply andb_false_r.
Qed.

Lemma strptime_datetime_needs_space (s : str) :
  no_space s = true -> strptime s fmt_datetime = None.
Proof.
  intros Hs. unfold strptime.
  change (compile_format fmt_datetime)
    with (Some [FDir DY; FLit 45%N; FDir Dm; FLit 45%N; FDir Dd; FSpace;
                FDir DH; FLit 58%N; FDir DM; FLit 58%N; FDir DS]).
  cbv beta iota.
  destruct (match_items (FDir DY :: _) s) as [r|] eqn:E; [|reflexivity].
  apply match_items_space in E; [congruence|].
  simpl. tauto.
Qed.

(** C6, as the specification words it, fails: the probe accepts
    "2024-01-01 foo", which the coercion refuses. *)
Lemma probe_accepts_what_coercion_refuses :
  parse_web_date (lit "2024-01-01 foo") = Some (mk_datetime 2024 1 1 0 0 0 0 None)
  /\ date_of_text (lit "2024-01-01 foo") = None
  /\ @coerce_value samples.sample_runtime (lit "date") (VStr (lit "2024-01-01 foo")) = None.
Proof. repeat split; vm_compute; reflexivity. Qed.

(** The converse fails as well: [%d] also reads a day written with a
    leading blank, which the coercion accepts on the whole text and the
    probe loses when it cuts the text at the first word. *)
Lemma coercion_accepts_what_probe_refuses :
  date_of_text (lit "2024-01- 5") = Some (mk_datetime 2024 1 5 0 0 0 0 None)
  /\ parse_web_date (lit "2024-01- 5") = None.
Proof. split; vm_compute; reflexivity. Qed.

(** C6, amended.  The probe tries [%Y-%m-%d %H:%M:%S] on the whole
    candidate and then [%Y-%m-%d] on its first word, the coercion
    [%Y-%m-%d] and then [%Y-%m-%d %H:%M:%S] on the trimmed text.  On a
    candidate without white space the two accept the same texts and
    give the same value; and a candidate the probe cannot parse is
    skipped, it never counts as new. *)
Theorem probe_parser_and_coercion (s : str) :
  (no_space s = true -> parse_web_date s = date_of_text s)
  /\ (forall latest record,
        created_at record = Some s -> parse_web_date s = None ->
        record_is_new latest record = false).
Proof.
  split.
  - intros Hs. unfold parse_web_date, date_of_text, parse_date_text.
    rewrite (strip_no_space _ Hs), (strptime_datetime_needs_space _ Hs).
    destruct s as [|c s]; [reflexivity|].
    rewrite (split_no_space Hs); [|discriminate].
    cbn [is_empty]. now destruct (strptime (c :: s) fmt_date).
  - intros latest record Hc Hp. apply record_is_new_unparseable.
    intros s' Hs'. congruence.
Qed.

Lemma probe_parser_and_coercion_witness :
  no_space (lit "2024-03-15") = true
  /\ parse_web_date (lit "2024-03-15") = date_of_text (lit "2024-03-15")
  /\ created_at samples.slash_record = Some (lit "2024-03-15")
  /\ created_at (set_created_at (Some (lit "pendiente")) samples.slash_record)
     = Some (lit "pendiente")
  /\ parse_web_date (lit "pendiente") = None
  /\ record_is_new None (set_created_at (Some (lit "pendiente")) samples.slash_record) = false.
Proof.
  split; [reflexivity|]. split.
  - apply (proj1 (probe_parser_and_coercion (lit "2024-03-15"))). reflexivity.
  - repeat (split; [reflexivity|]).
    apply (proj2 (probe_parser_and_coercion (lit "pendiente")) None); reflexivity.
Defined.

End DateParsers.

(** ** Data frames *)

Section FrameFacts.

Lemma row_get_set_same (c : str) (v : value) (r : row) : row_get c (row_set c v r) = v.
Proof.
  induction r as [|[k v'] r IH]; simpl.
  - now rewrite eqb_refl.
  - destruct (eqb k c) eqn:E; simpl; now rewrite E.
Qed.

Lemma row_get_set_other (c c' : str) (v : value) (r : row) :
  eqb c c' = false -> row_get c' (row_set c v r) = row_get c' r.
Proof.
  intros Hne. induction r as [|[k v'] r IH]; simpl.
  - now rewrite Hne.
  - destruct (eqb k c) eqn:E; simpl.
    + apply eqb_eq in E. subst k. now rewrite Hne.
    + destruct (eqb k c'); [reflexivity|assumption].
Qed.


Lemma keep_first_length (subset : list str) (seen : list (list value)) (rs : list row) :
  (List.length (keep_first subset seen rs) <= List.length rs)%nat.
Proof.
  revert seen. induction rs as [|r rs IH]; intros seen; simpl; [lia|].
  destruct (existsb _ seen); simpl.
  - specialize (IH seen). lia.
  - specialize (IH (key_of subset r :: seen)). lia.
Qed.


Lemma set_column_rows (c : str) (f : row -> value) (df : DataFrame) :
  rows (set_column c (List.map f (rows df)) df) = List.map (fun r => row_set c (f r) r) (rows df).
Proof.
  unfold set_column; simpl. induction (rows df) as [|r rs IH]; simpl; [reflexivity|].
  now rewrite IH.
Qed.

Lemma set_column_len (c : str) (f : row -> value) (df : DataFrame) :
  df_len (set_column c (List.map f (rows df)) df) = df_len df.
Proof. unfold df_len. now rewrite set_column_rows, length_map. Qed.

End FrameFacts.

(** ** The title length boundary *)

Section TitleBoundary.

Import extraccion validaciones validacion.

Context {rt : PyRuntime}.
Variable any_plus : str -> bool.
Hypothesis re_any_plus : re_compile (lit ".+") = Ok any_plus.
Hypothesis any_plus_spec : forall s, any_plus s = match_any_plus s.





End TitleBoundary.

Section TitleBoundaryExample.

Import extraccion validaciones validacion samples.


End TitleBoundaryExample.

(** ** The required-field invariant of the validator *)

Section RequiredFields.

Import validaciones validacion.

Context {rt : PyRuntime}.

Lemma field_step_required (df : DataFrame) (ic : list (str * Z)) (req : list str)
    (field : str) (config : field_config) (st' : loop_state) :
  field_step (df, ic, req) field config = Ok st' ->
  snd st' = req ++ (if cfg_required config then [field] else []).
Proof.
  unfold field_step.
  assert (E : (if cfg_required config then req ++ [field] else req)
              = req ++ (if cfg_required config then [field] else [])).
  { destruct (cfg_required config); [reflexivity|now rewrite app_nil_r]. }
  destruct (negb (has_column field df)).
  - intros H. injection H as <-. exact E.
  - destruct (regex_step _ _); [|discriminate].
    intros H. injection H as <-. exact E.
Qed.

Lemma fields_loop_required (rules_fields : rules) (st st' : loop_state) :
  fields_loop st rules_fields = Ok st' ->
  snd st' = snd st ++ required_fields_of rules_fields.
Proof.
  revert st. induction rules_fields as [|[field config] rest IH]; intros st; simpl.
  - intros H. injection H as <-. now rewrite app_nil_r.
  - destruct st as [[df ic] req].
    destruct (field_step (df, ic, req) field config) as [st1|] eqn:E; [|discriminate].
    intros H. rewrite (IH _ H), (field_step_required _ _ _ _ _ E).
    unfold required_fields_of. simpl. rewrite <- app_assoc.
    now destruct (cfg_required config).
Qed.

Lemma required_fields_of_In (rules_fields : rules) (f : str) (cfg : field_config) :
  In (f, cfg) rules_fields -> cfg_required cfg = true -> In f (required_fields_of rules_fields).
Proof.
  intros Hin Hreq. unfold required_fields_of.
  apply in_map_iff. exists (f, cfg). split; [reflexivity|].
  apply filter_In. split; assumption.
Qed.

(** On a frame that has a column the validator returns
    rows that all have a value in every field the ruleset marks
    required; when the frame has rows too, the returned rows are the
    cleaned rows whose required fields are all non-null, as they are: a
    row is dropped exactly when a required field of it is null after the
    type, pattern and length steps, and a row that is null in other
    fields only is kept with those nulls. *)
Theorem apply_validation_required_fields (df : DataFrame) (rules_fields : rules)
    (out : DataFrame) (st : stats) :
  apply_validation df rules_fields = Ok (out, st) ->
  columns df <> [] ->
  (forall r f cfg,
     In r (rows out) -> In (f, cfg) rules_fields -> cfg_required cfg = true ->
     is_null (row_get f r) = false)
  /\ (rows df <> [] ->
      exists df_clean,
        fields_loop (df, [], []) rules_fields
        = Ok (df_clean, invalid_cells st, required_fields_of rules_fields)
        /\ rows out
           = filter (fun r => forallb (fun f => negb (is_null (row_get f r)))
                                      (required_fields_of rules_fields))
                    (rows df_clean)).
Proof.
  intros H Hcols. unfold apply_validation in H.
  destruct (empty df) eqn:Hne.
  { injection H as <- _. unfold empty in Hne.
    destruct (rows df) as [|r0 rs]; [|destruct (columns df); [congruence|discriminate]].
    split; [intros r f cfg []|congruence]. }
  destruct (fields_loop (df, [], []) rules_fields) as [[[df_clean ic] req]|] eqn:E;
    [|discriminate].
  pose proof (fields_loop_required _ _ E) as Hreq. simpl in Hreq. subst req.
  assert (Hrows : rows out
      = filter (fun r => forallb (fun f => negb (is_null (row_get f r)))
                                 (required_fields_of rules_fields))
               (rows df_clean)).
  { injection H as <- _.
    destruct (required_fields_of rules_fields) eqn:Er; [|reflexivity].
    simpl. induction (rows df_clean) as [|r rs IH]; simpl; [reflexivity|now f_equal]. }
  split.
  - intros r f cfg Hin Hf Hr. rewrite Hrows in Hin.
    apply filter_In in Hin as [_ Hall].
    rewrite forallb_forall in Hall.
    specialize (Hall f (required_fields_of_In _ _ _ Hf Hr)).
    now destruct (is_null (row_get f r)).
  - intros _. exists df_clean. split; [|exact Hrows].
    injection H as _ <-. reflexivity.
Qed.

End RequiredFields.

Section RequiredFieldsExamples.

Import validaciones validacion samples.

(** C2 on the code: a frame of two records without any field is
    [empty] for the guard at the top of [apply_validation], so the
    validator returns its two rows as they are, with no row counted as
    received, although they have no title and the built-in rules
    require one. *)
Lemma fieldless_frame_passes_validation :
  @apply_validation sample_runtime fieldless_frame DEFAULT_RULES
  = Ok (fieldless_frame,
        {| rows_received := 0; rows_discarded := 0; rows_valid := 0; invalid_cells := [] |})
  /\ rows fieldless_frame = [[]; []]
  /\ In (lit "title") (required_fields_of DEFAULT_RULES)
  /\ is_null (row_get (lit "title") []) = true.
Proof. repeat split; try reflexivity. left; reflexivity. Qed.

Lemma apply_validation_required_fields_witness :
  @apply_validation sample_runtime (title_frame anchor65) title_rules
  = Ok (title_frame anchor65,
        {| rows_received := 1; rows_discarded := 0; rows_valid := 1; invalid_cells := [] |})
  /\ columns (title_frame anchor65) <> []
  /\ is_null (row_get (lit "title") (title_frame_row anchor65)) = false.
Proof.
  assert (E : @apply_validation sample_runtime (title_frame anchor65) title_rules
              = Ok (title_frame anchor65,
                    {| rows_received := 1; rows_discarded := 0; rows_valid := 1;
                       invalid_cells := [] |})) by (vm_compute; reflexivity).
  assert (C : columns (title_frame anchor65) <> []) by discriminate.
  split; [exact E|]. split; [exact C|].
  apply (proj1 (@apply_validation_required_fields sample_runtime _ _ _ _ E C)
           (title_frame_row anchor65) (lit "title")
           {| cfg_type := Some (lit "string"); cfg_regex := Some (lit ".+");
              cfg_required := true; cfg_max_length := Some 65%Z |}).
  - left; reflexivity.
  - left; reflexivity.
  - reflexivity.
Defined.

End RequiredFieldsExamples.

(** ** The duplicate accounting of the writer *)

Section DuplicateCounts.

Import escritura.




End DuplicateCounts.

Section DuplicateCountsExample.

Import escritura samples.


End DuplicateCountsExample.

(** ** The writer and the answers of the database *)

Section WriterFaults.

Import escritura.

Context {env : Environ}.

Lemma startswith_app (p s t : str) : startswith p s = true -> startswith p (s ++ t) = true.
Proof.
  revert s. induction p as [|x p IH]; intros s; [reflexivity|].
  destruct s as [|y s]; simpl; [discriminate|].
  intros H. apply andb_true_iff in H as [Hx Hp]. now rewrite Hx, IH.
Qed.

Lemma contains_app_r (needle a b : str) :
  contains needle b = true -> contains needle (a ++ b) = true.
Proof.
  intros H. induction a as [|x a IH]; [assumption|].
  simpl. rewrite IH. apply orb_true_r.
Qed.

Lemma lower_app (a b : str) : lower (a ++ b) = lower a ++ lower b.
Proof. apply map_app. Qed.

(** The text that [bulk_insert] raises mentions what its cause mentions. *)
Lemma mentions_duplicate_wrapped (table_name cause : str) :
  mentions_duplicate cause = true ->
  mentions_duplicate (lit "Error inserting into " ++ table_name ++ lit ": " ++ cause) = true.
Proof.
  unfold mentions_duplicate. intros H.
  rewrite !app_assoc, lower_app.
  apply orb_true_iff in H as [H|H]; apply orb_true_iff; [left|right];
    now apply contains_app_r.
Qed.

Lemma execute_query_run (q : query) (db : database) :
  execute_query q db =
  if connected db then
    match next_answer db with
    | Some e => (Raise e, advance CallExecute db)
    | None => (Ok (answer q db), advance CallExecute db)
    end
  else (Raise (lit "Database not connected"), db).
Proof.
  unfold execute_query, bind, is_connected, driver, raise.
  destruct (connected db); [|reflexivity]. cbn [negb].
  destruct (next_answer db); reflexivity.
Qed.

Lemma bulk_insert_run (df : DataFrame) (table_name : str) (db : database) :
  bulk_insert df table_name db =
  if connected db then
    let db1 := advance (CallExecutemany table_name (df_len df)) db in
    match next_answer db with
    | None => (Ok (df_len df), committed table_name (rows df) db1)
    | Some exc =>
        match next_answer db1 with
        | None => (Raise (lit "Error inserting into " ++ table_name ++ lit ": " ++ exc),
                   advance CallRollback db1)
        | Some e2 => (Raise e2, advance CallRollback db1)
        end
    end
  else (Raise (lit "Database not connected"), db).
Proof.
  unfold bulk_insert, bind, is_connected, try_except, driver, raise, ret, commit_rows.
  destruct (connected db); [|reflexivity]. cbn [negb].
  destruct (next_answer db); [|reflexivity].
  destruct (next_answer (advance _ db)); reflexivity.
Qed.

Lemma log_committed (t : str) (rs : list row) (db : database) :
  log (committed t rs db) = log db.
Proof. unfold committed. now destruct (stored_rows _ _). Qed.

Lemma connected_committed (t : str) (rs : list row) (db : database) :
  connected (committed t rs db) = connected db.
Proof. unfold committed. now destruct (stored_rows _ _). Qed.

Lemma next_answer_committed (t : str) (rs : list row) (db : database) :
  next_answer (committed t rs db) = next_answer db.
Proof. unfold committed. now destruct (stored_rows _ _). Qed.

Lemma on_error_run (entity exc : str) (db : database) :
  on_error entity exc db =
  let ans := (0%Z, lit "Error processing entity " ++ entity ++ lit ": " ++ exc) in
  if connected db then
    match next_answer db with
    | Some e => (Raise e, advance CallRollback db)
    | None => (Ok ans, advance CallRollback db)
    end
  else (Ok ans, db).
Proof.
  unfold on_error, bind, is_connected, driver, ret.
  destruct (connected db); [|reflexivity].
  destruct (next_answer db); reflexivity.
Qed.

Lemma insert_step_run (nr : DataFrame) (entity : str) (db : database) :
  insert_step nr entity db =
  if connected db then
    let db1 := advance (CallExecutemany REGULATIONS_TABLE (df_len nr)) db in
    match next_answer db with
    | None =>
        (Ok (if (df_len nr =? 0)%Z
             then inl (0%Z, lit "No records were actually inserted for entity " ++ entity)
             else inr (df_len nr)),
         committed REGULATIONS_TABLE (rows nr) db1)
    | Some exc =>
        let insert_error :=
          match next_answer db1 with
          | None => lit "Error inserting into " ++ REGULATIONS_TABLE ++ lit ": " ++ exc
          | Some e2 => e2
          end in
        if mentions_duplicate insert_error
        then (Ok (inl (0%Z, lit "Some records for entity " ++ entity
                            ++ lit " were duplicates and skipped")),
              advance CallRollback db1)
        else (Raise insert_error, advance CallRollback db1)
    end
  else
    if mentions_duplicate (lit "Database not connected")
    then (Ok (inl (0%Z, lit "Some records for entity " ++ entity
                        ++ lit " were duplicates and skipped")), db)
    else (Raise (lit "Database not connected"), db).
Proof.
  unfold insert_step, try_except, bind, ret, raise. rewrite bulk_insert_run.
  destruct (connected db); [|reflexivity]. cbv zeta.
  destruct (next_answer db).
  - destruct (next_answer (advance _ db)); destruct (mentions_duplicate _); reflexivity.
  - destruct (df_len nr =? 0)%Z; reflexivity.
Qed.

(** The insertion of the components never raises; it only adds to the log. *)
Lemma component_step_run (new_ids : list Z) (db : database) :
  exists c db' l, component_step new_ids db = (Ok c, db') /\ log db' = l ++ log db.
Proof.
  unfold component_step. destruct new_ids as [|i ids].
  { exists (0%Z, []), db, []. split; reflexivity. }
  unfold try_except, insert_regulations_component, bind, ret. cbv beta iota zeta.
  unfold try_except. rewrite bulk_insert_run. cbv zeta.
  destruct (connected db).
  - destruct (next_answer db) as [e|] eqn:Ha.
    + destruct (next_answer (advance _ db)) eqn:Ha2; do 2 eexists;
        eexists [_; _]; split; reflexivity.
    + do 2 eexists. eexists [_]. split; [reflexivity|].
      rewrite log_committed. reflexivity.
  - do 2 eexists. exists []. split; reflexivity.
Qed.

(** The newest entries of a log that ends with three given calls. *)
Lemma log_suffix (A : Type) (P later t : list A) (a b c : A) :
  P ++ t = later ++ a :: b :: c :: t -> rev P = c :: b :: a :: rev later.
Proof.
  intros H. change (later ++ a :: b :: c :: t) with (later ++ [a; b; c] ++ t) in H.
  rewrite app_assoc in H. apply app_inv_tail in H. subst P.
  rewrite rev_app_distr. reflexivity.
Qed.

Lemma rev_nil_inv (A : Type) (l : list A) : [] = rev l -> l = [].
Proof. intros H. destruct l as [|x l]; [reflexivity|]. simpl in H. now destruct (rev l). Qed.

Lemma rev_one_inv (A : Type) (l : list A) (x : A) : [x] = rev l -> l = [x].
Proof.
  intros H. apply (f_equal (@rev A)) in H. rewrite rev_involutive in H. now subst l.
Qed.

(** What a failed bulk insert of the new records leads to, once the
    rollback of [bulk_insert] has gone through: the message that some
    records were duplicates when the raised text mentions one, the
    outer [except] clause with its own rollback otherwise. *)
Lemma insert_failure_outcome (df : DataFrame) (entity : str) (db db' : database)
    (r : result (Z * str)) (n : Z) (cause : str) (later : list (driver_call * option str)) :
  insert_new_records df entity db = (r, db') ->
  log db' = later ++ (CallRollback, None)
                  :: (CallExecutemany REGULATIONS_TABLE n, Some cause)
                  :: (CallExecute, None) :: log db ->
  let insert_error := lit "Error inserting into " ++ REGULATIONS_TABLE ++ lit ": " ++ cause in
  tables db' = tables db
  /\ if mentions_duplicate insert_error
     then later = []
          /\ r = Ok (0%Z, lit "Some records for entity " ++ entity
                          ++ lit " were duplicates and skipped")
     else exists a, later = [(CallRollback, a)]
          /\ r = match a with
                 | None => Ok (0%Z, lit "Error processing entity " ++ entity ++ lit ": "
                                    ++ insert_error)
                 | Some e => Raise e
                 end.
Proof.
  intros Hrun Hlog insert_error.
  unfold insert_new_records, try_except in Hrun.
  (* the outer except clause, entered with fewer than two or with three calls made *)
  assert (Herr : forall exc db1 P,
            on_error entity exc db1 = (r, db') ->
            log db1 = P ++ log db ->
            connected db1 = connected db ->
            match rev P with
            | [] => True
            | [(c, _)] => c = CallExecute
            | (_, _) :: (c, a) :: _ => c <> CallExecutemany REGULATIONS_TABLE n \/ a = None
            end ->
            False).
  { intros exc db1 P Hon Hl Hcon Hshape. rewrite on_error_run in Hon. cbv zeta in Hon.
    destruct (connected db1).
    - assert (Hl' : log db' = ((CallRollback, next_answer db1) :: P) ++ log db).
      { destruct (next_answer db1) eqn:Ea; injection Hon as _ <-;
          cbn [log advance app]; now rewrite Ea, Hl. }
      rewrite Hl' in Hlog. apply log_suffix in Hlog. cbn [rev] in Hlog.
      destruct (rev P) as [|[c1 a1] [|[c2 a2] q]]; cbn [app] in Hlog.
      + discriminate.
      + subst c1. destruct later; discriminate.
      + injection Hlog; intros. destruct Hshape as [Hs|Hs]; [now apply Hs|congruence].
    - injection Hon as _ <-. rewrite Hl in Hlog. apply log_suffix in Hlog.
      destruct (rev P) as [|[c1 a1] [|[c2 a2] q]]; cbn [app] in Hlog.
      + discriminate.
      + discriminate.
      + injection Hlog; intros. destruct Hshape as [Hs|Hs]; [now apply Hs|congruence]. }
  unfold insert_new_records_body, bind, lift in Hrun.
  rewrite execute_query_run in Hrun.
  destruct (connected db) eqn:Hc.
  2:{ exfalso. apply (Herr _ _ [] Hrun); [reflexivity|exact Hc|exact I]. }
  destruct (next_answer db) as [e0|] eqn:Ha0.
  { exfalso. apply (Herr _ _ [(CallExecute, Some e0)] Hrun).
    - cbn [log advance app]. now rewrite Ha0.
    - exact Hc.
    - reflexivity. }
  set (db1 := advance CallExecute db) in *.
  assert (Hl1 : log db1 = [(CallExecute, None)] ++ log db).
  { subst db1. cbn [log advance app]. now rewrite Ha0. }
  assert (Hc1 : connected db1 = true) by exact Hc.
  destruct (validate_duplicates (answer _ db) df entity) as [[p|]|e].
  3:{ exfalso. apply (Herr _ _ [(CallExecute, None)] Hrun); [exact Hl1|exact Hc1|reflexivity]. }
  2:{ exfalso. unfold ret in Hrun. injection Hrun as _ <-. rewrite Hl1 in Hlog.
      apply log_suffix in Hlog. discriminate. }
  destruct (empty (new_records p)).
  { exfalso. unfold ret in Hrun. injection Hrun as _ <-. rewrite Hl1 in Hlog.
    apply log_suffix in Hlog. discriminate. }
  cbv zeta in Hrun.
  set (nr := fold_left _ _ (new_records p)) in Hrun.
  rewrite insert_step_run, Hc1 in Hrun. cbv zeta in Hrun.
  set (db2 := advance (CallExecutemany REGULATIONS_TABLE (df_len nr)) db1) in *.
  assert (Hl2 : log db2 = [(CallExecutemany REGULATIONS_TABLE (df_len nr), next_answer db1);
                           (CallExecute, None)] ++ log db).
  { subst db2. cbn [log advance app]. now rewrite Hl1. }
  destruct (next_answer db1) as [exc|] eqn:Ha1.
  - (* the insert raises *)
    set (db3 := advance CallRollback db2) in *.
    assert (Hl3 : log db3 = [(CallRollback, next_answer db2);
                             (CallExecutemany REGULATIONS_TABLE (df_len nr), Some exc);
                             (CallExecute, None)] ++ log db).
    { subst db3. cbn [log advance app]. now rewrite Hl2. }
    assert (Ht3 : tables db3 = tables db) by reflexivity.
    assert (Hc3 : connected db3 = true) by exact Hc.
    destruct (next_answer db2) as [e2|] eqn:Ha2.
    + (* and so does the rollback of [bulk_insert] *)
      exfalso. destruct (mentions_duplicate e2).
      * unfold ret in Hrun. injection Hrun as _ <-. rewrite Hl3 in Hlog.
        apply log_suffix in Hlog. cbn [rev app] in Hlog. congruence.
      * rewrite on_error_run, Hc3 in Hrun. cbv zeta in Hrun.
        assert (Hl' : log db' = [(CallRollback, next_answer db3); (CallRollback, Some e2);
                                 (CallExecutemany REGULATIONS_TABLE (df_len nr), Some exc);
                                 (CallExecute, None)] ++ log db).
        { destruct (next_answer db3) eqn:Ea; injection Hrun as _ <-;
            cbn [log advance app]; now rewrite Ea, Hl3. }
        rewrite Hl' in Hlog. apply log_suffix in Hlog. cbn [rev app] in Hlog. congruence.
    + (* the rollback of [bulk_insert] goes through *)
      destruct (mentions_duplicate (lit "Error inserting into " ++ REGULATIONS_TABLE
                                    ++ lit ": " ++ exc)) eqn:Hm.
      * unfold ret in Hrun. injection Hrun as <- <-. rewrite Hl3 in Hlog.
        apply log_suffix in Hlog. cbn [rev app] in Hlog.
        injection Hlog; intros Hlater Hcause _. subst exc.
        split; [exact Ht3|]. subst insert_error. rewrite Hm.
        split; [now apply rev_nil_inv|reflexivity].
      * rewrite on_error_run, Hc3 in Hrun. cbv zeta in Hrun.
        assert (Hl' : log db' = [(CallRollback, next_answer db3); (CallRollback, None);
                                 (CallExecutemany REGULATIONS_TABLE (df_len nr), Some exc);
                                 (CallExecute, None)] ++ log db
                      /\ tables db' = tables db).
        { destruct (next_answer db3) eqn:Ea; injection Hrun as _ <-;
            cbn [log advance app]; now rewrite Ea, Hl3. }
        destruct Hl' as [Hl' Ht']. rewrite Hl' in Hlog.
        apply log_suffix in Hlog. cbn [rev app] in Hlog.
        injection Hlog; intros Hlater Hcause _. subst exc.
        split; [exact Ht'|]. subst insert_error. rewrite Hm.
        exists (next_answer db3). split; [now apply rev_one_inv|].
        destruct (next_answer db3); now injection Hrun as <-.
  - (* the insert goes through *)
    exfalso. revert Hrun.
    set (db3 := committed _ _ _).
    assert (Hl3 : log db3 = [(CallExecutemany REGULATIONS_TABLE (df_len nr), None);
                             (CallExecute, None)] ++ log db).
    { subst db3. rewrite log_committed. exact Hl2. }
    assert (Hc3 : connected db3 = true).
    { subst db3. rewrite connected_committed. exact Hc. }
    destruct (df_len nr =? 0)%Z.
    { unfold ret. intros Hrun. injection Hrun as _ <-. rewrite Hl3 in Hlog.
      apply log_suffix in Hlog. discriminate. }
    rewrite execute_query_run, Hc3.
    destruct (next_answer db3) as [e3|] eqn:Ha3.
    { intros Hrun.
      apply (Herr _ _ [(CallExecute, Some e3);
                       (CallExecutemany REGULATIONS_TABLE (df_len nr), None);
                       (CallExecute, None)] Hrun).
      - cbn [log advance app]. rewrite Ha3, Hl3. reflexivity.
      - exact Hc3.
      - cbn [rev app]. right. reflexivity. }
    set (db4 := advance CallExecute db3).
    assert (Hl4 : log db4 = [(CallExecute, None);
                             (CallExecutemany REGULATIONS_TABLE (df_len nr), None);
                             (CallExecute, None)] ++ log db).
    { subst db4. cbn [log advance app]. now rewrite Ha3, Hl3. }
    destruct (component_step_run
                (List.map (fun t => match t with VInt z :: _ => z | _ => 0%Z end)
                          (answer (SelectNewIds REGULATIONS_TABLE entity (df_len nr)) db3))
                db4) as (c & db5 & l & Hcomp & Hl5).
    rewrite Hcomp. unfold ret. intros Hrun. injection Hrun as _ <-.
    rewrite Hl5, Hl4, app_assoc in Hlog. apply log_suffix in Hlog.
    rewrite rev_app_distr in Hlog. cbn [rev app] in Hlog. congruence.
Qed.

(** C4, amended.  When the bulk insert of the new records raises, the
    rollback of [bulk_insert] goes through and the text of the cause
    mentions ["duplicate"] or ["unique"], [insert_new_records] raises
    nothing: it returns a zero count with the message that some records
    were duplicates, makes no further call and leaves the tables as
    they were. *)
Theorem uniqueness_collision_is_absorbed (df : DataFrame) (entity : str) (db db' : database)
    (r : result (Z * str)) (n : Z) (cause : str) (later : list (driver_call * option str)) :
  insert_new_records df entity db = (r, db') ->
  log db' = later ++ (CallRollback, None)
                  :: (CallExecutemany REGULATIONS_TABLE n, Some cause)
                  :: (CallExecute, None) :: log db ->
  mentions_duplicate cause = true ->
  r = Ok (0%Z, lit "Some records for entity " ++ entity ++ lit " were duplicates and skipped")
  /\ later = []
  /\ tables db' = tables db.
Proof.
  intros Hrun Hlog Hdup.
  destruct (@insert_failure_outcome _ _ _ _ _ _ _ _ Hrun Hlog) as [Ht Hout].
  rewrite (mentions_duplicate_wrapped _ _ Hdup) in Hout.
  destruct Hout as [Hl Hr]. repeat split; assumption.
Qed.

End WriterFaults.

Section WriterFaultsExample.

Import escritura samples.

Lemma uniqueness_collision_is_absorbed_witness :
  mentions_duplicate unique_violation = true
  /\ log (snd (@insert_new_records default_environ sample_batch E colliding_db))
     = [(CallRollback, None);
        (CallExecutemany (lit "regulations") 2, Some unique_violation);
        (CallExecute, None)]
  /\ fst (@insert_new_records default_environ sample_batch E colliding_db)
     = Ok (0%Z, lit "Some records for entity " ++ E ++ lit " were duplicates and skipped").
Proof.
  assert (Hdup : mentions_duplicate unique_violation = true) by (vm_compute; reflexivity).
  assert (Hlog : log (snd (@insert_new_records default_environ sample_batch E colliding_db))
                 = [] ++ (CallRollback, None)
                   :: (CallExecutemany (@REGULATIONS_TABLE default_environ) 2,
                       Some unique_violation)
                   :: (CallExecute, None) :: log colliding_db) by (vm_compute; reflexivity).
  split; [exact Hdup|]. split; [exact Hlog|].
  exact (proj1 (@uniqueness_collision_is_absorbed default_environ sample_batch E colliding_db
                  _ _ 2%Z unique_violation []
                  (surjective_pairing _) Hlog Hdup)).
Defined.

(** C4, as the specification words it, fails.  On
    [rollback_refusing_db] the bulk insert fails on a unique
    constraint and the rollback of [bulk_insert] fails too: the error
    of the rollback takes the place of the cause, no duplicate is seen
    in it, and when the rollback of [insert_new_records] fails as well
    the exception leaves the writer.  When that last rollback goes
    through the writer returns the message of an error, not that of
    the duplicates.  A unique violation that the server words in
    Spanish is not taken for one either. *)
Lemma failed_rollback_lets_the_collision_escape :
  mentions_duplicate unique_violation = true
  /\ log (snd (@insert_new_records default_environ sample_batch E rollback_refusing_db))
     = [(CallRollback, Some lost_connection);
        (CallRollback, Some lost_connection);
        (CallExecutemany (lit "regulations") 2, Some unique_violation);
        (CallExecute, None)]
  /\ fst (@insert_new_records default_environ sample_batch E rollback_refusing_db)
     = Raise lost_connection
  /\ fst (@insert_new_records default_environ sample_batch E rollback_refusing_once_db)
     = Ok (0%Z, lit "Error processing entity " ++ E ++ lit ": " ++ lost_connection)
  /\ mentions_duplicate violacion_de_unicidad = false
  /\ fst (@insert_new_records default_environ sample_batch E spanish_colliding_db)
     = Ok (0%Z, lit "Error processing entity " ++ E
                ++ lit ": Error inserting into regulations: " ++ violacion_de_unicidad).
Proof. repeat split; vm_compute; reflexivity. Qed.

End WriterFaultsExample.

(** ** Every run of the writer *)

Section WriterRuns.

Import escritura.

Context {env : Environ}.

Lemma component_step_calls (new_ids : list Z) (db : database) :
  exists c db' l,
    component_step new_ids db = (Ok c, db') /\ log db' = l ++ log db
    /\ (l = []
        \/ (exists j, l = [(CallExecutemany REGULATIONS_COMPONENT_TABLE j, None)])
        \/ (exists j exc a, l = [(CallRollback, a);
                                 (CallExecutemany REGULATIONS_COMPONENT_TABLE j, Some exc)])).
Proof.
  unfold component_step. destruct new_ids as [|i ids].
  { exists (0%Z, []), db, []. repeat split. now left. }
  unfold try_except, insert_regulations_component, bind, ret. cbv beta iota zeta.
  unfold try_except. rewrite bulk_insert_run. cbv zeta.
  destruct (connected db).
  - destruct (next_answer db) as [e|] eqn:Ha.
    + destruct (next_answer (advance _ db)) eqn:Ha2; do 2 eexists;
        eexists [_; _]; (split; [reflexivity|]);
        (split; [cbn [log advance app]; rewrite Ha, Ha2; reflexivity|]);
        right; right; eauto.
    + do 2 eexists. eexists [_]. split; [reflexivity|].
      split; [rewrite log_committed; cbn [log advance app]; rewrite Ha; reflexivity|].
      right. left. eauto.
  - do 2 eexists. exists []. repeat split. now left.
Qed.

Lemma on_error_calls (entity exc : str) (db db' : database) (r : result (Z * str)) :
  on_error entity exc db = (r, db') ->
  if connected db
  then exists a, log db' = (CallRollback, a) :: log db /\ r = error_result entity exc a
  else log db' = log db /\ r = error_result entity exc None.
Proof.
  rewrite on_error_run. cbv zeta. destruct (connected db).
  - destruct (next_answer db) as [e|] eqn:Ha; intros H; injection H as <- <-;
      eexists; (split; [cbn [log advance]; rewrite Ha; reflexivity|reflexivity]).
  - intros H. injection H as <- <-. split; reflexivity.
Qed.

(** Every run of [insert_new_records] is one of [writer_run]. *)
Lemma insert_new_records_runs (df : DataFrame) (entity : str) (db db' : database)
    (r : result (Z * str)) :
  insert_new_records df entity db = (r, db') ->
  exists P, log db' = P ++ log db /\ writer_run entity P r.
Proof.
  intros Hrun. unfold insert_new_records, try_except in Hrun.
  unfold insert_new_records_body, bind, lift in Hrun.
  rewrite execute_query_run in Hrun.
  destruct (connected db) eqn:Hc.
  { destruct (next_answer db) as [e0|] eqn:Ha0.
    { apply on_error_calls in Hrun. cbn [connected advance] in Hrun. rewrite Hc in Hrun.
      destruct Hrun as (a & Hl & ->). exists [(CallRollback, a); (CallExecute, Some e0)].
      split; [rewrite Hl; cbn [log advance app]; now rewrite Ha0|constructor]. }
    set (db1 := advance CallExecute db) in *.
    assert (Hl1 : log db1 = [(CallExecute, None)] ++ log db).
    { subst db1. cbn [log advance app]. now rewrite Ha0. }
    assert (Hc1 : connected db1 = true) by exact Hc.
    destruct (validate_duplicates (answer _ db) df entity) as [[p|]|e].
    3:{ apply on_error_calls in Hrun. rewrite Hc1 in Hrun.
        destruct Hrun as (a & Hl & ->). exists [(CallRollback, a); (CallExecute, None)].
        split; [rewrite Hl, Hl1; reflexivity|constructor]. }
    2:{ unfold ret in Hrun. injection Hrun as <- <-. exists [(CallExecute, None)].
        split; [exact Hl1|constructor]. }
    destruct (empty (new_records p)).
    { unfold ret in Hrun. injection Hrun as <- <-. exists [(CallExecute, None)].
      split; [exact Hl1|constructor]. }
    cbv zeta in Hrun.
    set (nr := fold_left _ _ (new_records p)) in Hrun.
    rewrite insert_step_run, Hc1 in Hrun. cbv zeta in Hrun.
    set (db2 := advance (CallExecutemany REGULATIONS_TABLE (df_len nr)) db1) in *.
    assert (Hl2 : log db2 = [(CallExecutemany REGULATIONS_TABLE (df_len nr), next_answer db1);
                             (CallExecute, None)] ++ log db).
    { subst db2. cbn [log advance app]. now rewrite Hl1. }
    destruct (next_answer db1) as [exc|] eqn:Ha1.
    - set (db3 := advance CallRollback db2) in *.
      assert (Hl3 : log db3 = [(CallRollback, next_answer db2);
                               (CallExecutemany REGULATIONS_TABLE (df_len nr), Some exc);
                               (CallExecute, None)] ++ log db).
      { subst db3. cbn [log advance app]. now rewrite Hl2. }
      assert (Hc3 : connected db3 = true) by exact Hc.
      change (match next_answer db2 with
              | Some e2 => e2
              | None => lit "Error inserting into " ++ REGULATIONS_TABLE ++ lit ": " ++ exc
              end) with (insert_error_of REGULATIONS_TABLE exc (next_answer db2)) in Hrun.
      destruct (mentions_duplicate _) eqn:Hm.
      + unfold ret in Hrun. injection Hrun as <- <-. eexists. split; [exact Hl3|].
        now constructor.
      + apply on_error_calls in Hrun. rewrite Hc3 in Hrun.
        destruct Hrun as (a & Hl & ->). eexists (_ :: _). split; [rewrite Hl, Hl3; reflexivity|].
        now constructor.
    - revert Hrun. set (db3 := committed _ _ _).
      assert (Hl3 : log db3 = [(CallExecutemany REGULATIONS_TABLE (df_len nr), None);
                               (CallExecute, None)] ++ log db).
      { subst db3. rewrite log_committed. exact Hl2. }
      assert (Hc3 : connected db3 = true).
      { subst db3. rewrite connected_committed. exact Hc. }
      destruct (df_len nr =? 0)%Z eqn:Hz.
      { unfold ret. intros Hrun. injection Hrun as <- <-. eexists. split; [exact Hl3|].
        constructor. }
      rewrite execute_query_run, Hc3.
      destruct (next_answer db3) as [e3|] eqn:Ha3.
      { intros Hrun. apply on_error_calls in Hrun. cbn [connected advance] in Hrun.
        rewrite Hc3 in Hrun. destruct Hrun as (a & Hl & ->).
        eexists (_ :: _ :: _). split.
        - rewrite Hl. cbn [log advance app]. rewrite Ha3, Hl3. reflexivity.
        - constructor. }
      set (db4 := advance CallExecute db3).
      assert (Hl4 : log db4 = [(CallExecute, None);
                               (CallExecutemany REGULATIONS_TABLE (df_len nr), None);
                               (CallExecute, None)] ++ log db).
      { subst db4. cbn [log advance app]. now rewrite Ha3, Hl3. }
      destruct (component_step_calls
                  (List.map (fun t => match t with VInt z :: _ => z | _ => 0%Z end)
                            (answer (SelectNewIds REGULATIONS_TABLE entity (df_len nr)) db3))
                  db4) as (c & db5 & l & Hcomp & Hl5 & Hshape).
      rewrite Hcomp. unfold ret. intros Hrun. injection Hrun as <- <-.
      eexists. split; [rewrite Hl5, Hl4, app_assoc; reflexivity|].
      constructor; [|exact Hshape].
      apply Z.eqb_neq. exact Hz. }
  apply on_error_calls in Hrun. rewrite Hc in Hrun. destruct Hrun as [Hl ->].
  exists []. split; [exact Hl|constructor].
Qed.

End WriterRuns.

(** ** The synchronous entry point *)

Section LambdaFacts.

Import extraccion validacion escritura lambda.

Context {rt : PyRuntime} {env : Environ}.

Lemma with_manager_run (A : Type) (body : M A) (db : database) :
  with_manager body db =
  match next_answer db with
  | Some _ => (Raise (lit "Could not establish database connection"), advance CallConnect db)
  | None =>
      let (r, db') := body (with_connection true (advance CallConnect db)) in
      (r, with_connection false db')
  end.
Proof.
  unfold with_manager, connect, close.
  unfold try_except, bind, driver, ret, raise, set_connected.
  destruct (next_answer db); reflexivity.
Qed.

(** The accessor of the probe only connects and queries. *)
Lemma fetch_latest_calls (db db' : database) (r : result (option datetime)) :
  _fetch_latest_created_at db = (r, db') ->
  exists P, log db' = P ++ log db /\ reads_only P.
Proof.
  unfold _fetch_latest_created_at. rewrite with_manager_run.
  destruct (next_answer db) as [e|] eqn:Ha.
  - intros H. injection H as _ <-. exists [(CallConnect, Some e)]. split.
    + cbn [log advance app]. now rewrite Ha.
    + intros c a [H|[]]. injection H as <- _. now left.
  - set (db1 := with_connection true (advance CallConnect db)).
    assert (Hl1 : log db1 = [(CallConnect, None)] ++ log db).
    { subst db1. cbn [log with_connection advance app]. now rewrite Ha. }
    assert (Hshape : forall x, reads_only [(CallExecute, x); (CallConnect, None)]).
    { intros x c a [H|[H|[]]]; injection H as <- _; [now right|now left]. }
    unfold fetch_latest_created_at, bind. rewrite execute_query_run.
    change (connected db1) with true. cbv iota.
    destruct (next_answer db1) as [e|] eqn:Ha1.
    + intros H. injection H as _ <-. eexists. split; [|apply (Hshape (Some e))].
      cbn [with_connection log advance app]. now rewrite Ha1, Hl1.
    + assert (Hl2 : log (advance CallExecute db1)
                    = [(CallExecute, None); (CallConnect, None)] ++ log db).
      { cbn [log advance app]. now rewrite Ha1, Hl1. }
      match goal with
      | |- context [match ?m (advance CallExecute db1) with _ => _ end] =>
          assert (Hm : snd (m (advance CallExecute db1)) = advance CallExecute db1)
      end.
      { destruct (answer _ db1) as [|[|[] ?] ?]; try reflexivity.
        destruct (is_empty s); reflexivity. }
      match goal with
      | |- context [match ?m (advance CallExecute db1) with _ => _ end] =>
          destruct (m (advance CallExecute db1)) as [r1 db2]
      end.
      cbn [snd] in Hm. subst db2.
      intros H. injection H as _ <-. eexists. split; [|apply (Hshape None)].
      cbn [with_connection log]. exact Hl2.
Qed.

(** The log of a run whose newest three calls are two successful
    rollbacks over a failed [executemany] cannot be one of reads only. *)
Lemma reads_only_no_rollback (P earlier : list (driver_call * option str))
    (t : list (driver_call * option str)) (y z : driver_call * option str) :
  reads_only P -> P ++ t = (CallRollback, None) :: y :: z :: earlier ++ t -> False.
Proof.
  intros HP H. change ((CallRollback, None) :: y :: z :: earlier ++ t)
    with (((CallRollback, None) :: y :: z :: earlier) ++ t) in H.
  apply app_inv_tail in H. subst P.
  destruct (HP CallRollback None (or_introl eq_refl)); discriminate.
Qed.

(** C5, amended.  When the newest calls of a run are the bulk insert
    into the regulations table, failed for a reason that neither
    mentions a duplicate nor a unique constraint, and the two rollbacks
    that follow it, both granted, the outcome of [lambda_handler] is the
    200 result: [success] is true, [records_inserted] is 0 and the
    message carries the text of the exception.  The 500 result is not
    produced. *)
Theorem failed_insert_is_a_200_result (w : web) (rules_file : option validaciones.rules)
    (event : option event) (db db' : database) (resp : response)
    (n : Z) (cause : str) (earlier : list (driver_call * option str)) :
  lambda_handler w rules_file event db = (resp, db') ->
  log db' = (CallRollback, None) :: (CallRollback, None)
            :: (CallExecutemany REGULATIONS_TABLE n, Some cause) :: earlier ++ log db ->
  mentions_duplicate (lit "Error inserting into " ++ REGULATIONS_TABLE ++ lit ": " ++ cause)
  = false ->
  statusCode resp = 200%Z
  /\ In (lit "success", JBool true) (body resp)
  /\ In (lit "records_inserted", JInt 0) (body resp)
  /\ In (lit "message",
         JStr (lit "Error processing entity " ++ escritura.ENTITY_VALUE ++ lit ": "
               ++ lit "Error inserting into " ++ REGULATIONS_TABLE ++ lit ": " ++ cause))
        (body resp).
Proof.
  intros Hrun Hlog Hcause. unfold lambda_handler in Hrun.
  unfold lambda_handler_body, bind in Hrun.
  set (num_pages := Z.max _ 1) in Hrun.
  set (force := match event with Some e => _ | None => false end) in Hrun.
  (* the probe *)
  match type of Hrun with
  | context [match ?probe db with _ => _ end] =>
      assert (HA : exists b dbA P, probe db = (Ok b, dbA) /\ log dbA = P ++ log db
                                   /\ reads_only P)
  end.
  { destruct (negb force).
    - destruct (_fetch_latest_created_at db) as [latest dbA] eqn:EA.
      destruct (fetch_latest_calls _ EA) as (P & HP & HR).
      do 3 eexists. split; [reflexivity|]. split; [exact HP|exact HR].
    - exists true, db, []. split; [reflexivity|]. split; [reflexivity|intros c a []]. }
  destruct HA as (has_new & dbA & PA & EA & HlA & HRA). rewrite EA in Hrun.
  assert (Hstop : log db' = log dbA -> False).
  { intros E. rewrite E, HlA in Hlog.
    exact (@reads_only_no_rollback _ _ _ _ _ HRA Hlog). }
  destruct (negb has_new).
  { unfold ret in Hrun. injection Hrun as _ <-. now exfalso. }
  cbv zeta in Hrun.
  destruct (scrape_recent_pages w 0 (num_pages - 1)) as [|norma normas].
  { unfold ret in Hrun. injection Hrun as _ <-. now exfalso. }
  set (df_normas := DataFrame_of_normas (norma :: normas)) in Hrun.
  unfold lift in Hrun.
  destruct (apply_validation df_normas (validaciones.load_rules rules_file))
    as [[validated_df stats]|e].
  2:{ injection Hrun as _ <-. now exfalso. }
  cbn [fst] in Hrun.
  destruct (empty validated_df).
  { unfold ret in Hrun. injection Hrun as _ <-. now exfalso. }
  rewrite with_manager_run in Hrun.
  destruct (next_answer dbA) as [e|] eqn:HaA.
  { exfalso. injection Hrun as _ <-. cbn [log advance] in Hlog.
    rewrite HaA in Hlog. discriminate. }
  set (dbC := with_connection true (advance CallConnect dbA)) in Hrun.
  assert (HlC : log dbC = (CallConnect, None) :: PA ++ log db).
  { subst dbC. cbn [log with_connection advance]. now rewrite HaA, HlA. }
  destruct (insert_new_records validated_df escritura.ENTITY_VALUE dbC) as [rw dbW] eqn:EW.
  destruct (insert_new_records_runs _ _ _ EW) as (PW & HlW & HW).
  assert (Hlog' : PW ++ (CallConnect, None) :: PA
                  = (CallRollback, None) :: (CallRollback, None)
                    :: (CallExecutemany REGULATIONS_TABLE n, Some cause) :: earlier).
  { assert (E : log db' = log dbW).
    { destruct rw as [[c m]|e]; unfold ret in Hrun; now injection Hrun as _ <-. }
    rewrite E, HlW, HlC in Hlog.
    change ((CallConnect, None) :: PA ++ log db) with (((CallConnect, None) :: PA) ++ log db)
      in Hlog.
    rewrite app_assoc in Hlog.
    change ((CallRollback, None) :: (CallRollback, None)
            :: (CallExecutemany REGULATIONS_TABLE n, Some cause) :: earlier ++ log db)
      with (((CallRollback, None) :: (CallRollback, None)
             :: (CallExecutemany REGULATIONS_TABLE n, Some cause) :: earlier) ++ log db) in Hlog.
    now apply app_inv_tail in Hlog. }
  inversion HW as [ | exc a | exc a | msg | k exc a Hm | k exc a a' Hm | k msg | k exc a
                    | k msg comps Hk Hcomps ]; subst PW rw; cbn [app] in Hlog';
    try discriminate.
  - (* the failed insert *)
    injection Hlog' as -> -> _ -> _. cbn [error_result insert_error_of] in Hrun.
    unfold ret in Hrun. injection Hrun as <- _.
    cbn [statusCode body]. split; [reflexivity|].
    split; [cbn [In]; tauto|]. split; [cbn [In]; tauto|]. left. reflexivity.
  - destruct Hcomps as [->|[(j & ->)|(j & exc & a & ->)]]; discriminate.
Qed.

End LambdaFacts.

Section LambdaExamples.

Import escritura lambda samples.

(** C5, as the specification words it, fails: in [failed_run] the bulk
    insert fails on a value that is too long, and the outcome is the
    200 result with [success] true, not the 500 result. *)
Lemma failed_insert_run_is_not_a_500 :
  log (snd failed_run)
  = [(CallRollback, None); (CallRollback, None);
     (CallExecutemany (lit "regulations") 1, Some value_too_long);
     (CallExecute, None); (CallConnect, None)]
  /\ mentions_duplicate (lit "Error inserting into regulations: " ++ value_too_long) = false
  /\ statusCode (fst failed_run) = 200%Z
  /\ In (lit "success", JBool true) (body (fst failed_run))
  /\ ~ In (lit "success", JBool false) (body (fst failed_run)).
Proof.
  split; [vm_compute; reflexivity|]. split; [vm_compute; reflexivity|].
  split; [vm_compute; reflexivity|]. split.
  - vm_compute. tauto.
  - vm_compute. intros H.
    repeat (destruct H as [H|H]; [discriminate H|]). exact H.
Qed.

Lemma failed_insert_is_a_200_result_witness :
  mentions_duplicate (lit "Error inserting into " ++ @REGULATIONS_TABLE default_environ
                      ++ lit ": " ++ value_too_long) = false
  /\ statusCode (fst failed_run) = 200%Z
  /\ In (lit "success", JBool true) (body (fst failed_run))
  /\ In (lit "records_inserted", JInt 0) (body (fst failed_run))
  /\ In (lit "message",
         JStr (lit "Error processing entity " ++ escritura.ENTITY_VALUE ++ lit ": "
               ++ lit "Error inserting into " ++ @REGULATIONS_TABLE default_environ
               ++ lit ": " ++ value_too_long))
        (body (fst failed_run)).
Proof.
  assert (Hcause : mentions_duplicate
                     (lit "Error inserting into " ++ @REGULATIONS_TABLE default_environ
                      ++ lit ": " ++ value_too_long) = false) by (vm_compute; reflexivity).
  assert (Hlog : log (snd failed_run)
                 = (CallRollback, None) :: (CallRollback, None)
                   :: (CallExecutemany (@REGULATIONS_TABLE default_environ) 1,
                       Some value_too_long)
                   :: [(CallExecute, None); (CallConnect, None)] ++ log insert_refusing_db)
    by (vm_compute; reflexivity).
  assert (Hrun : @lambda_handler sample_runtime default_environ sample_web None
                   forced_event insert_refusing_db = (fst failed_run, snd failed_run))
    by (unfold failed_run; apply surjective_pairing).
  split; [exact Hcause|].
  exact (@failed_insert_is_a_200_result sample_runtime default_environ sample_web None
           forced_event insert_refusing_db (snd failed_run) (fst failed_run) 1%Z value_too_long
           [(CallExecute, None); (CallConnect, None)] Hrun Hlog Hcause).
Defined.

End LambdaExamples.

(** ** The identity key of the writer *)

Section IdentityKey.

Import escritura samples.

(** C1 on the code: the record of [collision_batch] differs from the
    persisted one in title and in link, yet the two joined keys are the
    same string; the writer takes the record for a duplicate and
    inserts nothing. *)
Theorem joined_key_collision_drops_a_new_record :
  key_eqb (key_of key_columns (record "A|2024-01-01|http://x" "2024-01-01" "http://y"))
          (key_of key_columns (record "A" "2024-01-01" "http://x|2024-01-01|http://y"))
  = false
  /\ unique_key (record "A|2024-01-01|http://x" "2024-01-01" "http://y")
     = unique_key (record "A" "2024-01-01" "http://x|2024-01-01|http://y")
  /\ fst (@insert_new_records default_environ collision_batch E collision_db)
     = Ok (0%Z, lit "No new records found for entity " ++ E
                ++ lit " after duplicate validation")
  /\ tables (snd (@insert_new_records default_environ collision_batch E collision_db))
     = tables collision_db
  /\ fst (@insert_new_records default_environ collision_batch E (database_of [] []))
     = Ok (1%Z, lit "Entity " ++ E ++ lit ": Processed: 1 | Existing: 0 | "
                ++ lit "Duplicates skipped: 0 | New inserted: 1. "
                ++ lit "Successfully inserted 1 regulation components").
Proof. repeat split; vm_compute; reflexivity. Qed.

End IdentityKey.

(** ** The duplicate partition and the key triple *)

Section DuplicatePartition.

Import escritura.

Lemma has_char_app (c : char) (a b : str) : has_char c (a ++ b) = has_char c a || has_char c b.
Proof. unfold has_char. apply existsb_app. Qed.

(** A separator that is in neither head cuts two texts at the same place. *)
Lemma app_sep_inj (c : char) (a a' b b' : str) :
  has_char c a = false -> has_char c a' = false ->
  a ++ c :: b = a' ++ c :: b' -> a = a' /\ b = b'.
Proof.
  revert a'. induction a as [|x a IH]; intros a' Ha Ha' H.
  - destruct a' as [|y a']; simpl in H.
    + injection H as <-. split; reflexivity.
    + injection H as <- _. simpl in Ha'. now rewrite N.eqb_refl in Ha'.
  - destruct a' as [|y a']; simpl in H.
    + injection H as -> _. simpl in Ha. now rewrite N.eqb_refl in Ha.
    + injection H as <- H. simpl in Ha, Ha'.
      apply orb_false_iff in Ha as [_ Ha]. apply orb_false_iff in Ha' as [_ Ha'].
      destruct (IH a' Ha Ha' H) as [-> ->]. split; reflexivity.
Qed.

(** On records without ["|"] in title and date, the joined keys agree
    exactly when the triples do. *)
Lemma unique_key_eqb (r r' : row) :
  separator_free r = true -> separator_free r' = true ->
  eqb (unique_key r) (unique_key r') = triple_eqb (key_triple r) (key_triple r').
Proof.
  assert (U : forall x, unique_key x
                        = py_str (row_get (lit "title") x)
                          ++ 124%N :: py_str (row_get (lit "created_at") x)
                          ++ 124%N :: py_str (row_get (lit "external_link") x))
    by reflexivity.
  rewrite !U. unfold separator_free, key_triple, triple_eqb.
  set (t := py_str (row_get (lit "title") r)).
  set (d := py_str (row_get (lit "created_at") r)).
  set (l := py_str (row_get (lit "external_link") r)).
  set (t' := py_str (row_get (lit "title") r')).
  set (d' := py_str (row_get (lit "created_at") r')).
  set (l' := py_str (row_get (lit "external_link") r')).
  intros H H'. apply andb_true_iff in H as [Ht Hd]. apply andb_true_iff in H' as [Ht' Hd'].
  apply negb_true_iff in Ht, Hd, Ht', Hd'.
  destruct (eqb (t ++ 124%N :: d ++ 124%N :: l) (t' ++ 124%N :: d' ++ 124%N :: l')) eqn:E.
  - apply eqb_eq in E. apply app_sep_inj in E as [-> E]; [|assumption|assumption].
    apply app_sep_inj in E as [-> ->]; [|assumption|assumption].
    now rewrite !eqb_refl.
  - symmetry. apply not_true_is_false. intros H.
    apply andb_true_iff in H as [H Hl]. apply andb_true_iff in H as [Ht2 Hd2].
    apply eqb_eq in Ht2, Hd2, Hl. subst t' d' l'. rewrite Ht2, Hd2, Hl in E.
    now rewrite eqb_refl in E.
Qed.

Lemma key_eqb_triple (r r' : row) :
  str_keys r = true -> str_keys r' = true ->
  key_eqb (key_of key_columns r) (key_of key_columns r')
  = triple_eqb (key_triple r) (key_triple r').
Proof.
  unfold str_keys, key_of, key_columns, key_triple, triple_eqb. cbn [List.map key_eqb].
  destruct (row_get (lit "title") r); try discriminate.
  destruct (row_get (lit "created_at") r); try discriminate.
  destruct (row_get (lit "external_link") r); try discriminate.
  destruct (row_get (lit "title") r'); try discriminate.
  destruct (row_get (lit "created_at") r'); try discriminate.
  destruct (row_get (lit "external_link") r'); try discriminate.
  intros _ _. cbn [value_eqb py_str]. now rewrite andb_true_r, andb_assoc.
Qed.

Lemma existsb_map (A B : Type) (f : B -> bool) (g : A -> B) (l : list A) :
  existsb f (List.map g l) = existsb (fun x => f (g x)) l.
Proof. induction l as [|x l IH]; simpl; [reflexivity|now rewrite IH]. Qed.

Lemma existsb_ext_in (A : Type) (f g : A -> bool) (l : list A) :
  (forall x, In x l -> f x = g x) -> existsb f l = existsb g l.
Proof.
  induction l as [|x l IH]; intros H; simpl; [reflexivity|].
  rewrite (H x (or_introl eq_refl)), IH; [reflexivity|].
  intros y Hy. apply H. now right.
Qed.

(** [drop_duplicates] on the three key columns keeps the first
    occurrence of every triple. *)
Lemma keep_first_triples (rs0 rs : list row) :
  Forall (fun r => str_keys r = true) rs0 ->
  Forall (fun r => str_keys r = true) rs ->
  List.map key_triple (keep_first key_columns (List.map (key_of key_columns) rs0) rs)
  = first_occurrences (List.map key_triple rs0) (List.map key_triple rs).
Proof.
  intros H0 H. revert rs0 H0. induction H as [|r rs Hr Hrs IH]; intros rs0 H0; [reflexivity|].
  cbn [keep_first List.map first_occurrences].
  assert (E : existsb (key_eqb (key_of key_columns r)) (List.map (key_of key_columns) rs0)
              = existsb (triple_eqb (key_triple r)) (List.map key_triple rs0)).
  { rewrite !existsb_map. apply existsb_ext_in. intros r0 Hin.
    apply key_eqb_triple; [assumption|].
    rewrite Forall_forall in H0. now apply H0. }
  rewrite E. destruct (existsb _ (List.map key_triple rs0)).
  - now apply IH.
  - cbn [List.map]. f_equal.
    change (key_of key_columns r :: List.map (key_of key_columns) rs0)
      with (List.map (key_of key_columns) (r :: rs0)).
    change (key_triple r :: List.map key_triple rs0) with (List.map key_triple (r :: rs0)).
    apply IH. now constructor.
Qed.

Lemma filter_map_comm (A B : Type) (g : A -> B) (f : B -> bool) (l : list A) :
  filter f (List.map g l) = List.map g (filter (fun x => f (g x)) l).
Proof.
  induction l as [|x l IH]; simpl; [reflexivity|].
  destruct (f (g x)); simpl; now rewrite IH.
Qed.

Lemma filter_ext_in' (A : Type) (f g : A -> bool) (l : list A) :
  (forall x, In x l -> f x = g x) -> filter f l = filter g l.
Proof.
  induction l as [|x l IH]; intros H; simpl; [reflexivity|].
  rewrite (H x (or_introl eq_refl)), IH; [reflexivity|].
  intros y Hy. apply H. now right.
Qed.

(** [df[mask]] when the frame and the mask are computed row by row. *)
Lemma select_rows (g : row -> row) (m : row -> bool) (l : list row) (cols : list str) :
  rows (select (List.map m l) {| columns := cols; rows := List.map g l |})
  = List.map g (filter m l).
Proof.
  unfold select. cbn [rows]. induction l as [|r l IH]; simpl; [reflexivity|].
  destruct (m r); simpl; now rewrite IH.
Qed.

(** [df[c] = series] when the frame and the series are computed row by row. *)
Lemma set_column_rows_of (c : str) (g : row -> row) (h : row -> value) (l : list row)
    (cols : list str) :
  rows (set_column c (List.map h l) {| columns := cols; rows := List.map g l |})
  = List.map (fun r => row_set c (h r) (g r)) l.
Proof.
  unfold set_column. cbn [rows]. induction l as [|r l IH]; simpl; [reflexivity|].
  now rewrite IH.
Qed.

End DuplicatePartition.

Section DuplicatePartitionTheorem.

Import escritura.

Lemma normalize_keys_rows (df df' : DataFrame) :
  normalize_keys df = Ok df' ->
  rows df' = List.map normalized_row (rows df) /\ columns df' = columns df.
Proof.
  unfold normalize_keys, getitem.
  destruct (has_column (lit "created_at") df) eqn:H1; [|discriminate].
  set (df1 := set_column (lit "created_at") _ df).
  assert (R1 : rows df1 = List.map (fun r => row_set (lit "created_at")
                                     (VStr (py_str (row_get (lit "created_at") r))) r) (rows df)).
  { subst df1. unfold astype_str, column. rewrite !map_map. apply set_column_rows. }
  assert (C1 : columns df1 = columns df).
  { subst df1. unfold set_column. cbn [columns]. now rewrite H1. }
  destruct (has_column (lit "external_link") df1) eqn:H2; [|discriminate].
  set (df2 := set_column (lit "external_link") _ df1).
  assert (R2 : rows df2 = List.map (fun r => row_set (lit "external_link")
                 (VStr (py_str (let v := row_get (lit "external_link") r in
                                if is_null v then VStr [] else v))) r) (rows df1)).
  { subst df2. unfold astype_str, fillna_empty, column. rewrite !map_map.
    apply set_column_rows. }
  assert (C2 : columns df2 = columns df1).
  { subst df2. unfold set_column. cbn [columns]. now rewrite H2. }
  destruct (has_column (lit "title") df2) eqn:H3; [|discriminate].
  intros H. injection H as <-. split.
  - unfold astype_str, column. rewrite !map_map.
    rewrite (set_column_rows (lit "title")
               (fun r => VStr (strip (py_str (row_get (lit "title") r)))) df2).
    rewrite R2, R1, !map_map. reflexivity.
  - unfold set_column. cbn [columns]. rewrite H3. congruence.
Qed.

Lemma normalized_row_str_keys (r : row) : str_keys (normalized_row r) = true.
Proof.
  unfold str_keys, normalized_row. cbv zeta.
  rewrite row_get_set_same.
  rewrite (@row_get_set_other (lit "title") (lit "created_at")) by reflexivity.
  rewrite (@row_get_set_other (lit "external_link") (lit "created_at")) by reflexivity.
  rewrite row_get_set_same.
  rewrite (@row_get_set_other (lit "title") (lit "external_link")) by reflexivity.
  rewrite row_get_set_same. reflexivity.
Qed.

(** The helper columns leave the key columns alone. *)
Lemma helper_columns_keep_keys (u v : value) (r : row) (c : str) :
  In c key_columns ->
  row_get c (row_set (lit "is_duplicate") u (row_set (lit "unique_key") v r)) = row_get c r
  /\ row_get c (row_set (lit "unique_key") v r) = row_get c r.
Proof.
  intros [<-|[<-|[<-|[]]]]; split;
    rewrite ?(@row_get_set_other (lit "is_duplicate")) by reflexivity;
    now rewrite (@row_get_set_other (lit "unique_key")) by reflexivity.
Qed.

Lemma filter_all (A : Type) (l : list A) : filter (fun _ => true) l = l.
Proof. induction l as [|x l IH]; simpl; [reflexivity|now rewrite IH]. Qed.

Lemma set_column_rows_by (c : str) (g : row -> row) (h : row -> value) (l : list row)
    (df : DataFrame) :
  rows df = List.map g l ->
  rows (set_column c (List.map h l) df) = List.map (fun r => row_set c (h r) (g r)) l.
Proof.
  intros H. unfold set_column. cbn [rows]. rewrite H. clear H.
  induction l as [|r l IH]; simpl; [reflexivity|now rewrite IH].
Qed.

Lemma select_rows_by (g : row -> row) (m : row -> bool) (l : list row) (df : DataFrame) :
  rows df = List.map g l ->
  rows (select (List.map m l) df) = List.map g (filter m l).
Proof.
  intros H. unfold select. cbn [rows]. rewrite H. clear H.
  induction l as [|r l IH]; simpl; [reflexivity|].
  destruct (m r); simpl; now rewrite IH.
Qed.

Lemma key_triple_helper_columns (u v : value) (r : row) :
  key_triple (row_set (lit "is_duplicate") u (row_set (lit "unique_key") v r)) = key_triple r
  /\ key_triple (row_set (lit "unique_key") v r) = key_triple r.
Proof.
  unfold key_triple.
  destruct (@helper_columns_keep_keys u v r (lit "title")) as [-> ->]; [simpl; tauto|].
  destruct (@helper_columns_keep_keys u v r (lit "created_at")) as [-> ->]; [simpl; tauto|].
  destruct (@helper_columns_keep_keys u v r (lit "external_link")) as [-> ->]; [simpl; tauto|].
  split; reflexivity.
Qed.

Lemma str_keys_helper_columns (u v : value) (r : row) :
  str_keys (row_set (lit "is_duplicate") u (row_set (lit "unique_key") v r)) = str_keys r.
Proof.
  unfold str_keys.
  destruct (@helper_columns_keep_keys u v r (lit "title")) as [-> _]; [simpl; tauto|].
  destruct (@helper_columns_keep_keys u v r (lit "created_at")) as [-> _]; [simpl; tauto|].
  destruct (@helper_columns_keep_keys u v r (lit "external_link")) as [-> _]; [simpl; tauto|].
  reflexivity.
Qed.

Lemma separator_free_helper_columns (u v : value) (r : row) :
  separator_free (row_set (lit "is_duplicate") u (row_set (lit "unique_key") v r))
  = separator_free r
  /\ separator_free (row_set (lit "unique_key") v r) = separator_free r.
Proof.
  unfold separator_free.
  destruct (@helper_columns_keep_keys u v r (lit "title")) as [-> ->]; [simpl; tauto|].
  destruct (@helper_columns_keep_keys u v r (lit "created_at")) as [-> ->]; [simpl; tauto|].
  split; reflexivity.
Qed.

Lemma new_records_triples (existing_records : list (list value)) (df : DataFrame)
    (entity : str) (p : partition) :
  validate_duplicates existing_records df entity = Ok (Some p) ->
  Forall (fun r => separator_free r = true) (rows (p_entity_df p)) ->
  Forall (fun r => separator_free r = true) (rows (p_db_df p)) ->
  List.map key_triple (rows (new_records p))
  = spec_new_keys (List.map key_triple (rows (p_db_df p)))
                  (List.map key_triple (rows (p_entity_df p))).
Proof.
  unfold validate_duplicates.
  destruct (getitem (lit "entity") df) as [entity_col|]; [|discriminate].
  set (entity_df0 := select _ df).
  destruct (empty entity_df0); [discriminate|].
  match goal with |- context [if negb (empty ?d) then _ else _] => set (db_df0 := d) end.
  destruct (normalize_keys entity_df0) as [entity_df|] eqn:En.
  2:{ destruct (if negb (empty db_df0) then _ else _); discriminate. }
  destruct (normalize_keys_rows _ En) as [RL _].
  assert (HL : Forall (fun r => str_keys r = true) (rows entity_df)).
  { rewrite RL. apply Forall_forall. intros r Hr. apply in_map_iff in Hr as (r0 & <- & _).
    apply normalized_row_str_keys. }
  destruct (empty db_df0) eqn:Hd0; cbn [negb].
  - (* nothing persisted *)
    assert (Rd : rows db_df0 = []).
    { subst db_df0. destruct existing_records; [reflexivity|discriminate Hd0]. }
    rewrite Hd0. intros H. injection H as <-.
    cbn [new_records p_entity_df p_db_df]. intros _ _. rewrite Rd.
    unfold drop_duplicates, spec_new_keys. cbn [rows List.map existsb negb].
    rewrite filter_all.
    exact (@keep_first_triples [] (rows entity_df) (Forall_nil _) HL).
  - (* some records persisted *)
    destruct (normalize_keys db_df0) as [db_df|] eqn:Dn; [|discriminate].
    destruct (normalize_keys_rows _ Dn) as [RD CD].
    assert (HD : Forall (fun r => str_keys r = true) (rows db_df)).
    { rewrite RD. apply Forall_forall. intros r Hr. apply in_map_iff in Hr as (r0 & <- & _).
      apply normalized_row_str_keys. }
    assert (Hd : empty db_df = false).
    { unfold empty in *. rewrite RD, CD. destruct (rows db_df0); [exact Hd0|].
      destruct (columns db_df0); [exact Hd0|reflexivity]. }
    rewrite Hd. set (L := rows entity_df) in *. set (D := rows db_df) in *.
    set (uk := fun r : row => VStr (unique_key r)).
    set (e1 := set_column (lit "unique_key") (List.map uk L) entity_df).
    set (d1 := set_column (lit "unique_key") (List.map uk D) db_df).
    assert (Re1 : rows e1 = List.map (fun r => row_set (lit "unique_key") (uk r) r) L).
    { subst e1. rewrite (@set_column_rows_by _ (fun r => r) uk L entity_df); [reflexivity|].
      now rewrite map_id. }
    assert (Rd1 : rows d1 = List.map (fun r => row_set (lit "unique_key") (uk r) r) D).
    { subst d1. rewrite (@set_column_rows_by _ (fun r => r) uk D db_df); [reflexivity|].
      now rewrite map_id. }
    set (keys := astype_str (column (lit "unique_key") d1)).
    assert (Hkeys : keys = List.map unique_key D).
    { subst keys. unfold astype_str, column. rewrite Rd1, !map_map.
      apply map_ext. intros r. now rewrite row_get_set_same. }
    set (dup := fun r : row => existsb (eqb (unique_key r)) keys).
    assert (Hdup : List.map (fun v => existsb (eqb (py_str v)) keys)
                            (column (lit "unique_key") e1)
                   = List.map dup L).
    { unfold column. rewrite Re1, !map_map. apply map_ext. intros r.
      now rewrite row_get_set_same. }
    rewrite Hdup, map_map.
    set (e2 := set_column (lit "is_duplicate") (List.map (fun r => VBool (dup r)) L) e1).
    set (G := fun r => row_set (lit "is_duplicate") (VBool (dup r))
                               (row_set (lit "unique_key") (uk r) r)).
    assert (Re2 : rows e2 = List.map G L).
    { subst e2. now apply set_column_rows_by. }
    assert (Hmask : List.map (fun v => negb (value_eqb v (VBool true)))
                             (column (lit "is_duplicate") e2)
                    = List.map (fun r => negb (dup r)) L).
    { unfold column. rewrite Re2, !map_map. apply map_ext. intros r.
      unfold G. rewrite row_get_set_same. cbn [value_eqb]. now destruct (dup r). }
    rewrite Hmask.
    intros H. injection H as <-. cbn [new_records p_entity_df p_db_df].
    intros SL SD.
    unfold drop_duplicates, spec_new_keys. cbn [rows].
    rewrite (@select_rows_by G (fun r => negb (dup r)) L e2 Re2).
    rewrite Re2, Rd1, !map_map.
    assert (KG : forall r, key_triple (G r) = key_triple r).
    { intros r. apply key_triple_helper_columns. }
    assert (Kg : forall r, key_triple (row_set (lit "unique_key") (uk r) r) = key_triple r).
    { intros r. apply (key_triple_helper_columns VNone). }
    rewrite (map_ext _ _ KG), (map_ext _ _ Kg).
    assert (SL' : Forall (fun r => separator_free r = true) L).
    { rewrite Re2 in SL. rewrite Forall_forall in *. intros r Hr.
      specialize (SL (G r) (in_map G _ _ Hr)).
      unfold G in SL. now rewrite (proj1 (separator_free_helper_columns _ _ _)) in SL. }
    assert (SD' : Forall (fun r => separator_free r = true) D).
    { rewrite Rd1 in SD. rewrite Forall_forall in *. intros r Hr.
      specialize (SD _ (in_map (fun r => row_set (lit "unique_key") (uk r) r) _ _ Hr)).
      now rewrite (proj2 (separator_free_helper_columns VNone _ _)) in SD. }
    change (keep_first key_columns [])
      with (keep_first key_columns (List.map (key_of key_columns) [])).
    rewrite (@keep_first_triples [] (List.map G (filter (fun r => negb (dup r)) L))
               (Forall_nil _)).
    2:{ apply Forall_forall. intros r Hr. apply in_map_iff in Hr as (r0 & <- & Hr0).
        unfold G. rewrite str_keys_helper_columns.
        apply filter_In in Hr0 as [Hr0 _]. rewrite Forall_forall in HL. now apply HL. }
    cbn [List.map]. rewrite map_map, (map_ext _ _ KG). f_equal.
    rewrite filter_map_comm. f_equal. apply filter_ext_in'. intros r Hr.
    f_equal. unfold dup. rewrite Hkeys, !existsb_map. apply existsb_ext_in. intros r0 Hr0.
    rewrite Forall_forall in SL', SD'. apply unique_key_eqb; auto.
Qed.

(** The new records are those the specification names: on records
    whose titles and dates hold no ["|"], the key triples of
    [new_records] are the triples of the batch that are not among the
    persisted triples, first occurrence kept, in the order of the batch. *)
Theorem new_records_by_key_triple (existing_records : list (list value)) (df : DataFrame)
    (entity : str) (p : partition) :
  validate_duplicates existing_records df entity = Ok (Some p) ->
  Forall (fun r => separator_free r = true) (rows (p_entity_df p)) ->
  Forall (fun r => separator_free r = true) (rows (p_db_df p)) ->
  List.map key_triple (rows (new_records p))
  = spec_new_keys (List.map key_triple (rows (p_db_df p)))
                  (List.map key_triple (rows (p_entity_df p))).
Proof. apply new_records_triples. Qed.

(** A batch whose every key is already persisted yields no new
    record: a second run over a stored batch has nothing to insert. *)
Corollary persisted_batch_has_no_new_records (existing_records : list (list value))
    (df : DataFrame) (entity : str) (p : partition) :
  validate_duplicates existing_records df entity = Ok (Some p) ->
  Forall (fun r => separator_free r = true) (rows (p_entity_df p)) ->
  Forall (fun r => separator_free r = true) (rows (p_db_df p)) ->
  (forall r, In r (rows (p_entity_df p)) ->
     existsb (triple_eqb (key_triple r)) (List.map key_triple (rows (p_db_df p))) = true) ->
  rows (new_records p) = [].
Proof.
  intros H SL SD Hall.
  apply (map_eq_nil key_triple).
  rewrite (new_records_triples _ _ _ H SL SD). unfold spec_new_keys.
  replace (filter _ _) with (@nil triple); [reflexivity|].
  symmetry. clear H SL. revert Hall.
  generalize (rows (p_entity_df p)) as l.
  induction l as [|r l IH]; intros Hall; [reflexivity|].
  cbn [List.map filter]. rewrite (Hall r (or_introl eq_refl)). cbn [negb].
  apply IH. intros r' Hr'. apply Hall. now right.
Qed.

End DuplicatePartitionTheorem.

Section DuplicatePartitionExample.

Import escritura samples.

(** The sample batch against the sample store: no title or date holds
    a separator, and the new records are the batch's triples that the
    store lacks. *)
Lemma new_records_by_key_triple_witness :
  List.map key_triple (rows (new_records sample_partition))
  = spec_new_keys (List.map key_triple (rows (p_db_df sample_partition)))
                  (List.map key_triple (rows (p_entity_df sample_partition)))
  /\ List.length (rows (new_records sample_partition)) = 1%nat.
Proof.
  split; [|vm_compute; reflexivity].
  apply (@new_records_by_key_triple sample_existing sample_batch E).
  - vm_compute. reflexivity.
  - apply Forall_forall, forallb_forall. vm_compute. reflexivity.
  - apply Forall_forall, forallb_forall. vm_compute. reflexivity.
Defined.

(** The sample batch against a store that holds both of its records:
    every key is persisted and no record is new. *)
Lemma persisted_batch_has_no_new_records_witness :
  validate_duplicates (answer (SelectExisting (lit "regulations") E) stocked_db) sample_batch E
  = Ok (Some stocked_partition)
  /\ rows (new_records stocked_partition) = [].
Proof.
  assert (H : validate_duplicates (answer (SelectExisting (lit "regulations") E) stocked_db)
                                  sample_batch E
              = Ok (Some stocked_partition)) by (vm_compute; reflexivity).
  split; [exact H|].
  apply (@persisted_batch_has_no_new_records _ sample_batch E stocked_partition H).
  - apply Forall_forall, forallb_forall. vm_compute. reflexivity.
  - apply Forall_forall, forallb_forall. vm_compute. reflexivity.
  - intros r Hr.
    apply (proj1 (forallb_forall
                    (fun r => existsb (triple_eqb (key_triple r))
                                      (List.map key_triple (rows (p_db_df stocked_partition))))
                    (rows (p_entity_df stocked_partition)))); [|exact Hr].
    vm_compute. reflexivity.
Defined.

End DuplicatePartitionExample.

(** ** Cleaning of scraped text *)

Section CleaningFacts.

Import extraccion.

Lemma split_app_space (w s : str) :
  no_space w = true -> w <> [] -> split (w ++ 32%N :: s) = w :: split s.
Proof.
  induction w as [|c w IH]; [congruence|].
  intros H _. cbn [no_space forallb] in H. apply andb_true_iff in H as [Hc Hw].
  destruct (isspace c) eqn:Ec; [discriminate|].
  destruct w as [|c' w'].
  - cbn [app split]. rewrite Ec. reflexivity.
  - assert (Ec' : isspace c' = false).
    { cbn [forallb] in Hw. apply andb_true_iff in Hw as [Hc' _]. now destruct (isspace c'). }
    change ((c :: c' :: w') ++ 32%N :: s) with (c :: (c' :: w') ++ 32%N :: s).
    cbn [split]. rewrite Ec. cbn [app]. rewrite Ec'.
    change (c' :: w' ++ 32%N :: s) with ((c' :: w') ++ 32%N :: s).
    rewrite (IH Hw); [reflexivity|discriminate].
Qed.

(** The words of a single-space join are the words joined. *)
Lemma split_join_words (ws : list str) :
  Forall (fun t => t <> [] /\ no_space t = true) ws ->
  split (join (lit " ") ws) = ws.
Proof.
  induction ws as [|w ws IH]; [reflexivity|].
  intros H. inversion H as [|? ? [Hne Hns] Hws]; subst.
  destruct ws as [|w' ws'].
  - simpl. now apply split_no_space.
  - change (join (lit " ") (w :: w' :: ws')) with (w ++ 32%N :: join (lit " ") (w' :: ws')).
    rewrite (split_app_space _ Hns Hne). now rewrite (IH Hws).
Qed.

Lemma lstrip_incl (s : str) : incl (lstrip s) s.
Proof.
  induction s as [|c s IH]; simpl; [apply incl_refl|].
  destruct (isspace c); [now apply incl_tl|apply incl_refl].
Qed.

Lemma rstrip_incl (s : str) : incl (rstrip s) s.
Proof.
  induction s as [|c s IH]; simpl; [apply incl_refl|].
  destruct (rstrip s) as [|r rs].
  - destruct (isspace c); [apply incl_nil_l|].
    intros x [<-|[]]. now left.
  - intros x [<-|Hx]; [now left|right; now apply IH].
Qed.

Lemma strip_incl (s : str) : incl (strip s) s.
Proof. unfold strip. eapply incl_tran; [apply rstrip_incl|apply lstrip_incl]. Qed.

Lemma split_incl (s w : str) : In w (split s) -> incl w s.
Proof.
  revert w. induction s as [|c s IH]; intros w; [intros []|].
  cbn [split]. destruct (isspace c).
  - intros H. apply incl_tl. now apply IH.
  - destruct s as [|c' s'].
    + intros [<-|[]]. apply incl_refl.
    + destruct (isspace c').
      * intros [<-|H]; [intros x [<-|[]]; now left|apply incl_tl; now apply IH].
      * destruct (split (c' :: s')) as [|t ts] eqn:E.
        -- intros [<-|[]]. intros x [<-|[]]. now left.
        -- intros [<-|H].
           ++ intros x [<-|Hx]; [now left|right]. apply (IH t); [now left|assumption].
           ++ apply incl_tl. apply IH. now right.
Qed.

Lemma join_In (sep : str) (ws : list str) (c : char) :
  In c (join sep ws) -> In c sep \/ exists w, In w ws /\ In c w.
Proof.
  induction ws as [|w ws IH]; [intros []|].
  destruct ws as [|w' ws'].
  - simpl. intros H. right. exists w. auto.
  - change (join sep (w :: w' :: ws')) with (w ++ sep ++ join sep (w' :: ws')).
    intros H. apply in_app_or in H as [H|H]; [right; exists w; simpl; auto|].
    apply in_app_or in H as [H|H]; [now left|].
    destruct (IH H) as [Hs|(x & Hx & Hc)]; [now left|].
    right. exists x. split; [now right|assumption].
Qed.

Lemma remove_char_incl (c : char) (s : str) : incl (remove_char c s) s.
Proof. intros x Hx. unfold remove_char in Hx. now apply filter_In in Hx as [Hx _]. Qed.

Lemma remove_char_absent (c : char) (s : str) : ~ In c (remove_char c s).
Proof.
  unfold remove_char. intros H. apply filter_In in H as [_ H].
  now rewrite N.eqb_refl in H.
Qed.

Lemma remove_char_id (c : char) (s : str) : ~ In c s -> remove_char c s = s.
Proof.
  unfold remove_char. induction s as [|x s IH]; [reflexivity|].
  intros H. simpl. destruct (N.eqb_spec x c) as [->|_]; [exfalso; apply H; now left|].
  simpl. f_equal. apply IH. intros Hc. apply H. now right.
Qed.

Lemma remove_chars_incl (cs : list char) (s : str) :
  incl (fold_left (fun acc quote_char => remove_char quote_char acc) cs s) s.
Proof.
  revert s. induction cs as [|c cs IH]; intros s; [apply incl_refl|].
  simpl. eapply incl_tran; [apply IH|apply remove_char_incl].
Qed.

Lemma remove_chars_absent (cs : list char) (s : str) (c : char) :
  In c cs -> ~ In c (fold_left (fun acc quote_char => remove_char quote_char acc) cs s).
Proof.
  revert s. induction cs as [|x cs IH]; intros s; [intros []|].
  simpl. intros [->|H]; [|now apply IH].
  intros Hc. apply remove_chars_incl in Hc. now apply remove_char_absent in Hc.
Qed.

Lemma remove_chars_id (cs : list char) (s : str) :
  (forall c, In c cs -> ~ In c s) ->
  fold_left (fun acc quote_char => remove_char quote_char acc) cs s = s.
Proof.
  induction cs as [|c cs IH]; [reflexivity|].
  intros H. simpl. rewrite remove_char_id by (apply H; now left).
  apply IH. intros x Hx. apply H. now right.
Qed.

Lemma filter_id (A : Type) (f : A -> bool) (l : list A) :
  (forall x, In x l -> f x = true) -> filter f l = l.
Proof.
  induction l as [|x l IH]; [reflexivity|].
  intros H. simpl. rewrite (H x (or_introl eq_refl)). f_equal.
  apply IH. intros y Hy. apply H. now right.
Qed.

(** What [clean_quotes] returns on a text that is not empty: the words
    of the text once the quotes are out, joined by single spaces. *)
Lemma clean_quotes_words (text : str) :
  text <> [] ->
  exists ws,
    clean_quotes text = join (lit " ") ws
    /\ Forall (fun t => t <> [] /\ no_space t = true) ws
    /\ (forall w c, In w ws -> In c w ->
          In c text /\ ~ In c quotes_map /\ existsb (N.eqb c) quotes_pattern = false).
Proof.
  intros Hne. destruct text as [|c0 text]; [congruence|].
  pose (t1 := fold_left (fun acc quote_char => remove_char quote_char acc) quotes_map
                        (c0 :: text)).
  pose (t2 := filter (fun c => negb (existsb (N.eqb c) quotes_pattern)) t1).
  exists (split (strip t2)). split; [reflexivity|]. split; [apply split_words|].
  intros w c Hw Hc.
  assert (H2 : In c t2).
  { apply (@strip_incl t2). exact (split_incl _ _ Hw c Hc). }
  apply filter_In in H2 as [H1 Hp].
  split; [exact (@remove_chars_incl quotes_map (c0 :: text) c H1)|].
  split.
  - intros Hq. exact (@remove_chars_absent quotes_map (c0 :: text) c Hq H1).
  - apply negb_true_iff in Hp. exact Hp.
Qed.

Lemma clean_quotes_fixed (text : str) :
  clean_quotes (clean_quotes text) = clean_quotes text.
Proof.
  destruct text as [|c0 text]; [reflexivity|].
  destruct (@clean_quotes_words (c0 :: text)) as (ws & E & Hws & Hchars);
    [discriminate|].
  rewrite E. unfold clean_quotes at 1.
  destruct (join (lit " ") ws) as [|x q] eqn:Eq; [reflexivity|].
  cbn [is_empty]. rewrite <- Eq.
  assert (Hclean : forall c, In c (join (lit " ") ws) ->
            ~ In c quotes_map /\ existsb (N.eqb c) quotes_pattern = false).
  { intros c Hc. apply join_In in Hc as [Hc|(w & Hw & Hc)].
    - destruct Hc as [<-|[]]. split; [|reflexivity].
      simpl. intros H. repeat (destruct H as [H|H]; [discriminate|]). exact H.
    - destruct (Hchars w c Hw Hc) as (_ & H1 & H2). now split. }
  rewrite remove_chars_id by (intros c Hc Hin; now apply (proj1 (Hclean c Hin))).
  rewrite filter_id by (intros c Hc; apply negb_true_iff; now apply Hclean).
  rewrite (strip_join_words Hws), (split_join_words Hws). reflexivity.
Qed.

(** Cleaning a cleaned text changes nothing. *)
Theorem clean_quotes_idempotent (text : str) :
  clean_quotes (clean_quotes text) = clean_quotes text.
Proof. apply clean_quotes_fixed. Qed.

(** A cleaned text holds none of the quote characters, and its white
    space is normalised: it is the single-space join of its own words,
    so it neither starts nor ends with white space and every
    white-space character of it is one U+0020 between two words. *)
Theorem clean_quotes_normal_form (text : str) :
  (forall c, In c (clean_quotes text) ->
     ~ In c quotes_map /\ ~ In c quotes_pattern /\ In c (32%N :: text))
  /\ clean_quotes text = join (lit " ") (split (clean_quotes text))
  /\ strip (clean_quotes text) = clean_quotes text
  /\ (forall c, In c (clean_quotes text) -> isspace c = true -> c = 32%N).
Proof.
  destruct text as [|c0 text].
  { split; [intros c []|]. split; [reflexivity|]. split; [reflexivity|intros c []]. }
  destruct (@clean_quotes_words (c0 :: text)) as (ws & E & Hws & Hchars);
    [discriminate|].
  rewrite E.
  assert (Hsp : forall c, In c (lit " ") -> c = 32%N) by (now intros c [<-|[]]).
  split; [|split; [|split]].
  - intros c H. apply join_In in H as [H|(w & Hw & Hc)].
    + rewrite (Hsp c H). split; [|split; [|now left]]; simpl; intros H';
        repeat (destruct H' as [H'|H']; [discriminate|]); exact H'.
    + destruct (Hchars w c Hw Hc) as (H1 & H2 & H3).
      split; [exact H2|]. split; [|now right].
      intros Hin. assert (existsb (N.eqb c) quotes_pattern = true); [|congruence].
      apply existsb_exists. exists c. split; [assumption|apply N.eqb_refl].
  - now rewrite (split_join_words Hws).
  - now apply strip_join_words.
  - intros c Hc Hs. apply join_In in Hc as [Hc|(w & Hw & Hc)]; [now apply Hsp|].
    rewrite Forall_forall in Hws. destruct (Hws w Hw) as [_ Hns].
    unfold no_space in Hns. rewrite forallb_forall in Hns.
    specialize (Hns c Hc). rewrite Hs in Hns. discriminate.
Qed.

Lemma join_cons_head (sep : str) (c : char) (t : str) (ts : list str) :
  join sep ((c :: t) :: ts) = c :: join sep (t :: ts).
Proof. destruct ts; reflexivity. Qed.

Lemma join_split_length (s : str) :
  (List.length (join (lit " ") (split s))
   + match s with c :: _ => if isspace c then 1 else 0 | [] => 0 end
   <= List.length s)%nat.
Proof.
  induction s as [|c s IH]; [simpl; lia|].
  cbn [split]. destruct (isspace c) eqn:Ec.
  - simpl. lia.
  - destruct s as [|c' s']; [simpl; lia|].
    destruct (isspace c') eqn:Ec'.
    + destruct (split (c' :: s')) as [|t ts] eqn:E; [simpl; lia|].
      change (join (lit " ") ([c] :: t :: ts)) with (c :: 32%N :: join (lit " ") (t :: ts)).
      cbn [List.length] in *. lia.
    + destruct (split (c' :: s')) as [|t ts] eqn:E; [simpl; lia|].
      rewrite join_cons_head. cbn [List.length] in *. lia.
Qed.

Lemma lstrip_length (s : str) : (List.length (lstrip s) <= List.length s)%nat.
Proof. induction s as [|c s IH]; simpl; [lia|]. destruct (isspace c); simpl; lia. Qed.

Lemma rstrip_length (s : str) : (List.length (rstrip s) <= List.length s)%nat.
Proof.
  induction s as [|c s IH]; simpl; [lia|].
  destruct (rstrip s); [destruct (isspace c)|]; simpl in *; lia.
Qed.

Lemma remove_chars_length (cs : list char) (s : str) :
  (List.length (fold_left (fun acc quote_char => remove_char quote_char acc) cs s)
   <= List.length s)%nat.
Proof.
  revert s. induction cs as [|c cs IH]; intros s; [simpl; lia|].
  simpl. etransitivity; [apply IH|]. apply filter_length_le.
Qed.

(** Cleaning never lengthens a text. *)
Lemma clean_quotes_length (text : str) : (len (clean_quotes text) <= len text)%Z.
Proof.
  unfold len. apply inj_le. unfold clean_quotes.
  destruct (is_empty text); [lia|].
  pose proof (@remove_chars_length quotes_map text) as H1.
  pose proof (filter_length_le (fun c => negb (existsb (N.eqb c) quotes_pattern))
                (fold_left (fun acc quote_char => remove_char quote_char acc) quotes_map text))
    as H2.
  match goal with
  | |- (List.length (join _ (split (strip ?t))) <= _)%nat =>
      pose proof (join_split_length (strip t)) as H3;
      pose proof (rstrip_length (lstrip t)) as H4; pose proof (lstrip_length t) as H5
  end.
  unfold strip in *.
  eapply Nat.le_trans; [|exact H1]. eapply Nat.le_trans; [|exact H2].
  eapply Nat.le_trans; [|exact H5]. eapply Nat.le_trans; [|exact H4].
  eapply Nat.le_trans; [|exact H3]. apply Nat.le_add_r.
Qed.

(** A row whose anchor text has at most 65 code points and whose
    [href] is not empty passes the title and link step, whatever the
    quotes and the white space in the text: the title stored is the
    cleaned text, the link the [href], made absolute when it does not
    start with ["http"]. *)
Theorem short_title_is_accepted (row : table_row) (norma_data : norma) (a : anchor)
    (href : str) :
  title_a row = Some (Some a) ->
  (len (a_text a) <= 65)%Z ->
  a_href a = Some href ->
  href <> [] ->
  fst (extract_title_and_link row norma_data) = true
  /\ title (snd (extract_title_and_link row norma_data)) = Some (clean_quotes (a_text a))
  /\ external_link (snd (extract_title_and_link row norma_data))
     = Some (if startswith (lit "http") href then href
             else lit "https://www.ani.gov.co" ++ href)
  /\ gtype (snd (extract_title_and_link row norma_data)) = Some (lit "link").
Proof.
  intros Ha Hlen Hh Hne. unfold extract_title_and_link. rewrite Ha.
  pose proof (clean_quotes_length (a_text a)) as Hc.
  replace (65 <? len (clean_quotes (a_text a)))%Z with false
    by (symmetry; apply Z.ltb_ge; lia).
  rewrite Hh. destruct href as [|h href]; [congruence|].
  cbn [is_empty negb andb].
  destruct (startswith (lit "http") (h :: href)); cbn [negb];
    repeat split; reflexivity.
Qed.

End CleaningFacts.

Section CleaningExamples.

Import extraccion samples.

Lemma short_title_is_accepted_witness :
  (len (a_text resolucion_anchor) <= 65)%Z
  /\ fst (extract_title_and_link slash_row (new_norma sample_now)) = true
  /\ title (snd (extract_title_and_link slash_row (new_norma sample_now)))
     = Some (clean_quotes (a_text resolucion_anchor))
  /\ external_link (snd (extract_title_and_link slash_row (new_norma sample_now)))
     = Some (if startswith (lit "http") (lit "/normatividad/resolucion-123")
             then lit "/normatividad/resolucion-123"
             else lit "https://www.ani.gov.co" ++ lit "/normatividad/resolucion-123")
  /\ gtype (snd (extract_title_and_link slash_row (new_norma sample_now))) = Some (lit "link").
Proof.
  assert (Hl : (len (a_text resolucion_anchor) <= 65)%Z)
    by (apply Z.leb_le; vm_compute; reflexivity).
  split; [exact Hl|].
  apply (@short_title_is_accepted slash_row (new_norma sample_now) resolucion_anchor
           (lit "/normatividad/resolucion-123") eq_refl Hl eq_refl).
  discriminate.
Defined.

End CleaningExamples.

(** ** The records the scraper emits *)

Section ScrapedRecords.

Import extraccion.

Lemma split_on_absent (sep : char) (a : str) :
  has_char sep a = false -> split_on sep a = [a].
Proof.
  induction a as [|c a IH]; [reflexivity|].
  cbn [has_char existsb]. intros H. apply orb_false_iff in H as [Hc Ha].
  cbn [split_on]. rewrite N.eqb_sym, Hc.
  unfold has_char in IH. now rewrite (IH Ha).
Qed.

Lemma split_on_first (sep : char) (a b : str) :
  has_char sep a = false -> split_on sep (a ++ sep :: b) = a :: split_on sep b.
Proof.
  induction a as [|c a IH]; intros H.
  - cbn [app split_on]. now rewrite N.eqb_refl.
  - cbn [has_char existsb] in H. apply orb_false_iff in H as [Hc Ha].
    cbn [app split_on]. rewrite N.eqb_sym, Hc.
    unfold has_char in IH. now rewrite (IH Ha).
Qed.

Lemma has_char_sep (c : char) (a b : str) : has_char c (a ++ c :: b) = true.
Proof.
  unfold has_char. rewrite existsb_app. cbn [existsb].
  now rewrite N.eqb_refl, orb_true_r.
Qed.

Lemma has_char_cons_other (c x : char) (a : str) :
  (c =? x)%N = false -> has_char c (x :: a) = has_char c a.
Proof. intros H. unfold has_char. cbn [existsb]. now rewrite H. Qed.

(** How [extract_creation_date] rewrites the date text of a span: a
    text with a [T] is cut at its first [T]; a text without [T] that
    has exactly two [/] is turned from day/month/year to
    year-month-day, month and day filled to two digits; a text with [/]
    that does not split in three is kept as it is. *)
Theorem normalize_created_at_cases :
  (forall date rest : str,
     has_char 84%N date = false ->
     normalize_created_at (date ++ lit "T" ++ rest) = date)
  /\ (forall day month year : str,
        has_char 84%N (day ++ month ++ year) = false ->
        has_char 47%N (day ++ month ++ year) = false ->
        normalize_created_at (day ++ lit "/" ++ month ++ lit "/" ++ year)
        = year ++ lit "-" ++ zfill 2 month ++ lit "-" ++ zfill 2 day)
  /\ (forall raw : str,
        has_char 84%N raw = false ->
        List.length (split_on 47%N raw) <> 3%nat ->
        normalize_created_at raw = raw).
Proof.
  split; [|split].
  - intros date rest H. unfold normalize_created_at.
    replace (has_char 84%N (date ++ lit "T" ++ rest)) with true
      by (symmetry; exact (has_char_sep 84%N date rest)).
    replace (split_on 84%N (date ++ lit "T" ++ rest)) with (date :: split_on 84%N rest)
      by (symmetry; exact (split_on_first 84%N date rest H)).
    reflexivity.
  - intros day month year HT HS. unfold normalize_created_at.
    rewrite !has_char_app in HT, HS.
    apply orb_false_iff in HT as [HT1 HT]. apply orb_false_iff in HT as [HT2 HT3].
    apply orb_false_iff in HS as [HS1 HS]. apply orb_false_iff in HS as [HS2 HS3].
    assert (E : has_char 84%N (day ++ lit "/" ++ month ++ lit "/" ++ year) = false).
    { rewrite !has_char_app, HT1, HT2, HT3. reflexivity. }
    rewrite E.
    replace (has_char 47%N (day ++ lit "/" ++ month ++ lit "/" ++ year)) with true
      by (symmetry; exact (has_char_sep 47%N day (month ++ lit "/" ++ year))).
    replace (split_on 47%N (day ++ lit "/" ++ month ++ lit "/" ++ year))
      with [day; month; year]; [reflexivity|].
    symmetry.
    etransitivity; [exact (split_on_first 47%N day (month ++ lit "/" ++ year) HS1)|].
    f_equal.
    etransitivity; [exact (split_on_first 47%N month year HS2)|].
    f_equal. exact (split_on_absent 47%N year HS3).
  - intros raw HT Hn. unfold normalize_created_at. rewrite HT.
    destruct (has_char 47%N raw); [|reflexivity].
    destruct (split_on 47%N raw) as [|d [|m [|y [|x l]]]]; try reflexivity.
    now contradiction Hn.
Qed.

Lemma get_rtype_id_cases (title : str) :
  get_rtype_id title
  = if contains (lit "resoluci" ++ [243%N] ++ lit "n") (lower title)
       || contains (lit "resolucion") (lower title)
    then 15%Z else 14%Z.
Proof.
  assert (E : get_rtype_id title
              = if contains (lit "resoluci" ++ [243%N] ++ lit "n") (lower title) then 15%Z
                else if contains (lit "resolucion") (lower title) then 15%Z
                else if contains (lit "decreto") (lower title) then 14%Z else 14%Z)
    by reflexivity.
  rewrite E. destruct (contains _ (lower title)); [reflexivity|].
  destruct (contains (lit "resolucion") (lower title)); [reflexivity|].
  now destruct (contains _ _).
Qed.

Lemma scrape_row_emitted (now : str) (row : table_row) (n : norma) :
  scrape_row now row = Some n ->
  (exists t, title n = Some t /\ (len t <= 65)%Z /\ clean_quotes t = t
             /\ rtype_id n = Some (get_rtype_id t))
  /\ (exists l, external_link n = Some l /\ l <> [] /\ startswith (lit "http") l = true)
  /\ gtype n = Some (lit "link")
  /\ (exists c, created_at n = Some c /\ blank_str c = false)
  /\ (rtype_id n = Some 14%Z \/ rtype_id n = Some 15%Z)
  /\ entity n = ENTITY_VALUE
  /\ classification_id n = 13%Z
  /\ is_active n = true.
Proof.
  intros H. pose proof (scrape_row_created_at now row H) as Hdate.
  assert (Hb : blank_opt (created_at_of_row row) = false).
  { destruct (blank_opt (created_at_of_row row)) eqn:E; [|reflexivity].
    assert (scrape_row now row = None) by (apply scrape_row_None_iff; now right).
    congruence. }
  revert H. unfold scrape_row, extract_title_and_link.
  destruct (title_a row) as [[a|]|]; cbn [negb fst snd]; try discriminate.
  destruct (65 <? len (clean_quotes (a_text a)))%Z eqn:Hlen; cbn [negb]; [discriminate|].
  apply Z.ltb_ge in Hlen.
  set (link := match a_href a with
               | Some href => _
               | None => None
               end).
  assert (Hlink : forall l, link = Some l -> l <> [] -> startswith (lit "http") l = true).
  { subst link. intros l. destruct (a_href a) as [href|]; [|discriminate].
    destruct href as [|h href]; cbn [is_empty negb andb].
    - intros E. injection E as <-. congruence.
    - destruct (startswith (lit "http") (h :: href)) eqn:Es; cbn [negb];
        intros E; injection E as <-; intros _; [exact Es|reflexivity]. }
  destruct link as [l|]; cbn [negb]; [|discriminate].
  destruct (is_empty l) eqn:El; cbn [negb]; [discriminate|].
  unfold extract_creation_date.
  destruct (is_valid_created_at _); cbn [negb]; [|discriminate].
  unfold extract_summary.
  assert (Hne : l <> []) by (intros ->; discriminate).
  destruct (body_text row); cbn [title set_created_at set_summary set_link set_title];
    intros H; injection H as <-;
    cbn [title external_link gtype created_at rtype_id entity classification_id is_active
         update_at set_rtype_id set_created_at set_summary set_link set_title new_norma] in *;
    (split; [eexists; split; [reflexivity|]; split; [exact Hlen|];
             split; [apply clean_quotes_fixed|reflexivity]|]);
    (split; [exists l; split; [reflexivity|]; split; [exact Hne|now apply Hlink]|]);
    (split; [reflexivity|]);
    (split; [destruct (created_at_of_row row) as [c|]; [|discriminate];
             exists c; split; [reflexivity|exact Hb]|]);
    (split; [rewrite get_rtype_id_cases; destruct (_ || _); auto|]);
    repeat split; reflexivity.
Qed.

(** Every record that [scrape_recent_pages] returns comes from a row
    of a page in the range, and has: a title of at most 65 code points
    that cleaning leaves as it is, a link that is not empty and starts
    with ["http"], the link type ["link"], a date that is not blank, the
    regulation type 14 or 15 computed from its title, the fixed entity
    and classification, and the active flag. *)
Theorem scraped_records_are_well_formed (w : web) (start_page end_page : Z) (n : norma) :
  In n (scrape_recent_pages w start_page end_page) ->
  (exists page_num rows row,
     (start_page <= page_num <= end_page)%Z
     /\ fetch w page_num = PageRows rows /\ In row rows
     /\ scrape_row (now w) row = Some n)
  /\ (exists t, title n = Some t /\ (len t <= 65)%Z /\ clean_quotes t = t
             /\ rtype_id n = Some (get_rtype_id t))
  /\ (exists l, external_link n = Some l /\ l <> [] /\ startswith (lit "http") l = true)
  /\ gtype n = Some (lit "link")
  /\ (exists c, created_at n = Some c /\ blank_str c = false)
  /\ (rtype_id n = Some 14%Z \/ rtype_id n = Some 15%Z)
  /\ entity n = ENTITY_VALUE
  /\ classification_id n = 13%Z
  /\ is_active n = true.
Proof.
  unfold scrape_recent_pages. intros H.
  apply in_flat_map in H as (page_num & Hp & H).
  apply range_from_In in Hp.
  unfold scrape_page in H.
  destruct (fetch w page_num) as [rows| |e] eqn:Ef; try contradiction.
  apply in_flat_map in H as (row & Hrow & H).
  destruct (scrape_row (now w) row) as [n'|] eqn:Es; [|contradiction].
  destruct H as [<-|[]].
  split; [|exact (scrape_row_emitted (now w) row Es)].
  exists page_num, rows, row. repeat split; try assumption; lia.
Qed.

End ScrapedRecords.

Section ScrapedRecordsExamples.

Import extraccion samples.

Lemma normalize_created_at_cases_witness :
  has_char 84%N (lit "2024-03-15") = false
  /\ normalize_created_at (lit "2024-03-15" ++ lit "T" ++ lit "00:00:00-05:00")
     = lit "2024-03-15"
  /\ has_char 84%N (lit "5" ++ lit "3" ++ lit "2024") = false
  /\ has_char 47%N (lit "5" ++ lit "3" ++ lit "2024") = false
  /\ normalize_created_at (lit "5" ++ lit "/" ++ lit "3" ++ lit "/" ++ lit "2024")
     = lit "2024" ++ lit "-" ++ zfill 2 (lit "3") ++ lit "-" ++ zfill 2 (lit "5")
  /\ has_char 84%N (lit "03/2024") = false
  /\ List.length (split_on 47%N (lit "03/2024")) <> 3%nat
  /\ normalize_created_at (lit "03/2024") = lit "03/2024".
Proof.
  split; [reflexivity|].
  split; [apply (proj1 normalize_created_at_cases); reflexivity|].
  split; [reflexivity|]. split; [reflexivity|].
  split; [apply (proj1 (proj2 normalize_created_at_cases)); reflexivity|].
  split; [reflexivity|]. split; [discriminate|].
  apply (proj2 (proj2 normalize_created_at_cases)); [reflexivity|discriminate].
Defined.

Lemma scraped_records_are_well_formed_witness :
  In slash_record (scrape_recent_pages sample_web 0 0)
  /\ gtype slash_record = Some (lit "link")
  /\ (rtype_id slash_record = Some 14%Z \/ rtype_id slash_record = Some 15%Z).
Proof.
  assert (H : In slash_record (scrape_recent_pages sample_web 0 0))
    by (left; vm_compute; reflexivity).
  split; [exact H|].
  pose proof (@scraped_records_are_well_formed sample_web 0 0 slash_record H) as W.
  split; [apply W|apply W].
Defined.

End ScrapedRecordsExamples.

(** ** The probe against a stored date *)

Section ProbeHistory.

Import extraccion.

Lemma datetime_gt_irrefl (d : datetime) : datetime_gt d d = false.
Proof.
  unfold datetime_gt. cbv beta iota zeta.
  rewrite !Z.ltb_irrefl, !Z.eqb_refl. reflexivity.
Qed.

Lemma normalize_datetime_gt (a b : datetime) :
  match normalize_datetime (Some a), normalize_datetime (Some b) with
  | Some a', Some b' => datetime_gt a' b' = datetime_gt a b
  | _, _ => False
  end.
Proof. unfold normalize_datetime. destruct (tzinfo a), (tzinfo b); reflexivity. Qed.

Lemma record_is_new_with_history (latest : datetime) (record : norma) :
  record_is_new (normalize_datetime (Some latest)) record = true <->
  exists s d, created_at record = Some s /\ parse_web_date s = Some d
              /\ datetime_gt d latest = true.
Proof.
  unfold record_is_new.
  destruct (created_at record) as [s|]; [|split; [discriminate|intros (s & d & H & _); discriminate]].
  destruct (parse_web_date s) as [d|] eqn:Ed.
  - change (CaStr s) with (as_created_at (Some s)).
    rewrite is_valid_created_at_blank. cbn [blank_opt].
    rewrite (parse_web_date_not_blank _ Ed). cbn [negb].
    pose proof (normalize_datetime_gt d latest) as Hn.
    destruct (normalize_datetime (Some latest)) as [l'|]; [|now destruct (normalize_datetime _)].
    destruct (normalize_datetime (Some d)) as [d'|]; [|contradiction].
    rewrite Hn. split.
    + intros H. exists s, d. auto.
    + intros (s' & d0 & Es & Ed0 & H). injection Es as <-. rewrite Ed in Ed0.
      injection Ed0 as <-. exact H.
  - split.
    + destruct (negb _); discriminate.
    + intros (s' & d0 & Es & Ed0 & _). injection Es as <-. congruence.
Qed.

(** With a date in the store the probe answers [true] exactly when a
    record of an inspected page carries a date that parses and is
    strictly later than the stored one; a record dated as the stored
    date is not new. *)
Theorem probe_with_history (w : web) (accessor : unit -> result (option datetime))
    (latest : datetime) (num_pages_to_check : Z) :
  accessor tt = Ok (Some latest) ->
  (check_for_new_content w accessor num_pages_to_check = true <->
   exists page_num record s d,
     (0 <= page_num < num_pages_to_check)%Z
     /\ In record (scrape_page w page_num)
     /\ created_at record = Some s
     /\ parse_web_date s = Some d
     /\ datetime_gt d latest = true)
  /\ datetime_gt latest latest = false.
Proof.
  intros Hacc. split; [|apply datetime_gt_irrefl].
  unfold check_for_new_content. rewrite Hacc. split.
  - intros H. apply existsb_exists in H as (page_num & Hp & H).
    apply existsb_exists in H as (record & Hin & H).
    apply range_from_In in Hp.
    apply record_is_new_with_history in H as (s & d & Hs & Hd & Hgt).
    exists page_num, record, s, d. repeat split; try assumption; lia.
  - intros (page_num & record & s & d & Hp & Hin & Hs & Hd & Hgt).
    apply existsb_exists. exists page_num. split; [apply range_from_In; lia|].
    apply existsb_exists. exists record. split; [assumption|].
    apply record_is_new_with_history. exists s, d. auto.
Qed.

(** The probe and the number of pages: with no page to inspect it
    answers [false] as soon as the accessor answers, and inspecting
    more pages never turns a [true] into a [false]. *)
Theorem probe_page_count (w : web) (accessor : unit -> result (option datetime))
    (n m : Z) :
  (forall latest, (n <= 0)%Z -> accessor tt = Ok latest ->
     check_for_new_content w accessor n = false)
  /\ ((n <= m)%Z -> check_for_new_content w accessor n = true ->
      check_for_new_content w accessor m = true).
Proof.
  split.
  - intros latest Hn Hacc. unfold check_for_new_content. rewrite Hacc.
    replace (Z.to_nat n) with 0%nat by lia. reflexivity.
  - intros Hnm. unfold check_for_new_content.
    destruct (accessor tt) as [latest|e]; [|reflexivity].
    intros H. apply existsb_exists in H as (page_num & Hp & H).
    apply existsb_exists. exists page_num. split; [|exact H].
    apply range_from_In in Hp. apply range_from_In. lia.
Qed.

End ProbeHistory.

Section ProbeHistoryExamples.

Import extraccion samples.

Lemma probe_with_history_witness :
  check_for_new_content sample_web
    (fun _ => Ok (Some (mk_datetime 2024 3 14 0 0 0 0 None))) 1 = true.
Proof.
  apply (proj1 (@probe_with_history sample_web
                  (fun _ => Ok (Some (mk_datetime 2024 3 14 0 0 0 0 None)))
                  (mk_datetime 2024 3 14 0 0 0 0 None) 1 eq_refl)).
  exists 0%Z, slash_record, (lit "2024-03-15"), march_15.
  split; [lia|]. split; [left; vm_compute; reflexivity|].
  split; [vm_compute; reflexivity|]. split; vm_compute; reflexivity.
Defined.

Lemma probe_page_count_witness :
  check_for_new_content sample_web (fun _ => Ok None) 1 = true
  /\ check_for_new_content sample_web (fun _ => Ok None) 3 = true
  /\ check_for_new_content sample_web (fun _ => Ok None) 0 = false.
Proof.
  assert (H1 : check_for_new_content sample_web (fun _ => Ok None) 1 = true)
    by (vm_compute; reflexivity).
  split; [exact H1|]. split.
  - apply (proj2 (@probe_page_count sample_web (fun _ => Ok None) 1 3)); [lia|exact H1].
  - apply (proj1 (@probe_page_count sample_web (fun _ => Ok None) 0 0) None); [lia|reflexivity].
Defined.

End ProbeHistoryExamples.

(** ** What the validator does to a frame *)

Section ValidatorFrames.

Import validaciones validacion.

Context {rt : PyRuntime}.

Lemma set_column_length (c : str) (series : Series) (df : DataFrame) :
  List.length series = List.length (rows df) ->
  List.length (rows (set_column c series df)) = List.length (rows df).
Proof.
  intros H. unfold set_column. cbn [rows]. rewrite length_map, length_combine. lia.
Qed.

Lemma set_column_other (c c' : str) (series : Series) (df : DataFrame) :
  eqb c c' = false ->
  List.length series = List.length (rows df) ->
  List.map (row_get c') (rows (set_column c series df)) = List.map (row_get c') (rows df).
Proof.
  intros Hne. unfold set_column. cbn [rows]. generalize (rows df) as l.
  induction series as [|v s IH]; intros [|r l] H; try discriminate; [reflexivity|].
  cbn [combine List.map fst snd]. rewrite (@row_get_set_other c c' _ _ Hne). f_equal.
  apply IH. now injection H.
Qed.

Lemma set_column_same (c : str) (series : Series) (df : DataFrame) :
  List.length series = List.length (rows df) ->
  List.map (row_get c) (rows (set_column c series df)) = series.
Proof.
  unfold set_column. cbn [rows]. generalize (rows df) as l.
  induction series as [|v s IH]; intros [|r l] H; try discriminate; [reflexivity|].
  cbn [combine List.map fst snd]. rewrite row_get_set_same. f_equal.
  apply IH. now injection H.
Qed.

Lemma set_column_columns (c : str) (series : Series) (df : DataFrame) :
  columns (set_column c series df)
  = if has_column c df then columns df else columns df ++ [c].
Proof. reflexivity. Qed.

(** The cells of a coerced column: each is [NA] or the conversion of
    the cell it comes from. *)
Lemma type_step_cells (config : field_config) (series : Series) :
  List.length (fst (type_step config series)) = List.length series
  /\ List.length (snd (type_step config series)) = List.length series
  /\ Forall2 (fun v v' =>
                v' = VNA
                \/ match cfg_type config with
                   | Some ty => if is_empty ty then v' = v
                                else coerce_value ty v = Some v'
                   | None => v' = v
                   end)
             series (fst (type_step config series)).
Proof.
  unfold type_step.
  assert (Hid : forall P : value -> value -> Prop, (forall v, P v v) -> Forall2 P series series).
  { intros P HP. induction series; constructor; auto. }
  destruct (cfg_type config) as [ty|].
  - destruct (is_empty ty) eqn:Ety.
    + cbn [fst snd]. rewrite length_map. repeat split. apply Hid. auto.
    + unfold _coerce_type. cbn [fst snd]. rewrite !length_map.
      split; [reflexivity|]. split; [reflexivity|].
      clear Hid. induction series as [|v s IH]; cbn [List.map]; constructor; [|exact IH].
      destruct (coerce_value ty v); auto.
  - cbn [fst snd]. rewrite length_map. repeat split. apply Hid. auto.
Qed.

Lemma where_na_cells (s : Series) (mask : list bool) :
  List.length mask = List.length s ->
  List.length (where_na s mask) = List.length s
  /\ Forall2 (fun v v' => v' = VNA \/ v' = v) s (where_na s mask).
Proof.
  unfold where_na. revert mask. induction s as [|v s IH]; intros [|b mask] H; try discriminate.
  - split; [reflexivity|constructor].
  - cbn [combine List.map fst snd List.length]. injection H as H.
    destruct (IH mask H) as [IH1 IH2]. split; [now rewrite IH1|].
    constructor; [destruct b; auto|exact IH2].
Qed.

Lemma mask_and_length (a b : list bool) :
  List.length b = List.length a -> List.length (mask_and a b) = List.length a.
Proof. intros H. unfold mask_and. rewrite length_map, length_combine. lia. Qed.

Lemma narrow_cells (cm : Series * list bool) (m : option (list bool)) :
  List.length (snd cm) = List.length (fst cm) ->
  (forall mask, m = Some mask -> List.length mask = List.length (fst cm)) ->
  List.length (fst (narrow cm m)) = List.length (fst cm)
  /\ List.length (snd (narrow cm m)) = List.length (fst cm)
  /\ Forall2 (fun v v' => v' = VNA \/ v' = v) (fst cm) (fst (narrow cm m)).
Proof.
  intros Hs Hm. unfold narrow. destruct m as [mask|].
  - cbn [fst snd]. specialize (Hm mask eq_refl).
    destruct (where_na_cells (fst cm) mask Hm) as [H1 H2].
    split; [exact H1|]. split; [|exact H2].
    rewrite mask_and_length; lia.
  - split; [reflexivity|]. split; [exact Hs|].
    clear. generalize (fst cm) as l. induction l; constructor; [now right|assumption].
Qed.

Lemma regex_step_length (config : field_config) (coerced : Series) (mask : list bool) :
  regex_step config coerced = Ok (Some mask) -> List.length mask = List.length coerced.
Proof.
  unfold regex_step. destruct (cfg_regex config) as [p|]; [|discriminate].
  destruct (is_empty p); [discriminate|].
  destruct (re_compile p); [|discriminate].
  intros H. injection H as <-. unfold astype_str, fillna_empty. now rewrite !length_map.
Qed.

Lemma length_step_length (config : field_config) (coerced : Series) (mask : list bool) :
  length_step config coerced = Some mask -> List.length mask = List.length coerced.
Proof.
  unfold length_step. destruct (cfg_max_length config); [|discriminate].
  intros H. injection H as <-. unfold astype_str, fillna_empty. now rewrite !length_map.
Qed.

Lemma Forall2_trans_cells (P : value -> value -> Prop) (a b c : list value) :
  Forall2 (fun v v' => v' = VNA \/ P v v') a b ->
  Forall2 (fun v v' => v' = VNA \/ v' = v) b c ->
  Forall2 (fun v v' => v' = VNA \/ P v v') a c.
Proof.
  intros H. revert c. induction H as [|x y a b Hxy Hab IH]; intros c Hc;
    inversion Hc as [|? z ? c' Hyz Hbc]; subst; constructor; [|now apply IH].
  destruct Hyz as [-> | ->]; auto.
Qed.

Lemma count_false_bounds (mask : list bool) :
  (0 <= count_false mask <= Z.of_nat (List.length mask))%Z.
Proof.
  unfold count_false. pose proof (filter_length_le negb mask). lia.
Qed.

Lemma dict_set_In (k f : str) (n v : Z) (d : list (str * Z)) :
  In (k, n) (dict_set f v d) -> In (k, n) d \/ (k = f /\ n = v).
Proof.
  induction d as [|[k' n'] d IH]; cbn [dict_set].
  - intros [H|[]]. injection H as <- <-. now right.
  - destruct (eqb k' f) eqn:E.
    + intros [H|H]; [|left; now right].
      injection H as <- <-. apply eqb_eq in E. now right.
    + intros [H|H]; [left; now left|].
      destruct (IH H) as [H'|H']; [left; now right|now right].
Qed.

(** One turn of the loop over the rules. *)
Lemma field_step_facts (df : DataFrame) (ic : list (str * Z)) (req : list str)
    (field : str) (config : field_config) (df' : DataFrame) (ic' : list (str * Z))
    (req' : list str) :
  field_step (df, ic, req) field config = Ok (df', ic', req') ->
  List.length (rows df') = List.length (rows df)
  /\ columns df' = (if has_column field df then columns df else columns df ++ [field])
  /\ (forall c, eqb field c = false ->
        List.map (row_get c) (rows df') = List.map (row_get c) (rows df))
  /\ (forall k n, In (k, n) ic' ->
        In (k, n) ic
        \/ (k = field
            /\ (n = df_len df \/ (1 <= n <= df_len df)%Z)))
  /\ (if has_column field df
      then Forall2 (fun v v' =>
                      v' = VNA
                      \/ match cfg_type config with
                         | Some ty => if is_empty ty then v' = v
                                      else coerce_value ty v = Some v'
                         | None => v' = v
                         end)
                   (column field df) (column field df')
      else Forall (fun v' => v' = VNA) (column field df')).
Proof.
  unfold field_step. destruct (has_column field df) eqn:Hcol; cbn [negb].
  - set (series := column field df).
    assert (Hlen : List.length series = List.length (rows df))
      by (subst series; unfold column; now rewrite length_map).
    destruct (type_step_cells config series) as (T1 & T2 & T3).
    set (cm0 := type_step config series) in *.
    destruct (regex_step config (fst cm0)) as [mask_regex|e] eqn:Er; [|discriminate].
    destruct (@narrow_cells cm0 mask_regex) as (N1 & N2 & N3).
    { now rewrite T1, T2. }
    { intros mask ->. now apply regex_step_length in Er. }
    set (cm1 := narrow cm0 mask_regex) in *.
    destruct (@narrow_cells cm1 (length_step config (fst cm1))) as (M1 & M2 & M3).
    { now rewrite N1, N2. }
    { intros mask Hm. now apply length_step_length in Hm. }
    set (cm2 := narrow cm1 (length_step config (fst cm1))) in *.
    assert (Hlen2 : List.length (fst cm2) = List.length (rows df)) by lia.
    intros H. injection H as <- <- <-.
    split; [now apply set_column_length|].
    split; [now rewrite set_column_columns, Hcol|].
    split; [intros c Hc; now apply set_column_other|].
    split.
    + intros k n Hin. destruct (count_false (snd cm2) =? 0)%Z eqn:Ez; [now left|].
      apply dict_set_In in Hin as [Hin|[-> ->]]; [now left|right].
      split; [reflexivity|right]. apply Z.eqb_neq in Ez.
      pose proof (count_false_bounds (snd cm2)). unfold df_len. lia.
    + unfold column. rewrite (set_column_same _ _ _ Hlen2).
      apply (Forall2_trans_cells _ (b := fst cm1)); [|exact M3].
      apply (Forall2_trans_cells _ (b := fst cm0)); [exact T3|exact N3].
  - intros H. injection H as <- <- <-.
    assert (Hlen : List.length (List.map (fun _ : row => VNA) (rows df))
                   = List.length (rows df)) by now rewrite length_map.
    split; [now apply set_column_length|].
    split; [now rewrite set_column_columns, Hcol|].
    split; [intros c Hc; now apply set_column_other|].
    split.
    + intros k n Hin. apply dict_set_In in Hin as [Hin|[-> ->]]; [now left|right].
      split; [reflexivity|now left].
    + unfold column. rewrite (set_column_same _ _ _ Hlen).
      apply Forall_forall. intros v Hv. apply in_map_iff in Hv as (r & <- & _). reflexivity.
Qed.

Lemma has_column_In (c : str) (df : DataFrame) : has_column c df = true <-> In c (columns df).
Proof.
  unfold has_column. rewrite existsb_exists. split.
  - intros (x & Hx & E). apply eqb_eq in E. now subst.
  - intros H. exists c. split; [assumption|apply eqb_refl].
Qed.

(** The loop over the rules: it keeps the number of rows, adds the
    missing fields to the columns, leaves the columns it has no rule
    for as they are, and counts cells of its fields only. *)
Lemma fields_loop_facts (rules_fields : rules) (df : DataFrame) (ic : list (str * Z))
    (req : list str) (df' : DataFrame) (ic' : list (str * Z)) (req' : list str) :
  fields_loop (df, ic, req) rules_fields = Ok (df', ic', req') ->
  List.length (rows df') = List.length (rows df)
  /\ (forall c, In c (columns df') <-> In c (columns df) \/ In c (List.map fst rules_fields))
  /\ (forall c, ~ In c (List.map fst rules_fields) ->
        List.map (row_get c) (rows df') = List.map (row_get c) (rows df))
  /\ (forall k n, In (k, n) ic' ->
        In (k, n) ic
        \/ (In k (List.map fst rules_fields)
            /\ (n = df_len df \/ (1 <= n <= df_len df)%Z))).
Proof.
  revert df ic req. induction rules_fields as [|[field config] rest IH]; intros df ic req.
  - cbn [fields_loop]. intros H. injection H as <- <- <-.
    split; [reflexivity|]. split; [intros c; cbn; tauto|]. split; [reflexivity|auto].
  - cbn [fields_loop].
    destruct (field_step (df, ic, req) field config) as [[[df1 ic1] req1]|e] eqn:E1;
      [|discriminate].
    intros H. destruct (IH _ _ _ H) as (L2 & C2 & O2 & I2).
    destruct (field_step_facts _ _ _ _ _ E1) as (L1 & C1 & O1 & I1 & _).
    assert (Hlen : df_len df1 = df_len df) by (unfold df_len; now rewrite L1).
    split; [congruence|]. split; [|split].
    + intros c. rewrite C2, C1. cbn [List.map fst In].
      destruct (has_column field df) eqn:Hc.
      * apply has_column_In in Hc. split; [tauto|].
        intros [H'|[<-|H']]; tauto.
      * rewrite in_app_iff. cbn [In]. tauto.
    + intros c Hc. cbn [List.map fst In] in Hc.
      rewrite O2 by tauto. apply O1. apply eqb_neq. intros ->. tauto.
    + intros k n Hin. cbn [List.map fst In].
      destruct (I2 k n Hin) as [Hin1|[Hk Hn]].
      * destruct (I1 k n Hin1) as [Hin0|[-> Hn]]; [now left|right; tauto].
      * right. rewrite Hlen in Hn. tauto.
Qed.

Lemma required_rows (req : list str) (df : DataFrame) :
  rows (match req with [] => df | _ :: _ => dropna req df end)
  = filter (fun r => forallb (fun f => negb (is_null (row_get f r))) req) (rows df)
  /\ columns (match req with [] => df | _ :: _ => dropna req df end) = columns df.
Proof.
  destruct req as [|f req]; [|split; reflexivity].
  split; [|reflexivity]. cbn [forallb]. symmetry. apply filter_id. reflexivity.
Qed.

(** The counts the validator reports add up: every received row is
    either discarded or valid, no count is negative, and on a frame
    that is not [empty] the received rows are the rows of the frame and
    the valid rows the rows returned. *)
Theorem validation_row_accounting (df : DataFrame) (rules_fields : rules)
    (out : DataFrame) (st : stats) :
  apply_validation df rules_fields = Ok (out, st) ->
  rows_received st = (rows_discarded st + rows_valid st)%Z
  /\ (0 <= rows_discarded st)%Z
  /\ (0 <= rows_valid st)%Z
  /\ (empty df = false -> rows_received st = df_len df /\ rows_valid st = df_len out)
  /\ (empty df = true -> out = df /\ rows_received st = 0%Z).
Proof.
  unfold apply_validation. destruct (empty df) eqn:He.
  { intros H. injection H as <- <-. cbn. repeat split; try lia; discriminate. }
  destruct (fields_loop (df, [], []) rules_fields) as [[[df_clean ic] req]|e] eqn:E;
    [|discriminate].
  destruct (fields_loop_facts _ _ _ _ E) as (L & _).
  destruct (required_rows req df_clean) as [R _].
  intros H. injection H as <- <-. cbn [rows_received rows_discarded rows_valid].
  unfold df_len in *. rewrite R.
  pose proof (filter_length_le (fun r => forallb (fun f => negb (is_null (row_get f r))) req)
                (rows df_clean)).
  repeat split; try lia; try discriminate.
Qed.

(** Every entry of [invalid_cells] is for a field of the ruleset and
    counts at least one cell and at most as many as rows were received. *)
Theorem invalid_cells_are_bounded (df : DataFrame) (rules_fields : rules)
    (out : DataFrame) (st : stats) (field : str) (n : Z) :
  apply_validation df rules_fields = Ok (out, st) ->
  In (field, n) (invalid_cells st) ->
  In field (List.map fst rules_fields) /\ (1 <= n <= rows_received st)%Z.
Proof.
  unfold apply_validation. destruct (empty df) eqn:He.
  { intros H. injection H as <- <-. intros []. }
  destruct (fields_loop (df, [], []) rules_fields) as [[[df_clean ic] req]|e] eqn:E;
    [|discriminate].
  destruct (fields_loop_facts _ _ _ _ E) as (_ & _ & _ & I).
  intros H. injection H as <- <-. cbn [invalid_cells rows_received]. intros Hin.
  destruct (I field n Hin) as [[]|[Hf Hn]]. split; [exact Hf|].
  assert (1 <= df_len df)%Z; [|lia].
  unfold empty in He. unfold df_len. destruct (rows df); [discriminate|]. cbn. lia.
Qed.

Lemma select_column_filter (c : str) (P : row -> bool) (l l' : list row) :
  List.map (row_get c) l' = List.map (row_get c) l ->
  List.map (row_get c) (filter P l')
  = List.map (row_get c) (List.map fst (filter snd (combine l (List.map P l')))).
Proof.
  revert l. induction l' as [|r' l' IH]; intros [|r l] H; try discriminate; [reflexivity|].
  cbn [List.map] in H. injection H as Hr Hl.
  cbn [filter List.map combine snd]. destruct (P r'); cbn [List.map fst]; rewrite ?Hr;
    [f_equal|]; now apply IH.
Qed.

(** On a frame that is not [empty] the validator keeps every column,
    adds a column for every field of the ruleset the frame lacks and no
    other, and leaves the columns no rule names as they are: it only
    drops whole rows, by one mask for all those columns. *)
Theorem validation_keeps_other_columns (df : DataFrame) (rules_fields : rules)
    (out : DataFrame) (st : stats) :
  apply_validation df rules_fields = Ok (out, st) ->
  empty df = false ->
  (forall c, In c (columns out) <-> In c (columns df) \/ In c (List.map fst rules_fields))
  /\ exists keep : list bool,
       List.length keep = List.length (rows df)
       /\ forall c, ~ In c (List.map fst rules_fields) ->
            column c out = column c (select keep df).
Proof.
  unfold apply_validation. intros H He. rewrite He in H.
  destruct (fields_loop (df, [], []) rules_fields) as [[[df_clean ic] req]|e] eqn:E;
    [|discriminate].
  destruct (fields_loop_facts _ _ _ _ E) as (L & C & O & _).
  destruct (required_rows req df_clean) as [R Rc].
  injection H as <- _. split.
  - intros c. rewrite Rc. apply C.
  - exists (List.map (fun r => forallb (fun f => negb (is_null (row_get f r))) req)
                     (rows df_clean)).
    split; [now rewrite length_map|].
    intros c Hc. unfold column, select. cbn [rows]. rewrite R.
    apply select_column_filter. now apply O.
Qed.

Lemma coerce_value_null (ty : str) (v : value) : is_null v = true -> coerce_value ty v = None.
Proof. intros H. unfold coerce_value. now rewrite H. Qed.

Lemma Forall2_In_r (A B : Type) (R : A -> B -> Prop) (l : list A) (l' : list B) (y : B) :
  Forall2 R l l' -> In y l' -> exists x, In x l /\ R x y.
Proof.
  induction 1 as [|a b l l' Hab _ IH]; [intros []|].
  intros [<-|Hy]; [exists a; split; [now left|assumption]|].
  destruct (IH Hy) as (x & Hx & Hr). exists x. split; [now right|assumption].
Qed.

(** A column that is all null, or is yet to be created, stays so. *)
Lemma field_step_null (f : str) (df : DataFrame) (ic : list (str * Z)) (req : list str)
    (field : str) (config : field_config) (df' : DataFrame) (ic' : list (str * Z))
    (req' : list str) :
  field_step (df, ic, req) field config = Ok (df', ic', req') ->
  has_column f df = false \/ (forall v, In v (column f df) -> is_null v = true) ->
  (has_column f df' = false \/ (forall v, In v (column f df') -> is_null v = true))
  /\ (field = f -> forall v, In v (column f df') -> is_null v = true).
Proof.
  intros E Q. destruct (field_step_facts _ _ _ _ _ E) as (_ & C & O & _ & Cells).
  assert (Hsame : field = f -> forall v, In v (column f df') -> is_null v = true).
  { intros <- v' Hv'. destruct (has_column field df) eqn:Hc.
    - destruct Q as [Q|Q]; [congruence|].
      destruct (Forall2_In_r v' Cells Hv') as (v & Hv & [->|Hr]); [reflexivity|].
      specialize (Q v Hv).
      destruct (cfg_type config) as [ty|]; [destruct (is_empty ty)|]; try congruence.
      rewrite (coerce_value_null ty v Q) in Hr. discriminate.
    - rewrite Forall_forall in Cells. now rewrite (Cells v' Hv'). }
  split; [|exact Hsame].
  destruct (eqb field f) eqn:Ef.
  - apply eqb_eq in Ef. right. now apply Hsame.
  - destruct Q as [Q|Q].
    + left. destruct (has_column f df') eqn:Hc'; [|reflexivity].
      apply has_column_In in Hc'. rewrite C in Hc'.
      assert (In f (columns df)).
      { destruct (has_column field df); [assumption|].
        apply in_app_or in Hc' as [H|[H|[]]]; [assumption|].
        subst. now rewrite eqb_refl in Ef. }
      apply has_column_In in H. congruence.
    + right. unfold column in *. now rewrite (O f Ef).
Qed.

Lemma fields_loop_null (f : str) (rules_fields : rules) (df : DataFrame)
    (ic : list (str * Z)) (req : list str) (df' : DataFrame) (ic' : list (str * Z))
    (req' : list str) :
  fields_loop (df, ic, req) rules_fields = Ok (df', ic', req') ->
  has_column f df = false \/ (forall v, In v (column f df) -> is_null v = true) ->
  (has_column f df' = false \/ (forall v, In v (column f df') -> is_null v = true))
  /\ (In f (List.map fst rules_fields) -> forall v, In v (column f df') -> is_null v = true).
Proof.
  revert df ic req. induction rules_fields as [|[field config] rest IH]; intros df ic req.
  - cbn [fields_loop]. intros H. injection H as <- <- <-. intros Q. split; [exact Q|intros []].
  - cbn [fields_loop].
    destruct (field_step (df, ic, req) field config) as [[[df1 ic1] req1]|e] eqn:E1;
      [|discriminate].
    intros H Q. destruct (field_step_null f _ _ _ _ _ E1 Q) as [Q1 S1].
    destruct (IH _ _ _ H Q1) as [Q2 S2]. split; [exact Q2|].
    cbn [List.map fst In]. intros [->|Hin]; [|now apply S2].
    destruct (IH _ _ _ H (or_intror (S1 eq_refl))) as [[Q3|Q3] _]; [|exact Q3].
    exfalso. destruct (fields_loop_facts _ _ _ _ H) as (_ & C2 & _).
    destruct (field_step_facts _ _ _ _ _ E1) as (_ & C1 & _).
    assert (In f (columns df')).
    { apply C2. left. rewrite C1. destruct (has_column f df) eqn:Hc.
      - now apply has_column_In.
      - apply in_or_app. right. now left. }
    apply has_column_In in H0. congruence.
Qed.

(** When the frame lacks a field that the ruleset marks required,
    every row is discarded. *)
Theorem missing_required_column_discards_all (df : DataFrame) (rules_fields : rules)
    (out : DataFrame) (st : stats) (field : str) (config : field_config) :
  apply_validation df rules_fields = Ok (out, st) ->
  empty df = false ->
  In (field, config) rules_fields ->
  cfg_required config = true ->
  has_column field df = false ->
  rows out = [] /\ rows_valid st = 0%Z /\ rows_discarded st = df_len df.
Proof.
  unfold apply_validation. intros H He Hin Hreq Hcol. rewrite He in H.
  destruct (fields_loop (df, [], []) rules_fields) as [[[df_clean ic] req]|e] eqn:E;
    [|discriminate].
  pose proof (fields_loop_required _ _ E) as Hr. cbn [snd app] in Hr. subst req.
  destruct (fields_loop_facts _ _ _ _ E) as (L & _).
  destruct (fields_loop_null field _ _ _ _ E (or_introl Hcol)) as [_ Hnull].
  assert (Hf : In field (List.map fst rules_fields)).
  { apply in_map_iff. exists (field, config). auto. }
  specialize (Hnull Hf).
  destruct (required_rows (required_fields_of rules_fields) df_clean) as [R _].
  assert (Hrows : rows (match required_fields_of rules_fields with
                        | [] => df_clean
                        | _ :: _ => dropna (required_fields_of rules_fields) df_clean
                        end) = []).
  { rewrite R. assert (Hall : forall r, In r (rows df_clean) ->
                (fun r => forallb (fun f => negb (is_null (row_get f r)))
                                  (required_fields_of rules_fields)) r = false).
    { intros r Hr. apply not_true_is_false. intros Hall.
      rewrite forallb_forall in Hall.
      specialize (Hall field (required_fields_of_In _ _ _ Hin Hreq)).
      rewrite (Hnull (row_get field r)) in Hall; [discriminate|].
      unfold column. now apply in_map. }
    revert Hall. generalize (rows df_clean) as l. induction l as [|r l IH]; [reflexivity|].
    intros Hall. cbn [filter]. rewrite (Hall r (or_introl eq_refl)).
    apply IH. intros r' Hr'. apply Hall. now right. }
  injection H as <- <-. cbn [rows_valid rows_discarded]. unfold df_len in *.
  rewrite Hrows. cbn [List.length]. repeat split; lia.
Qed.



End ValidatorFrames.

(** ** The conversions of the validator *)

Section Coercion.

Import validaciones validacion.

Context {rt : PyRuntime}.

Lemma rstrip_rstrip (s : str) : rstrip (rstrip s) = rstrip s.
Proof.
  induction s as [|c s IH]; [reflexivity|].
  cbn [rstrip]. destruct (rstrip s) as [|x r] eqn:E.
  - destruct (isspace c) eqn:Ec; [reflexivity|]. cbn [rstrip]. now rewrite Ec.
  - cbn [rstrip]. cbn [rstrip] in IH. rewrite IH. reflexivity.
Qed.

Lemma lstrip_head (s : str) :
  match lstrip s with
  | [] => True
  | c :: _ => isspace c = false
  end.
Proof.
  induction s as [|c s IH]; [exact I|].
  cbn [lstrip]. destruct (isspace c) eqn:E; [exact IH|exact E].
Qed.

Lemma strip_strip (s : str) : strip (strip s) = strip s.
Proof.
  unfold strip. pose proof (lstrip_head s) as Hh.
  destruct (lstrip s) as [|c t]; [reflexivity|].
  assert (E : exists r, rstrip (c :: t) = c :: r).
  { cbn [rstrip]. destruct (rstrip t); [rewrite Hh|]; eauto. }
  destruct E as [r E]. rewrite E. cbn [lstrip]. rewrite Hh.
  rewrite <- E. apply rstrip_rstrip.
Qed.

Lemma lit_String (c : ascii) (s : string) : lit (String c s) = N_of_ascii c :: lit s.
Proof. reflexivity. Qed.

(** [int] reads the digits that [str] writes. *)
Lemma int_digits_acc (d : Decimal.uint) (p : positive) :
  int_digits (Z.pos p) true (lit (NilEmpty.string_of_uint d))
  = Some (Z.pos (Pos.of_uint_acc d p)).
Proof.
  revert p. induction d; intros p; cbn [NilEmpty.string_of_uint Pos.of_uint_acc];
    [reflexivity|..]; rewrite lit_String; cbn [int_digits];
    match goal with
    | |- context [isdigit ?c] => change (isdigit c) with true
    end; cbv iota; rewrite <- IHd; f_equal;
    match goal with
    | |- context [Z.of_N ?x] =>
        let y := eval vm_compute in (Z.of_N x) in change (Z.of_N x) with y
    end; lia.
Qed.

Lemma int_digits_zero (d : Decimal.uint) :
  int_digits 0 true (lit (NilEmpty.string_of_uint d)) = Some (Z.of_N (Pos.of_uint d)).
Proof.
  induction d; cbn [NilEmpty.string_of_uint Pos.of_uint]; [reflexivity|..];
    rewrite lit_String; cbn [int_digits];
    match goal with
    | |- context [isdigit ?c] => change (isdigit c) with true
    end; cbv iota; [exact IHd|..]; cbn [Z.of_N]; rewrite <- int_digits_acc; reflexivity.
Qed.

Lemma uint_digits (d : Decimal.uint) :
  forallb isdigit (lit (NilEmpty.string_of_uint d)) = true.
Proof.
  induction d; cbn [NilEmpty.string_of_uint]; [reflexivity|..];
    rewrite lit_String; cbn [forallb]; rewrite IHd; reflexivity.
Qed.

Lemma int_digits_start (d : Decimal.uint) :
  d <> Decimal.Nil ->
  int_digits 0 false (lit (NilEmpty.string_of_uint d)) = Some (Z.of_N (Pos.of_uint d)).
Proof.
  intros Hne. rewrite <- int_digits_zero.
  pose proof (uint_digits d) as Hd.
  destruct d; [congruence|..]; cbn [NilEmpty.string_of_uint] in *;
    rewrite lit_String in *; cbn [forallb] in Hd; apply andb_true_iff in Hd as [Hc _];
    cbn [int_digits]; rewrite Hc; reflexivity.
Qed.

Lemma to_uint_not_Nil (p : positive) : Pos.to_uint p <> Decimal.Nil.
Proof.
  intros E. pose proof (DecimalPos.Unsigned.of_to p) as H. rewrite E in H. discriminate.
Qed.

Lemma of_Z_pos (p : positive) :
  of_Z (Z.pos p) = lit (NilEmpty.string_of_uint (Pos.to_uint p))
  /\ of_Z (Z.neg p) = 45%N :: lit (NilEmpty.string_of_uint (Pos.to_uint p)).
Proof.
  unfold of_Z. cbn [Z.to_int NilZero.string_of_int]. unfold NilZero.string_of_uint.
  pose proof (to_uint_not_Nil p). destruct (Pos.to_uint p); [congruence|..];
    split; reflexivity.
Qed.

(** [int(str(z))] is [z]. *)
Lemma int_of_text_of_Z (z : Z) : int_of_text (of_Z z) = Some z.
Proof.
  destruct z as [|p|p]; [reflexivity| |].
  - rewrite (proj1 (of_Z_pos p)).
    pose proof (int_digits_start (to_uint_not_Nil p)) as H.
    rewrite DecimalPos.Unsigned.of_to in H. cbn [Z.of_N] in H.
    pose proof (uint_digits (Pos.to_uint p)) as Hd.
    destruct (lit (NilEmpty.string_of_uint (Pos.to_uint p))) as [|c s]; [discriminate|].
    cbn [forallb] in Hd. apply andb_true_iff in Hd as [Hc _].
    unfold int_of_text. unfold isdigit in Hc. apply andb_true_iff in Hc as [Hc1 Hc2].
    apply N.leb_le in Hc1.
    replace (c =? 45)%N with false by (symmetry; apply N.eqb_neq; lia).
    replace (c =? 43)%N with false by (symmetry; apply N.eqb_neq; lia).
    exact H.
  - rewrite (proj2 (of_Z_pos p)). unfold int_of_text. cbn [N.eqb Pos.eqb].
    rewrite (int_digits_start (to_uint_not_Nil p)), DecimalPos.Unsigned.of_to. reflexivity.
Qed.

Lemma of_Z_no_space (z : Z) : no_space (of_Z z) = true.
Proof.
  assert (H : forall d, no_space (lit (NilEmpty.string_of_uint d)) = true).
  { intros d. pose proof (uint_digits d) as Hd. unfold no_space.
    rewrite forallb_forall in *. intros c Hc. now rewrite (isdigit_not_space _ (Hd c Hc)). }
  destruct z as [|p|p]; [reflexivity| |].
  - rewrite (proj1 (of_Z_pos p)). apply H.
  - rewrite (proj2 (of_Z_pos p)). cbn [no_space forallb]. fold (no_space (lit (NilEmpty.string_of_uint (Pos.to_uint p)))).
    now rewrite H.
Qed.

Lemma coerce_integer_int (z : Z) : coerce_value (lit "integer") (VInt z) = Some (VInt z).
Proof.
  unfold coerce_value. cbn [is_null py_str].
  change (eqb (lit "integer") (lit "string")) with false.
  change (eqb (lit "integer") (lit "integer")) with true. cbv iota.
  rewrite (strip_no_space _ (of_Z_no_space z)), int_of_text_of_Z.
  destruct (of_Z z) eqn:E; [|reflexivity].
  pose proof (int_of_text_of_Z z) as H. rewrite E in H. discriminate.
Qed.

(** What a conversion that succeeds returns: a value of the type
    asked for, from a value that was not null; the value itself when
    the type is not one of the five. *)
Theorem coerce_value_typed (expected_type : str) (v c : value) :
  coerce_value expected_type v = Some c ->
  is_null v = false
  /\ (expected_type = lit "string" -> exists t, c = VStr t /\ t <> [] /\ strip t = t)
  /\ (expected_type = lit "integer" -> exists z, c = VInt z)
  /\ (expected_type = lit "float" -> exists repr, c = VFloat repr)
  /\ (expected_type = lit "boolean" -> exists b, c = VBool b)
  /\ (expected_type = lit "date" -> exists dt, c = VStr (strftime_date dt))
  /\ (~ In expected_type [lit "string"; lit "integer"; lit "float"; lit "boolean"; lit "date"]
      -> c = v).
Proof.
  unfold coerce_value. destruct (is_null v); [discriminate|].
  intros H. split; [reflexivity|].
  destruct (eqb expected_type (lit "string")) eqn:E1.
  { apply eqb_eq in E1. subst expected_type.
    destruct (strip (py_str v)) as [|x t] eqn:Es; [discriminate|]. cbn [is_empty] in H.
    injection H as <-.
    repeat split; try discriminate.
    - intros _. exists (x :: t). repeat split; [discriminate|].
      rewrite <- Es. apply strip_strip.
    - intros Hn. exfalso. apply Hn. now left. }
  destruct (eqb expected_type (lit "integer")) eqn:E2.
  { apply eqb_eq in E2. subst expected_type.
    destruct (is_empty _); [discriminate|].
    destruct (int_of_text _) as [z|]; [|discriminate]. injection H as <-.
    repeat split; try discriminate.
    - intros _. now exists z.
    - intros Hn. exfalso. apply Hn. right. now left. }
  destruct (eqb expected_type (lit "float")) eqn:E3.
  { apply eqb_eq in E3. subst expected_type.
    destruct (is_empty _); [discriminate|].
    destruct (float_of_text _) as [r|]; [|discriminate]. injection H as <-.
    repeat split; try discriminate.
    - intros _. now exists r.
    - intros Hn. exfalso. apply Hn. right. right. now left. }
  destruct (eqb expected_type (lit "boolean")) eqn:E4.
  { apply eqb_eq in E4. subst expected_type.
    assert (Hb : exists b, c = VBool b).
    { destruct v; try (destruct (existsb _ truthy_texts);
                       [|destruct (existsb _ falsy_texts)]; [| |discriminate]);
        injection H as <-; eauto. }
    repeat split; try discriminate.
    - intros _. exact Hb.
    - intros Hn. exfalso. apply Hn. do 3 right. now left. }
  destruct (eqb expected_type (lit "date")) eqn:E5.
  { apply eqb_eq in E5. subst expected_type.
    assert (Hd : exists dt, c = VStr (strftime_date dt)).
    { destruct (match v with VDatetime dt => Some dt | _ => date_of_text (py_str v) end)
        as [dt|]; [|discriminate].
      injection H as <-. now exists dt. }
    repeat split; try discriminate.
    - intros _. exact Hd.
    - intros Hn. exfalso. apply Hn. do 4 right. now left. }
  apply eqb_neq in E1, E2, E3, E4, E5. injection H as <-.
  repeat split; try congruence.
Qed.

(** Converting a converted value again gives it back: a trimmed
    string stays as it is, an integer prints and reads back as itself,
    a boolean is kept (types other than float and date). *)
Theorem coercion_is_idempotent (expected_type : str) (v c : value) :
  coerce_value expected_type v = Some c ->
  expected_type <> lit "float" ->
  expected_type <> lit "date" ->
  coerce_value expected_type c = Some c.
Proof.
  intros H Hf Hd. pose proof H as H0. revert H.
  unfold coerce_value at 1. destruct (is_null v) eqn:Hnull; [discriminate|].
  destruct (eqb expected_type (lit "string")) eqn:E1.
  { apply eqb_eq in E1. subst expected_type.
    destruct (strip (py_str v)) as [|x t] eqn:Es; [discriminate|]. cbn [is_empty].
    intros H. injection H as <-. unfold coerce_value. cbn [is_null py_str].
    rewrite eqb_refl, <- Es, strip_strip, Es. reflexivity. }
  destruct (eqb expected_type (lit "integer")) eqn:E2.
  { apply eqb_eq in E2. subst expected_type.
    destruct (is_empty _); [discriminate|].
    destruct (int_of_text _) as [z|]; [|discriminate].
    intros H. injection H as <-. apply coerce_integer_int. }
  destruct (eqb expected_type (lit "float")) eqn:E3.
  { apply eqb_eq in E3. contradiction. }
  destruct (eqb expected_type (lit "boolean")) eqn:E4.
  { intros H.
    assert (Hb : exists b, c = VBool b).
    { destruct v; try (destruct (existsb _ truthy_texts);
                       [|destruct (existsb _ falsy_texts)]; [| |discriminate]);
        injection H as <-; eauto. }
    destruct Hb as [b ->]. unfold coerce_value. cbn [is_null].
    rewrite E1, E2, E3, E4. reflexivity. }
  destruct (eqb expected_type (lit "date")) eqn:E5.
  { apply eqb_eq in E5. contradiction. }
  intros H. injection H as <-. exact H0.
Qed.

End Coercion.

Section ValidatorExamples.

Import extraccion validaciones validacion lambda samples.

(** The first page of [sample_web] under the built-in rules: two
    records received, the one dated "pendiente" discarded. *)
Lemma validation_row_accounting_witness :
  @apply_validation sample_runtime scraped_frame DEFAULT_RULES
  = Ok (fst (validation_of scraped_frame DEFAULT_RULES),
        snd (validation_of scraped_frame DEFAULT_RULES))
  /\ rows_received (snd (validation_of scraped_frame DEFAULT_RULES)) = 2%Z
  /\ rows_received (snd (validation_of scraped_frame DEFAULT_RULES))
     = (rows_discarded (snd (validation_of scraped_frame DEFAULT_RULES))
        + rows_valid (snd (validation_of scraped_frame DEFAULT_RULES)))%Z.
Proof.
  assert (E : @apply_validation sample_runtime scraped_frame DEFAULT_RULES
              = Ok (fst (validation_of scraped_frame DEFAULT_RULES),
                    snd (validation_of scraped_frame DEFAULT_RULES)))
    by (vm_compute; reflexivity).
  split; [exact E|]. split; [vm_compute; reflexivity|].
  exact (proj1 (@validation_row_accounting sample_runtime _ _ _ _ E)).
Defined.

Lemma invalid_cells_are_bounded_witness :
  In (lit "created_at", 1%Z) (invalid_cells (snd (validation_of scraped_frame DEFAULT_RULES)))
  /\ In (lit "created_at") (List.map fst DEFAULT_RULES)
  /\ (1 <= 1 <= rows_received (snd (validation_of scraped_frame DEFAULT_RULES)))%Z.
Proof.
  assert (E : @apply_validation sample_runtime scraped_frame DEFAULT_RULES
              = Ok (fst (validation_of scraped_frame DEFAULT_RULES),
                    snd (validation_of scraped_frame DEFAULT_RULES)))
    by (vm_compute; reflexivity).
  assert (H : In (lit "created_at", 1%Z)
                 (invalid_cells (snd (validation_of scraped_frame DEFAULT_RULES))))
    by (vm_compute; left; reflexivity).
  split; [exact H|].
  exact (@invalid_cells_are_bounded sample_runtime _ _ _ _ (lit "created_at") 1%Z E H).
Defined.

Lemma validation_keeps_other_columns_witness :
  empty scraped_frame = false
  /\ exists keep : list bool,
       List.length keep = List.length (rows scraped_frame)
       /\ forall c, ~ In c (List.map fst DEFAULT_RULES) ->
            column c (fst (validation_of scraped_frame DEFAULT_RULES))
            = column c (select keep scraped_frame).
Proof.
  assert (E : @apply_validation sample_runtime scraped_frame DEFAULT_RULES
              = Ok (fst (validation_of scraped_frame DEFAULT_RULES),
                    snd (validation_of scraped_frame DEFAULT_RULES)))
    by (vm_compute; reflexivity).
  assert (He : empty scraped_frame = false) by (vm_compute; reflexivity).
  split; [exact He|].
  exact (proj2 (@validation_keeps_other_columns sample_runtime _ _ _ _ E He)).
Defined.

(** A frame with a title only, under the built-in rules. *)
Lemma missing_required_column_discards_all_witness :
  has_column (lit "created_at") (title_frame anchor65) = false
  /\ rows (fst (validation_of (title_frame anchor65) DEFAULT_RULES)) = []
  /\ rows_valid (snd (validation_of (title_frame anchor65) DEFAULT_RULES)) = 0%Z
  /\ rows_discarded (snd (validation_of (title_frame anchor65) DEFAULT_RULES))
     = df_len (title_frame anchor65).
Proof.
  assert (E : @apply_validation sample_runtime (title_frame anchor65) DEFAULT_RULES
              = Ok (fst (validation_of (title_frame anchor65) DEFAULT_RULES),
                    snd (validation_of (title_frame anchor65) DEFAULT_RULES)))
    by (vm_compute; reflexivity).
  split; [reflexivity|].
  apply (@missing_required_column_discards_all sample_runtime _ _ _ _ (lit "created_at")
           {| cfg_type := Some (lit "date"); cfg_regex := Some (lit "^\d{4}-\d{2}-\d{2}");
              cfg_required := true; cfg_max_length := None |} E).
  - reflexivity.
  - right. left. reflexivity.
  - reflexivity.
  - reflexivity.
Defined.


Lemma coerce_value_typed_witness :
  @coerce_value sample_runtime (lit "integer") (VStr (lit " 42 ")) = Some (VInt 42)
  /\ exists z, VInt 42 = VInt z.
Proof.
  assert (E : @coerce_value sample_runtime (lit "integer") (VStr (lit " 42 ")) = Some (VInt 42))
    by reflexivity.
  split; [exact E|].
  exact (proj1 (proj2 (proj2 (@coerce_value_typed sample_runtime _ _ _ E))) eq_refl).
Defined.

Lemma coercion_is_idempotent_witness :
  @coerce_value sample_runtime (lit "integer") (VStr (lit " 42 ")) = Some (VInt 42)
  /\ @coerce_value sample_runtime (lit "integer") (VInt 42) = Some (VInt 42).
Proof.
  assert (E : @coerce_value sample_runtime (lit "integer") (VStr (lit " 42 ")) = Some (VInt 42))
    by reflexivity.
  split; [exact E|].
  apply (@coercion_is_idempotent sample_runtime _ _ _ E); discriminate.
Defined.

End ValidatorExamples.

(** ** The tables after a run of the writer *)

Section WriterTables.

Import escritura.

Context {env : Environ}.

Lemma table_rows_committed (t t' : str) (rs : list row) (db : database) :
  table_rows t (committed t' rs db)
  = table_rows t db ++ (if eqb t' t then fst (stored_rows (next_id db) rs) else []).
Proof.
  unfold committed, table_rows. destruct (stored_rows (next_id db) rs) as [new n].
  cbn [tables fst]. induction (tables db) as [|[k old] ts IH]; cbn [tables_append].
  - destruct (eqb t' t); reflexivity.
  - destruct (eqb k t') eqn:Ek.
    + apply eqb_eq in Ek. subst k. destruct (eqb t' t); [reflexivity|].
      now rewrite app_nil_r.
    + destruct (eqb k t) eqn:Ekt; [|exact IH].
      apply eqb_eq in Ekt. subst k. destruct (eqb t' t) eqn:E2; [|now rewrite app_nil_r].
      apply eqb_eq in E2. subst t'. now rewrite eqb_refl in Ek.
Qed.

Lemma stored_rows_length (n : Z) (rs : list row) :
  List.length (fst (stored_rows n rs)) = List.length rs.
Proof.
  revert n. induction rs as [|r rs IH]; intros n; [reflexivity|].
  cbn [stored_rows]. destruct (existsb _ _).
  - specialize (IH n). destruct (stored_rows n rs). cbn [fst List.length] in *. now rewrite IH.
  - specialize (IH (n + 1)%Z). destruct (stored_rows (n + 1) rs).
    cbn [fst List.length] in *. now rewrite IH.
Qed.

Lemma row_get_nulls (c : str) (r : row) :
  (is_null (row_get c r) = false ->
   row_get c (List.map (fun kv : str * value =>
                          (fst kv, if is_null (snd kv) then VNone else snd kv)) r)
   = row_get c r)
  /\ (is_null (row_get c r) = true ->
      is_null (row_get c (List.map (fun kv : str * value =>
                                      (fst kv, if is_null (snd kv) then VNone else snd kv)) r))
      = true).
Proof.
  induction r as [|[k v] r IH]; [split; [reflexivity|intros _; reflexivity]|].
  cbn [List.map row_get fst snd]. destruct (eqb k c); [|exact IH].
  split; intros H; now rewrite H.
Qed.

(** A stored row keeps, in every column but [id], the values that are
    not null, and is null where the row was. *)
Lemma stored_rows_get (c : str) (n : Z) (rs : list row) :
  eqb (lit "id") c = false ->
  Forall2 (fun r s =>
             (is_null (row_get c r) = false -> row_get c s = row_get c r)
             /\ (is_null (row_get c r) = true -> is_null (row_get c s) = true))
          rs (fst (stored_rows n rs)).
Proof.
  intros Hc. revert n. induction rs as [|r rs IH]; intros n; [constructor|].
  cbn [stored_rows]. destruct (existsb _ _).
  - specialize (IH n). destruct (stored_rows n rs). cbn [fst] in *.
    constructor; [apply row_get_nulls|exact IH].
  - specialize (IH (n + 1)%Z). destruct (stored_rows (n + 1) rs). cbn [fst] in *.
    constructor; [|exact IH].
    rewrite (@row_get_set_other (lit "id") c _ _ Hc). apply row_get_nulls.
Qed.

Lemma null_is_no_entity (v : value) (entity : str) :
  is_null v = true -> value_eqb v (VStr entity) = false.
Proof. now destruct v. Qed.

Lemma no_faults_advance (c : driver_call) (db : database) :
  faults db = [] -> next_answer db = None /\ faults (advance c db) = [].
Proof. intros H. unfold next_answer, advance. cbn [faults]. now rewrite H. Qed.

Lemma faults_committed (t : str) (rs : list row) (db : database) :
  faults (committed t rs db) = faults db.
Proof. unfold committed. now destruct (stored_rows _ _). Qed.

Lemma row_get_drop (c c' : str) (r : row) :
  eqb c' c = false -> row_get c (row_drop c' r) = row_get c r.
Proof.
  intros Hne. unfold row_drop. induction r as [|[k v] r IH]; [reflexivity|].
  cbn [filter fst row_get]. destruct (eqb k c') eqn:E; cbn [negb].
  - apply eqb_eq in E. subst k. now rewrite Hne.
  - cbn [row_get]. destruct (eqb k c); [reflexivity|exact IH].
Qed.

(** Dropping the two helper columns leaves the rows as many and their
    other columns as they were. *)
Lemma helper_columns_dropped (df : DataFrame) :
  let nr := fold_left (fun nr col => if has_column col nr then drop_column col nr else nr)
                      [lit "unique_key"; lit "is_duplicate"] df in
  List.length (rows nr) = List.length (rows df)
  /\ forall c, eqb (lit "unique_key") c = false -> eqb (lit "is_duplicate") c = false ->
       List.map (row_get c) (rows nr) = List.map (row_get c) (rows df).
Proof.
  cbn [fold_left].
  assert (D : forall c' d,
            List.length (rows (if has_column c' d then drop_column c' d else d))
            = List.length (rows d)
            /\ forall c, eqb c' c = false ->
                 List.map (row_get c) (rows (if has_column c' d then drop_column c' d else d))
                 = List.map (row_get c) (rows d)).
  { intros c' d. destruct (has_column c' d); [|split; reflexivity].
    unfold drop_column. cbn [rows]. split; [apply length_map|].
    intros c Hc. rewrite map_map. apply map_ext. intros r. now apply row_get_drop. }
  split.
  - rewrite (proj1 (D _ _)). apply D.
  - intros c H1 H2. rewrite (proj2 (D _ _) c H2). now apply D.
Qed.

(** The insertion of the components never raises; it adds rows to
    the components table only, none of which has an entity. *)
Lemma component_step_tables (new_ids : list Z) (db : database) :
  exists c db' comps,
    component_step new_ids db = (Ok c, db')
    /\ connected db' = connected db
    /\ (faults db = [] -> faults db' = [])
    /\ (forall t, table_rows t db'
                  = table_rows t db
                    ++ (if eqb REGULATIONS_COMPONENT_TABLE t then comps else []))
    /\ (forall r entity, In r comps -> of_entity entity r = false).
Proof.
  unfold component_step. destruct new_ids as [|i ids].
  { exists (0%Z, []), db, []. split; [reflexivity|]. split; [reflexivity|].
    split; [auto|]. split; [|intros r e []].
    intros t. destruct (eqb _ t); now rewrite app_nil_r. }
  unfold try_except, insert_regulations_component, bind, ret. cbv beta iota zeta.
  unfold try_except. rewrite bulk_insert_run. cbv zeta.
  set (id_rows := {| columns := _; rows := _ |}).
  destruct (connected db) eqn:Hc.
  - destruct (next_answer db) as [e|] eqn:Ha.
    + destruct (next_answer (advance _ db)) eqn:Ha2; do 2 eexists; exists [];
        (split; [reflexivity|]); (split; [exact Hc|]);
        (split; [intros Hf; unfold next_answer in Ha; rewrite Hf in Ha; discriminate|]);
        (split; [|intros r e' []]);
        intros t; destruct (eqb _ t); now rewrite app_nil_r.
    + do 2 eexists.
      exists (fst (stored_rows (next_id (advance (CallExecutemany REGULATIONS_COMPONENT_TABLE
                                                   (df_len id_rows)) db))
                              (rows id_rows))).
      split; [reflexivity|]. split; [now rewrite connected_committed|].
      split; [intros Hf; rewrite faults_committed; now apply no_faults_advance|].
      split; [intros t; now rewrite table_rows_committed|].
      intros r entity Hr. unfold of_entity. apply null_is_no_entity.
      destruct (Forall2_In_r r
                  (@stored_rows_get (lit "entity")
                     (next_id (advance (CallExecutemany REGULATIONS_COMPONENT_TABLE
                                          (df_len id_rows)) db))
                     (rows id_rows) eq_refl) Hr) as (x & Hx & _ & Hn).
      apply Hn. subst id_rows. cbn [rows] in Hx.
      apply in_map_iff in Hx as (z & <- & _). reflexivity.
  - do 2 eexists. exists []. split; [reflexivity|]. split; [exact Hc|].
    split; [auto|]. split; [|intros r e []].
    intros t. destruct (eqb _ t); now rewrite app_nil_r.
Qed.

(** A run of the writer on a manager that holds a connection, when
    the query of the existing records is answered: step by step. *)
Lemma insert_new_records_eval (df : DataFrame) (entity : str) (db : database) :
  connected db = true -> next_answer db = None ->
  let db1 := advance CallExecute db in
  match validate_duplicates (answer (SelectExisting REGULATIONS_TABLE entity) db) df entity with
  | Raise e => insert_new_records df entity db = on_error entity e db1
  | Ok None => exists msg, insert_new_records df entity db = (Ok (0%Z, msg), db1)
  | Ok (Some p) =>
      if empty (new_records p)
      then exists msg, insert_new_records df entity db = (Ok (0%Z, msg), db1)
      else
        let nr := fold_left (fun nr col => if has_column col nr then drop_column col nr else nr)
                            [lit "unique_key"; lit "is_duplicate"] (new_records p) in
        match next_answer db1 with
        | Some exc =>
            tables (snd (insert_new_records df entity db)) = tables db
            /\ forall k msg, fst (insert_new_records df entity db) = Ok (k, msg) -> k = 0%Z
        | None =>
            let db3 := committed REGULATIONS_TABLE (rows nr)
                                 (advance (CallExecutemany REGULATIONS_TABLE (df_len nr)) db1) in
            if (df_len nr =? 0)%Z
            then exists msg, insert_new_records df entity db = (Ok (0%Z, msg), db3)
            else
              match next_answer db3 with
              | Some e3 =>
                  insert_new_records df entity db = on_error entity e3 (advance CallExecute db3)
              | None =>
                  exists msg db5 comps,
                    insert_new_records df entity db = (Ok (df_len nr, msg), db5)
                    /\ connected db5 = true
                    /\ (faults db3 = [] -> faults db5 = [])
                    /\ (forall t, table_rows t db5
                                  = table_rows t db3
                                    ++ (if eqb REGULATIONS_COMPONENT_TABLE t then comps else []))
                    /\ (forall r e, In r comps -> of_entity e r = false)
              end
        end
  end.
Proof.
  intros Hc Ha0. cbv zeta.
  unfold insert_new_records, try_except.
  unfold insert_new_records_body, bind, lift.
  rewrite execute_query_run, Hc, Ha0.
  set (db1 := advance CallExecute db).
  assert (Hc1 : connected db1 = true) by exact Hc.
  destruct (validate_duplicates _ df entity) as [[p|]|e]; [|eexists; reflexivity|reflexivity].
  destruct (empty (new_records p)); [eexists; reflexivity|].
  cbv zeta. set (nr := fold_left _ _ (new_records p)).
  rewrite insert_step_run, Hc1. cbv zeta.
  destruct (next_answer db1) as [exc|] eqn:Ha1.
  - set (db2 := advance (CallExecutemany REGULATIONS_TABLE (df_len nr)) db1).
    destruct (mentions_duplicate _).
    + cbn [snd fst]. split; [reflexivity|]. intros k msg H. now injection H as <- _.
    + rewrite on_error_run. cbv zeta.
      replace (connected (advance CallRollback db2)) with true by (symmetry; exact Hc). destruct (next_answer (advance CallRollback db2)); cbn [snd fst].
      * split; [reflexivity|]. intros k msg H. discriminate.
      * split; [reflexivity|]. intros k msg H. now injection H as <- _.
  - set (db3 := committed _ _ _).
    assert (Hc3 : connected db3 = true) by (subst db3; now rewrite connected_committed).
    destruct (df_len nr =? 0)%Z; [eexists; reflexivity|].
    rewrite execute_query_run, Hc3.
    destruct (next_answer db3) as [e3|] eqn:Ha3; [reflexivity|].
    match goal with
    | |- context [component_step ?ids ?d] =>
        destruct (component_step_tables ids d) as (c & db5 & comps & Hcomp & C5 & F5 & T5 & E5)
    end.
    rewrite Hcomp. unfold ret. eexists. exists db5, comps.
    split; [reflexivity|]. split; [now rewrite C5|].
    split; [|split; [exact T5|exact E5]].
    intros Hf. apply F5. now apply no_faults_advance.
Qed.

End WriterTables.

(** ** The rows the duplicate validation keeps *)

Section WriterRows.

Import escritura.

Context {env : Environ}.

(** The outcome of the duplicate validation, row by row: the records
    of the entity are normalised, those whose joined key is among the
    joined keys of the persisted records are left out, and of the
    others the first of every key triple is kept. *)
Lemma validate_duplicates_rows (existing_records : list (list value)) (df : DataFrame)
    (entity : str) (p : partition) :
  validate_duplicates existing_records df entity = Ok (Some p) ->
  exists (entity_col : Series) (G : row -> row),
    getitem (lit "entity") df = Ok entity_col
    /\ let L := List.map normalized_row
                  (rows (select (List.map (fun v => value_eqb v (VStr entity)) entity_col) df)) in
       let D := List.map normalized_row
                  (List.map (fun t => combine [lit "title"; lit "created_at"; lit "entity";
                                               lit "external_link"] t) existing_records) in
       let dup := fun r => existsb (eqb (unique_key r)) (List.map unique_key D) in
       L <> []
       /\ (forall r c, eqb (lit "unique_key") c = false -> eqb (lit "is_duplicate") c = false ->
             row_get c (G r) = row_get c r)
       /\ rows (p_entity_df p) = List.map G L
       /\ rows (new_records p)
          = keep_first key_columns [] (List.map G (filter (fun r => negb (dup r)) L))
       /\ List.map unique_key (rows (p_db_df p)) = List.map unique_key D.
Proof.
  unfold validate_duplicates.
  destruct (getitem (lit "entity") df) as [entity_col|]; [|discriminate].
  set (entity_df0 := select _ df).
  destruct (empty entity_df0) eqn:He0; [discriminate|].
  match goal with |- context [if negb (empty ?d) then _ else _] => set (db_df0 := d) end.
  destruct (normalize_keys entity_df0) as [entity_df|] eqn:En.
  2:{ destruct (if negb (empty db_df0) then _ else _); discriminate. }
  destruct (normalize_keys_rows _ En) as [RL _].
  assert (HLne : List.map normalized_row (rows entity_df0) <> []).
  { unfold empty in He0. destruct (rows entity_df0); [discriminate|]. discriminate. }
  destruct (empty db_df0) eqn:Hd0; cbn [negb].
  - (* nothing persisted *)
    assert (Rd : existing_records = []).
    { subst db_df0. destruct existing_records; [reflexivity|discriminate Hd0]. }
    rewrite Hd0. intros H. injection H as <-.
    exists entity_col, (fun r => r). split; [reflexivity|].
    cbv zeta. fold entity_df0. rewrite <- RL. subst existing_records.
    cbn [new_records p_entity_df List.map existsb negb].
    split; [rewrite RL; exact HLne|]. split; [reflexivity|].
    split; [now rewrite map_id|].
    split; [|reflexivity].
    unfold drop_duplicates. cbn [rows]. now rewrite filter_all, map_id.
  - (* some records persisted *)
    destruct (normalize_keys db_df0) as [db_df|] eqn:Dn; [|discriminate].
    destruct (normalize_keys_rows _ Dn) as [RD CD].
    assert (Hd : empty db_df = false).
    { unfold empty in *. rewrite RD, CD. destruct (rows db_df0); [exact Hd0|].
      destruct (columns db_df0); [exact Hd0|reflexivity]. }
    rewrite Hd. set (L := rows entity_df) in *. set (D := rows db_df) in *.
    set (uk := fun r : row => VStr (unique_key r)).
    set (e1 := set_column (lit "unique_key") (List.map uk L) entity_df).
    set (d1 := set_column (lit "unique_key") (List.map uk D) db_df).
    assert (Re1 : rows e1 = List.map (fun r => row_set (lit "unique_key") (uk r) r) L).
    { subst e1. rewrite (@set_column_rows_by _ (fun r => r) uk L entity_df); [reflexivity|].
      now rewrite map_id. }
    assert (Rd1 : rows d1 = List.map (fun r => row_set (lit "unique_key") (uk r) r) D).
    { subst d1. rewrite (@set_column_rows_by _ (fun r => r) uk D db_df); [reflexivity|].
      now rewrite map_id. }
    set (keys := astype_str (column (lit "unique_key") d1)).
    assert (Hkeys : keys = List.map unique_key D).
    { subst keys. unfold astype_str, column. rewrite Rd1, !map_map.
      apply map_ext. intros r. now rewrite row_get_set_same. }
    set (dup := fun r : row => existsb (eqb (unique_key r)) keys).
    assert (Hdup : List.map (fun v => existsb (eqb (py_str v)) keys)
                            (column (lit "unique_key") e1)
                   = List.map dup L).
    { unfold column. rewrite Re1, !map_map. apply map_ext. intros r.
      now rewrite row_get_set_same. }
    rewrite Hdup, map_map.
    set (e2 := set_column (lit "is_duplicate") (List.map (fun r => VBool (dup r)) L) e1).
    set (G := fun r => row_set (lit "is_duplicate") (VBool (dup r))
                               (row_set (lit "unique_key") (uk r) r)).
    assert (Re2 : rows e2 = List.map G L).
    { subst e2. now apply set_column_rows_by. }
    assert (Hmask : List.map (fun v => negb (value_eqb v (VBool true)))
                             (column (lit "is_duplicate") e2)
                    = List.map (fun r => negb (dup r)) L).
    { unfold column. rewrite Re2, !map_map. apply map_ext. intros r.
      unfold G. rewrite row_get_set_same. cbn [value_eqb]. now destruct (dup r). }
    rewrite Hmask.
    intros H. injection H as <-. cbn [new_records p_entity_df p_db_df].
    exists entity_col, G. split; [reflexivity|].
    cbv zeta. fold entity_df0. rewrite <- RL. fold L.
    change (List.map (fun t => combine [lit "title"; lit "created_at"; lit "entity";
                                         lit "external_link"] t) existing_records)
      with (rows db_df0).
    rewrite <- RD. fold D. rewrite <- Hkeys. fold dup.
    split; [rewrite RL; exact HLne|].
    split.
    { intros r c H1 H2. unfold G.
      now rewrite (@row_get_set_other (lit "is_duplicate") c _ _ H2),
                  (@row_get_set_other (lit "unique_key") c _ _ H1). }
    split; [exact Re2|].
    split.
    { unfold drop_duplicates. cbn [rows].
      now rewrite (@select_rows_by G (fun r => negb (dup r)) L e2 Re2). }
    rewrite Hkeys, Rd1, map_map. apply map_ext. intros r. unfold unique_key.
    now rewrite (@row_get_set_other (lit "unique_key") (lit "title") _ _ eq_refl),
                (@row_get_set_other (lit "unique_key") (lit "created_at") _ _ eq_refl),
                (@row_get_set_other (lit "unique_key") (lit "external_link") _ _ eq_refl).
Qed.

End WriterRows.

(** ** The new records of a batch *)

Section WriterKeys.

Import escritura.

Lemma triple_eqb_eq (a b : triple) : triple_eqb a b = true <-> a = b.
Proof.
  destruct a as [[t d] l], b as [[t' d'] l']. unfold triple_eqb.
  rewrite !andb_true_iff, !eqb_eq. split.
  - intros [[-> ->] ->]. reflexivity.
  - intros H. injection H as -> -> ->. auto.
Qed.

Lemma existsb_triple (k : triple) (l : list triple) :
  existsb (triple_eqb k) l = true <-> In k l.
Proof.
  rewrite existsb_exists. split.
  - intros (x & Hx & E). apply triple_eqb_eq in E. now subst x.
  - intros H. exists k. split; [exact H|]. now apply triple_eqb_eq.
Qed.

Lemma existsb_str (k : str) (l : list str) : existsb (eqb k) l = true <-> In k l.
Proof.
  rewrite existsb_exists. split.
  - intros (x & Hx & E). apply eqb_eq in E. now subst x.
  - intros H. exists k. split; [exact H|]. apply eqb_refl.
Qed.

(** The first occurrences: no triple twice, none of the seen ones, and
    every triple of the list either seen or kept. *)
Lemma first_occurrences_facts (ks seen : list triple) :
  NoDup (first_occurrences seen ks)
  /\ (forall k, In k (first_occurrences seen ks) -> In k ks /\ ~ In k seen)
  /\ (forall k, In k ks -> In k seen \/ In k (first_occurrences seen ks)).
Proof.
  revert seen. induction ks as [|k ks IH]; intros seen.
  - split; [constructor|]. split; [intros k []|intros k []].
  - cbn [first_occurrences]. destruct (existsb (triple_eqb k) seen) eqn:E.
    + destruct (IH seen) as (N & S & C). split; [exact N|]. split.
      * intros k' Hk'. destruct (S k' Hk') as [H1 H2]. split; [now right|exact H2].
      * intros k' [<-|Hk']; [left; now apply existsb_triple|now apply C].
    + destruct (IH (k :: seen)) as (N & S & C).
      assert (Hk : ~ In k seen).
      { intros H. apply existsb_triple in H. congruence. }
      split; [|split].
      * constructor; [|exact N]. intros H. destruct (S k H) as [_ H2]. apply H2. now left.
      * intros k' [<-|Hk']; [split; [now left|exact Hk]|].
        destruct (S k' Hk') as [H1 H2]. split; [now right|].
        intros H. apply H2. now right.
      * intros k' [<-|Hk']; [right; now left|].
        destruct (C k' Hk') as [[<-|H]|H]; [right; now left|now left|right; now right].
Qed.

Lemma keep_first_incl (subset : list str) (rs : list row) (seen : list (list value)) (r : row) :
  In r (keep_first subset seen rs) -> In r rs.
Proof.
  revert seen. induction rs as [|x rs IH]; intros seen; [intros []|].
  cbn [keep_first]. destruct (existsb _ seen).
  - intros H. right. exact (IH _ H).
  - intros [<-|H]; [now left|right; exact (IH _ H)].
Qed.

Lemma unique_key_of_triple (r r' : row) :
  key_triple r = key_triple r' -> unique_key r = unique_key r'.
Proof. unfold key_triple, unique_key. intros H. injection H as -> -> ->. reflexivity. Qed.

(** A step that leaves the key columns alone leaves the keys alone. *)
Lemma keys_kept (G : row -> row) :
  (forall r c, eqb (lit "unique_key") c = false -> eqb (lit "is_duplicate") c = false ->
     row_get c (G r) = row_get c r) ->
  forall r, key_triple (G r) = key_triple r /\ str_keys (G r) = str_keys r
            /\ unique_key (G r) = unique_key r.
Proof.
  intros HG r.
  assert (K : key_triple (G r) = key_triple r).
  { unfold key_triple. now rewrite !HG by reflexivity. }
  split; [exact K|]. split; [|now apply unique_key_of_triple].
  unfold str_keys. now rewrite !HG by reflexivity.
Qed.

(** [df[df["entity"] == entity]] holds the rows of the entity. *)
Lemma entity_rows (df : DataFrame) (entity : str) (entity_col : Series) :
  getitem (lit "entity") df = Ok entity_col ->
  rows (select (List.map (fun v => value_eqb v (VStr entity)) entity_col) df)
  = filter (of_entity entity) (rows df).
Proof.
  unfold getitem. destruct (has_column _ df); [|discriminate].
  intros H. injection H as <-. unfold column. rewrite map_map.
  rewrite (@select_rows_by (fun r => r) (fun r => value_eqb (row_get (lit "entity") r) (VStr entity))
             (rows df) df); [|now rewrite map_id].
  now rewrite map_id.
Qed.

Lemma normalized_row_entity (r : row) :
  row_get (lit "entity") (normalized_row r) = row_get (lit "entity") r.
Proof.
  unfold normalized_row. cbv zeta.
  rewrite (@row_get_set_other (lit "title") (lit "entity")) by reflexivity.
  rewrite (@row_get_set_other (lit "external_link") (lit "entity")) by reflexivity.
  now rewrite (@row_get_set_other (lit "created_at") (lit "entity")) by reflexivity.
Qed.

Lemma normalized_row_title (r : row) :
  exists t, row_get (lit "title") (normalized_row r) = VStr (strip t).
Proof. unfold normalized_row. cbv zeta. rewrite row_get_set_same. eauto. Qed.

(** The new records, without reference to a separator: their triples
    are pairwise distinct, each is a record of the entity whose joined
    key no persisted record has, and every record of the entity either
    has the joined key of a persisted record or the triple of a new
    record. *)
Lemma new_records_facts (existing_records : list (list value)) (df : DataFrame)
    (entity : str) (p : partition) :
  validate_duplicates existing_records df entity = Ok (Some p) ->
  NoDup (List.map key_triple (rows (new_records p)))
  /\ (forall r, In r (rows (new_records p)) ->
        In r (rows (p_entity_df p))
        /\ ~ In (unique_key r) (List.map unique_key (rows (p_db_df p))))
  /\ (forall r, In r (rows (p_entity_df p)) ->
        In (unique_key r) (List.map unique_key (rows (p_db_df p)))
        \/ In (key_triple r) (List.map key_triple (rows (new_records p))))
  /\ (forall r, In r (rows (p_entity_df p)) ->
        str_keys r = true /\ of_entity entity r = true
        /\ exists t, row_get (lit "title") r = VStr (strip t))
  /\ (List.length (rows (new_records p)) <= List.length (rows (p_entity_df p)))%nat
  /\ List.map key_triple (rows (p_entity_df p))
     = List.map key_triple (List.map normalized_row (filter (of_entity entity) (rows df)))
  /\ List.map unique_key (rows (p_db_df p))
     = List.map (fun t => unique_key
                           (normalized_row
                              (combine [lit "title"; lit "created_at"; lit "entity";
                                        lit "external_link"] t)))
                existing_records.
Proof.
  intros H. destruct (validate_duplicates_rows _ _ _ H) as (entity_col & G & Hcol & F).
  cbv zeta in F. rewrite (entity_rows _ _ Hcol) in F.
  destruct F as (_ & HG & RE & RN & RD).
  set (L := List.map normalized_row (filter (of_entity entity) (rows df))) in *.
  set (keysD := List.map unique_key
                  (List.map normalized_row
                     (List.map (fun t => combine [lit "title"; lit "created_at"; lit "entity";
                                                  lit "external_link"] t) existing_records))) in *.
  set (F := filter (fun r => negb (existsb (eqb (unique_key r)) keysD)) L) in *.
  pose proof (keys_kept G HG) as KG.
  assert (HL : forall r, In r L -> str_keys r = true /\ of_entity entity r = true
                                   /\ exists t, row_get (lit "title") r = VStr (strip t)).
  { intros r Hr. apply in_map_iff in Hr as (r0 & <- & Hr0).
    split; [apply normalized_row_str_keys|]. split; [|apply normalized_row_title].
    unfold of_entity. rewrite normalized_row_entity. now apply filter_In in Hr0. }
  assert (SF : Forall (fun r => str_keys r = true) (List.map G F)).
  { apply Forall_forall. intros r Hr. apply in_map_iff in Hr as (r0 & <- & Hr0).
    rewrite (proj1 (proj2 (KG r0))). apply HL. now apply filter_In in Hr0. }
  assert (T : List.map key_triple (rows (new_records p))
              = first_occurrences [] (List.map key_triple F)).
  { rewrite RN.
    change (keep_first key_columns []) with (keep_first key_columns (List.map (key_of key_columns) [])).
    rewrite (@keep_first_triples [] (List.map G F) (Forall_nil _) SF). cbn [List.map].
    rewrite map_map. f_equal. apply map_ext. intros r. apply KG. }
  destruct (first_occurrences_facts (List.map key_triple F) []) as (N & _ & C).
  split; [now rewrite T|]. split; [|split; [|split; [|split; [|split]]]].
  - intros r Hr. rewrite RN in Hr. apply keep_first_incl in Hr.
    apply in_map_iff in Hr as (r0 & <- & Hr0). apply filter_In in Hr0 as [Hr0 Hd].
    split; [rewrite RE; now apply in_map|].
    rewrite RD, (proj2 (proj2 (KG r0))). intros Hin. apply existsb_str in Hin.
    fold keysD in Hin. now rewrite Hin in Hd.
  - intros r Hr. rewrite RE in Hr. apply in_map_iff in Hr as (r0 & <- & Hr0).
    rewrite RD, (proj2 (proj2 (KG r0))), (proj1 (KG r0)). fold keysD.
    destruct (existsb (eqb (unique_key r0)) keysD) eqn:E; [left; now apply existsb_str|].
    right. rewrite T.
    destruct (C (key_triple r0)) as [[]|Hk]; [|exact Hk].
    apply in_map. apply filter_In. split; [exact Hr0|now rewrite E].
  - intros r Hr. rewrite RE in Hr. apply in_map_iff in Hr as (r0 & <- & Hr0).
    destruct (HL r0 Hr0) as (S1 & S2 & t & S3).
    split; [now rewrite (proj1 (proj2 (KG r0)))|]. split.
    + unfold of_entity in *. now rewrite HG by reflexivity.
    + exists t. now rewrite HG by reflexivity.
  - rewrite RN, RE, !length_map.
    apply Nat.le_trans with (1 := keep_first_length _ _ _). rewrite length_map.
    apply filter_length_le.
  - rewrite RE, map_map. apply map_ext. intros r. apply KG.
  - rewrite RD. unfold keysD. now rewrite !map_map.
Qed.

End WriterKeys.

(** ** What a run of the writer adds to the tables *)

Section WriterEffects.

Import escritura.

Context {env : Environ}.

Lemma of_entity_not_null (entity : str) (r : row) :
  of_entity entity r = true -> is_null (row_get (lit "entity") r) = false.
Proof. unfold of_entity. now destruct (row_get (lit "entity") r). Qed.

Lemma str_keys_not_null (r : row) (c : str) :
  str_keys r = true -> In c key_columns -> is_null (row_get c r) = false.
Proof.
  unfold str_keys. intros H [<-|[<-|[<-|[]]]];
    destruct (row_get (lit "title") r); try discriminate;
    destruct (row_get (lit "created_at") r); try discriminate;
    destruct (row_get (lit "external_link") r); try discriminate; reflexivity.
Qed.

(** A column without nulls is stored as it is. *)
Lemma stored_rows_column (c : str) (n : Z) (rs : list row) :
  eqb (lit "id") c = false ->
  (forall r, In r rs -> is_null (row_get c r) = false) ->
  List.map (row_get c) (fst (stored_rows n rs)) = List.map (row_get c) rs.
Proof.
  intros Hc Hn. pose proof (@stored_rows_get c n rs Hc) as F.
  induction F as [|r s rs ss [Hrs _] _ IH]; [reflexivity|].
  cbn [List.map]. rewrite Hrs by (apply Hn; now left). f_equal.
  apply IH. intros r' Hr'. apply Hn. now right.
Qed.

(** Rows that agree column by column agree row by row. *)
Lemma aligned_rows (cs : list str) (l l' : list row) :
  List.length l' = List.length l ->
  (forall c, In c cs -> List.map (row_get c) l' = List.map (row_get c) l) ->
  forall r, In r l -> exists s, In s l' /\ forall c, In c cs -> row_get c s = row_get c r.
Proof.
  revert l'. induction l as [|x l IH]; intros l' Hlen Hcs r; [intros []|].
  destruct l' as [|y l']; [discriminate|].
  assert (Hhd : forall c, In c cs -> row_get c y = row_get c x).
  { intros c Hc. specialize (Hcs c Hc). now injection Hcs. }
  assert (Htl : forall c, In c cs -> List.map (row_get c) l' = List.map (row_get c) l).
  { intros c Hc. specialize (Hcs c Hc). now injection Hcs. }
  intros [<-|Hr].
  - exists y. split; [now left|exact Hhd].
  - injection Hlen as Hlen. destruct (IH l' Hlen Htl r Hr) as (s & Hs & E).
    exists s. split; [now right|exact E].
Qed.

(** The joined key of a stored record, as the query of the existing
    records and the normalisation give it back. *)
Lemma persisted_key (s : row) (t c l : str) :
  row_get (lit "title") s = VStr (strip t) ->
  row_get (lit "created_at") s = VStr c ->
  row_get (lit "external_link") s = VStr l ->
  unique_key (normalized_row
                (combine [lit "title"; lit "created_at"; lit "entity"; lit "external_link"]
                         [ sql_null (row_get (lit "title") s);
                           sql_text (row_get (lit "created_at") s);
                           sql_null (row_get (lit "entity") s);
                           sql_coalesce_empty (row_get (lit "external_link") s) ]))
  = unique_key s.
Proof.
  intros Ht Hc Hl. unfold unique_key at 2. rewrite Ht, Hc, Hl.
  cbn [sql_null sql_text sql_coalesce_empty is_null py_str combine].
  set (e := if is_null (row_get (lit "entity") s) then VNone else row_get (lit "entity") s).
  unfold unique_key, normalized_row. cbv zeta.
  rewrite row_get_set_same.
  rewrite (@row_get_set_other (lit "title") (lit "created_at")) by reflexivity.
  rewrite (@row_get_set_other (lit "external_link") (lit "created_at")) by reflexivity.
  rewrite row_get_set_same.
  rewrite (@row_get_set_other (lit "title") (lit "external_link")) by reflexivity.
  rewrite row_get_set_same.
  rewrite (@row_get_set_other (lit "created_at") (lit "external_link")) by reflexivity.
  rewrite (@row_get_set_other (lit "external_link") (lit "title")) by reflexivity.
  rewrite (@row_get_set_other (lit "created_at") (lit "title")) by reflexivity.
  change (row_get (lit "title") _) with (VStr (strip t)).
  change (row_get (lit "created_at") _) with (VStr c).
  change (row_get (lit "external_link") _) with (VStr l).
  cbn [py_str is_null]. now rewrite strip_strip.
Qed.

(** A run of the writer when the server grants every call: it returns
    normally, and either leaves the tables as they are and reports 0,
    or stores the new records of the duplicate validation, reports
    their number, and adds rows without entity to the components
    table. *)
Lemma granted_run (df : DataFrame) (entity : str) (db : database) :
  connected db = true -> faults db = [] ->
  exists k msg db',
    insert_new_records df entity db = (Ok (k, msg), db')
    /\ connected db' = true /\ faults db' = []
    /\ ((k = 0%Z /\ tables db' = tables db
         /\ forall p, validate_duplicates (answer (SelectExisting REGULATIONS_TABLE entity) db)
                                          df entity = Ok (Some p) ->
                      empty (new_records p) = true)
        \/ exists p stored comps,
             validate_duplicates (answer (SelectExisting REGULATIONS_TABLE entity) db) df entity
             = Ok (Some p)
             /\ empty (new_records p) = false
             /\ k = df_len (new_records p)
             /\ List.length stored = List.length (rows (new_records p))
             /\ (forall c, eqb (lit "id") c = false -> eqb (lit "unique_key") c = false ->
                   eqb (lit "is_duplicate") c = false ->
                   (forall r, In r (rows (new_records p)) -> is_null (row_get c r) = false) ->
                   List.map (row_get c) stored = List.map (row_get c) (rows (new_records p)))
             /\ (forall r e, In r comps -> of_entity e r = false)
             /\ forall t, table_rows t db'
                          = (table_rows t db ++ (if eqb REGULATIONS_TABLE t then stored else []))
                            ++ (if eqb REGULATIONS_COMPONENT_TABLE t then comps else [])).
Proof.
  intros Hc Hf.
  destruct (no_faults_advance CallExecute _ Hf) as [Ha0 Hf1].
  pose proof (insert_new_records_eval df entity db Hc Ha0) as E. cbv zeta in E.
  set (db1 := advance CallExecute db) in *.
  assert (Hc1 : connected db1 = true) by exact Hc.
  destruct (validate_duplicates _ df entity) as [[p|]|e] eqn:V.
  - destruct (empty (new_records p)) eqn:Hemp.
    { destruct E as [msg E]. exists 0%Z, msg, db1. split; [exact E|].
      split; [exact Hc1|]. split; [exact Hf1|]. left.
      split; [reflexivity|]. split; [reflexivity|].
      intros p' Hp'. injection Hp' as <-. exact Hemp. }
    set (nr := fold_left _ _ (new_records p)) in *.
    destruct (helper_columns_dropped (new_records p)) as [Hlen Hcols]. fold nr in Hlen, Hcols.
    destruct (no_faults_advance (CallExecutemany REGULATIONS_TABLE (df_len nr)) _ Hf1)
      as [Ha1 Hf2].
    rewrite Ha1 in E.
    set (db3 := committed REGULATIONS_TABLE (rows nr) _) in *.
    assert (Hf3 : faults db3 = []) by (subst db3; now rewrite faults_committed).
    assert (Hz : (df_len nr =? 0)%Z = false).
    { apply Z.eqb_neq. unfold df_len. rewrite Hlen. unfold empty in Hemp.
      destruct (rows (new_records p)); [discriminate|]. cbn [List.length]. lia. }
    rewrite Hz in E.
    destruct (no_faults_advance CallExecute _ Hf3) as [Ha3 _]. rewrite Ha3 in E.
    destruct E as (msg & db5 & comps & E & Hc5 & Hf5 & T5 & E5).
    exists (df_len nr), msg, db5. split; [exact E|]. split; [exact Hc5|].
    split; [now apply Hf5|]. right.
    exists p, (fst (stored_rows (next_id (advance (CallExecutemany REGULATIONS_TABLE (df_len nr))
                                                  db1)) (rows nr))), comps.
    split; [reflexivity|]. split; [exact Hemp|].
    split; [unfold df_len; now rewrite Hlen|].
    split; [now rewrite stored_rows_length|].
    split; [|split; [exact E5|]].
    + intros c H1 H2 H3 Hn. rewrite <- (Hcols c H2 H3).
      apply stored_rows_column; [exact H1|].
      intros r Hr.
      assert (In (row_get c r) (List.map (row_get c) (rows nr))) as Hin by now apply in_map.
      rewrite (Hcols c H2 H3) in Hin. apply in_map_iff in Hin as (r0 & <- & Hr0).
      now apply Hn.
    + intros t. rewrite T5. f_equal. subst db3. now rewrite table_rows_committed.
  - destruct E as [msg E]. exists 0%Z, msg, db1. split; [exact E|].
    split; [exact Hc1|]. split; [exact Hf1|]. left.
    split; [reflexivity|]. split; [reflexivity|]. intros p' Hp'. discriminate.
  - rewrite on_error_run in E. cbv zeta in E. rewrite Hc1 in E.
    destruct (no_faults_advance CallRollback _ Hf1) as [Ha1 Hf2]. rewrite Ha1 in E.
    do 3 eexists. split; [exact E|]. split; [exact Hc1|]. split; [exact Hf2|]. left.
    split; [reflexivity|]. split; [reflexivity|]. intros p' Hp'. discriminate.
Qed.

End WriterEffects.

(** ** Runs of the writer *)

Section WriterTheorems.

Import escritura.

Context {env : Environ}.

Lemma key_triples_of_columns (l l' : list row) :
  (forall c, In c key_columns -> List.map (row_get c) l' = List.map (row_get c) l) ->
  List.map key_triple l' = List.map key_triple l.
Proof.
  revert l'. induction l as [|x l IH]; intros l' H.
  - specialize (H (lit "title") (or_introl eq_refl)). now destruct l'.
  - destruct l' as [|y l'].
    { specialize (H (lit "title") (or_introl eq_refl)). discriminate. }
    cbn [List.map]. f_equal.
    + unfold key_triple.
      pose proof (H (lit "title") (or_introl eq_refl)) as H1.
      pose proof (H (lit "created_at") (or_intror (or_introl eq_refl))) as H2.
      pose proof (H (lit "external_link") (or_intror (or_intror (or_introl eq_refl)))) as H3.
      injection H1 as -> _. injection H2 as -> _. injection H3 as -> _. reflexivity.
    + apply IH. intros c Hc. specialize (H c Hc). now injection H.
Qed.

Lemma table_rows_tables (t : str) (db db' : database) :
  tables db' = tables db -> table_rows t db' = table_rows t db.
Proof. unfold table_rows. now intros ->. Qed.

(** A stored record of the entity whose key columns hold strings, the
    title a trimmed one, is found by its joined key among the records
    the writer reads back. *)
Lemma persisted_in_answer (t entity : str) (db : database) (s : row) :
  In s (table_rows t db) -> of_entity entity s = true -> str_keys s = true ->
  (exists x, row_get (lit "title") s = VStr (strip x)) ->
  In (unique_key s)
     (List.map (fun tup => unique_key
                             (normalized_row
                                (combine [lit "title"; lit "created_at"; lit "entity";
                                          lit "external_link"] tup)))
               (answer (SelectExisting t entity) db)).
Proof.
  intros Hs He Hk (x & Hx). cbn [answer]. rewrite map_map. apply in_map_iff.
  exists s. split; [|apply filter_In; now split].
  unfold str_keys in Hk. rewrite Hx in Hk.
  destruct (row_get (lit "created_at") s) as [| | | | |c|] eqn:Hc; try discriminate.
  destruct (row_get (lit "external_link") s) as [| | | | |l|] eqn:Hl; try discriminate.
  rewrite <- Hc, <- Hl. now apply (@persisted_key s x c l).
Qed.

Lemma persisted_key_kept (t entity : str) (db db' : database) (k : str) :
  (forall s, In s (table_rows t db) -> In s (table_rows t db')) ->
  In k (List.map (fun tup => unique_key
                               (normalized_row
                                  (combine [lit "title"; lit "created_at"; lit "entity";
                                            lit "external_link"] tup)))
                 (answer (SelectExisting t entity) db)) ->
  In k (List.map (fun tup => unique_key
                               (normalized_row
                                  (combine [lit "title"; lit "created_at"; lit "entity";
                                            lit "external_link"] tup)))
                 (answer (SelectExisting t entity) db')).
Proof.
  intros Hincl. cbn [answer]. rewrite !map_map, !in_map_iff.
  intros (s & E & Hs). exists s. split; [exact E|].
  apply filter_In in Hs as [Hs He]. apply filter_In. split; [now apply Hincl|exact He].
Qed.

Lemma on_error_count (entity exc : str) (db : database) (k : Z) (msg : str) :
  fst (on_error entity exc db) = Ok (k, msg) -> k = 0%Z.
Proof.
  rewrite on_error_run. cbv zeta. destruct (connected db); [destruct (next_answer db)|];
    cbn [fst]; intros H; try discriminate; now injection H as <- _.
Qed.

Lemma insert_new_records_early (df : DataFrame) (entity : str) (db : database) :
  (connected db = false ->
   insert_new_records df entity db
   = (Ok (0%Z, lit "Error processing entity " ++ entity ++ lit ": "
               ++ lit "Database not connected"), db))
  /\ (forall e, connected db = true -> next_answer db = Some e ->
        insert_new_records df entity db = on_error entity e (advance CallExecute db)).
Proof.
  unfold insert_new_records, try_except, insert_new_records_body, bind, lift.
  rewrite execute_query_run. split.
  - intros Hc. rewrite Hc, on_error_run. cbv zeta. now rewrite Hc.
  - intros e Hc Ha. now rewrite Hc, Ha.
Qed.

(** The new records of a batch, whatever the titles hold: no key
    triple occurs twice among them, each is a record of the batch for
    the entity whose joined key no persisted record has, and every
    record of the entity has the joined key of a persisted record or
    the key triple of a new record. *)
Theorem new_records_are_distinct (existing_records : list (list value)) (df : DataFrame)
    (entity : str) (p : partition) :
  validate_duplicates existing_records df entity = Ok (Some p) ->
  NoDup (List.map key_triple (rows (new_records p)))
  /\ (forall r, In r (rows (new_records p)) ->
        In r (rows (p_entity_df p))
        /\ ~ In (unique_key r) (List.map unique_key (rows (p_db_df p))))
  /\ (forall r, In r (rows (p_entity_df p)) ->
        In (unique_key r) (List.map unique_key (rows (p_db_df p)))
        \/ In (key_triple r) (List.map key_triple (rows (new_records p)))).
Proof.
  intros H. destruct (new_records_facts _ _ _ H) as (N & S & C & _).
  split; [exact N|]. split; [exact S|exact C].
Qed.

Lemma writer_count_bounds (df : DataFrame) (entity : str) (db : database)
    (k : Z) (msg : str) :
  fst (insert_new_records df entity db) = Ok (k, msg) ->
  (0 <= k <= Z.of_nat (List.length (filter (of_entity entity) (rows df))))%Z.
Proof.
  assert (Z0 : (0 <= 0 <= Z.of_nat (List.length (filter (of_entity entity) (rows df))))%Z) by lia.
  destruct (insert_new_records_early df entity db) as [Hnc Hfail].
  destruct (connected db) eqn:Hc.
  2:{ rewrite (Hnc eq_refl). cbn [fst]. intros H. now injection H as <- _. }
  destruct (next_answer db) as [e|] eqn:Ha.
  { rewrite (Hfail e eq_refl eq_refl). intros H. apply on_error_count in H. now subst k. }
  pose proof (insert_new_records_eval df entity db Hc Ha) as E. cbv zeta in E.
  destruct (validate_duplicates _ df entity) as [[p|]|e] eqn:V.
  - destruct (empty (new_records p)).
    { destruct E as [m E]. rewrite E. cbn [fst]. intros H. now injection H as <- _. }
    set (nr := fold_left _ _ (new_records p)) in *.
    destruct (next_answer (advance CallExecute db)) as [exc|].
    { destruct E as [_ E]. intros H. now rewrite (E _ _ H). }
    destruct (df_len nr =? 0)%Z.
    { destruct E as [m E]. rewrite E. cbn [fst]. intros H. now injection H as <- _. }
    destruct (next_answer (committed _ _ _)) as [e3|].
    { rewrite E. intros H. apply on_error_count in H. now subst k. }
    destruct E as (m & db5 & comps & E & _). rewrite E. cbn [fst].
    intros H. injection H as <- _.
    destruct (new_records_facts _ _ _ V) as (_ & _ & _ & _ & Hle & K & _).
    destruct (helper_columns_dropped (new_records p)) as [Hlen _]. fold nr in Hlen.
    apply (f_equal (@List.length _)) in K. rewrite !length_map in K.
    unfold df_len. rewrite Hlen. lia.
  - destruct E as [m E]. rewrite E. cbn [fst]. intros H. now injection H as <- _.
  - rewrite E. intros H. apply on_error_count in H. now subst k.
Qed.

(** Whatever the server answers, a count that the writer returns is
    not negative and not above the number of records of the batch that
    are of the entity. *)
Theorem reported_count_is_bounded (df : DataFrame) (entity : str) (db : database)
    (k : Z) (msg : str) :
  fst (insert_new_records df entity db) = Ok (k, msg) ->
  (0 <= k <= Z.of_nat (List.length (filter (of_entity entity) (rows df))))%Z.
Proof. apply writer_count_bounds. Qed.

(** When the server grants every call, the writer returns normally and
    the count it returns is the number of rows of the entity that the
    run added to the regulations table; no two of them have the same
    key triple, and no table loses a row. *)
Theorem granted_run_adds_reported_rows (df : DataFrame) (entity : str) (db : database) :
  connected db = true -> faults db = [] ->
  exists k msg db' added,
    insert_new_records df entity db = (Ok (k, msg), db')
    /\ filter (of_entity entity) (table_rows REGULATIONS_TABLE db')
       = filter (of_entity entity) (table_rows REGULATIONS_TABLE db) ++ added
    /\ Z.of_nat (List.length added) = k
    /\ NoDup (List.map key_triple added)
    /\ forall t, exists more, table_rows t db' = table_rows t db ++ more.
Proof.
  intros Hc Hf.
  destruct (granted_run df entity db Hc Hf) as (k & msg & db' & E & _ & _ & Hcase).
  exists k, msg, db'.
  destruct Hcase as [(-> & T & _)|(p & stored & comps & V & Hemp & -> & Hlen & Hcols & E5 & T)].
  - exists []. split; [exact E|]. rewrite app_nil_r.
    split; [now rewrite (@table_rows_tables _ _ _ T)|]. split; [reflexivity|].
    split; [constructor|]. intros t. exists []. now rewrite app_nil_r, (@table_rows_tables _ _ _ T).
  - exists stored. split; [exact E|].
    destruct (new_records_facts _ _ _ V) as (N & S & _ & P & _).
    assert (Hkeys : forall c, In c key_columns ->
                      List.map (row_get c) stored = List.map (row_get c) (rows (new_records p))).
    { intros c Hin. apply Hcols.
      - destruct Hin as [<-|[<-|[<-|[]]]]; reflexivity.
      - destruct Hin as [<-|[<-|[<-|[]]]]; reflexivity.
      - destruct Hin as [<-|[<-|[<-|[]]]]; reflexivity.
      - intros r Hr. apply str_keys_not_null; [|exact Hin]. apply P. now apply S. }
    assert (Hent : List.map (row_get (lit "entity")) stored
                   = List.map (row_get (lit "entity")) (rows (new_records p))).
    { apply Hcols; try reflexivity.
      intros r Hr. apply of_entity_not_null with (entity := entity). apply P. now apply S. }
    assert (Hall : forall s, In s stored -> of_entity entity s = true).
    { intros s Hs.
      assert (In (row_get (lit "entity") s) (List.map (row_get (lit "entity")) stored)) as Hin
        by now apply in_map.
      rewrite Hent in Hin. apply in_map_iff in Hin as (r & Hr & Hin).
      unfold of_entity. rewrite <- Hr. apply P. now apply S. }
    assert (Hno : filter (of_entity entity) comps = []).
    { clear - E5. induction comps as [|c comps IH]; [reflexivity|].
      cbn [filter]. rewrite (E5 c entity (or_introl eq_refl)).
      apply IH. intros r e Hr. apply E5. now right. }
    split; [|split; [|split]].
    + rewrite T, eqb_refl, !filter_app, (filter_id _ _ Hall).
      destruct (eqb REGULATIONS_COMPONENT_TABLE REGULATIONS_TABLE); [rewrite Hno|];
        now rewrite app_nil_r.
    + unfold df_len. now rewrite Hlen.
    + now rewrite (key_triples_of_columns _ _ Hkeys).
    + intros t. rewrite T, <- app_assoc. eauto.
Qed.

(** Writing a batch a second time inserts nothing: when the server
    grants every call, the run that follows a run on the same batch
    returns 0 and leaves every table as the first run left it. *)
Theorem second_run_inserts_nothing (df : DataFrame) (entity : str) (db : database) :
  connected db = true -> faults db = [] ->
  exists msg,
    fst (insert_new_records df entity (snd (insert_new_records df entity db))) = Ok (0%Z, msg)
    /\ tables (snd (insert_new_records df entity (snd (insert_new_records df entity db))))
       = tables (snd (insert_new_records df entity db)).
Proof.
  intros Hc Hf.
  destruct (granted_run df entity db Hc Hf) as (k & msg & db1 & E1 & Hc1 & Hf1 & Hcase).
  rewrite E1. cbn [snd].
  destruct (granted_run df entity db1 Hc1 Hf1) as (k2 & msg2 & db2 & E2 & _ & _ & Hcase2).
  rewrite E2. cbn [fst snd]. exists msg2.
  destruct Hcase2 as [(-> & T2 & _)|(p2 & stored2 & comps2 & V2 & Hemp2 & _)]; [now split|].
  exfalso.
  destruct (new_records_facts _ _ _ V2) as (_ & S2 & _ & _ & _ & K2 & D2).
  destruct (rows (new_records p2)) as [|r2 rest] eqn:R2.
  { unfold empty in Hemp2. rewrite R2 in Hemp2. discriminate. }
  destruct (S2 r2 (or_introl eq_refl)) as [Hin2 Hnot]. apply Hnot. rewrite D2. clear Hnot.
  destruct Hcase as [(_ & T & Hnone)|(p & stored & comps & V & _ & _ & Hlen & Hcols & _ & T)].
  { (* the first run stored nothing *)
    assert (A : answer (SelectExisting REGULATIONS_TABLE entity) db1
                = answer (SelectExisting REGULATIONS_TABLE entity) db).
    { cbn [answer]. now rewrite (@table_rows_tables _ _ _ T). }
    rewrite A in V2. rewrite (Hnone _ V2) in Hemp2. discriminate. }
  destruct (new_records_facts _ _ _ V) as (_ & S & C & P & _ & K & D).
  assert (Hr1 : exists r1, In r1 (rows (p_entity_df p)) /\ key_triple r1 = key_triple r2).
  { assert (In (key_triple r2) (List.map key_triple (rows (p_entity_df p)))) as Hin.
    { rewrite K, <- K2. now apply in_map. }
    apply in_map_iff in Hin as (r1 & E & Hr1). eauto. }
  destruct Hr1 as (r1 & Hr1 & Ek).
  rewrite <- (@unique_key_of_triple _ _ Ek).
  assert (Hold : forall s, In s (table_rows REGULATIONS_TABLE db)
                           -> In s (table_rows REGULATIONS_TABLE db1)).
  { intros s Hs. rewrite T. apply in_or_app. left. apply in_or_app. now left. }
  destruct (C r1 Hr1) as [Hdup|Hnew].
  - rewrite D in Hdup. exact (@persisted_key_kept _ _ _ _ _ Hold Hdup).
  - apply in_map_iff in Hnew as (r' & Ek' & Hr').
    destruct (P r' (proj1 (S r' Hr'))) as (Hstr & Hen & x & Hx).
    destruct (@aligned_rows [lit "title"; lit "created_at"; lit "external_link"; lit "entity"]
                (rows (new_records p)) stored Hlen) with (r := r') as (s & Hs & Es);
      [|exact Hr'|].
    { intros c Hin. apply Hcols.
      - destruct Hin as [<-|[<-|[<-|[<-|[]]]]]; reflexivity.
      - destruct Hin as [<-|[<-|[<-|[<-|[]]]]]; reflexivity.
      - destruct Hin as [<-|[<-|[<-|[<-|[]]]]]; reflexivity.
      - intros r Hr. destruct (P r (proj1 (S r Hr))) as (Hstr' & Hen' & _).
        destruct Hin as [<-|[<-|[<-|[<-|[]]]]].
        + apply str_keys_not_null; [exact Hstr'|now left].
        + apply str_keys_not_null; [exact Hstr'|right; now left].
        + apply str_keys_not_null; [exact Hstr'|right; right; now left].
        + exact (of_entity_not_null _ _ Hen'). }
    assert (E1t : row_get (lit "title") s = row_get (lit "title") r')
      by (apply Es; now left).
    assert (E1c : row_get (lit "created_at") s = row_get (lit "created_at") r')
      by (apply Es; right; now left).
    assert (E1l : row_get (lit "external_link") s = row_get (lit "external_link") r')
      by (apply Es; right; right; now left).
    assert (E1e : row_get (lit "entity") s = row_get (lit "entity") r')
      by (apply Es; right; right; right; now left).
    assert (Eks : key_triple s = key_triple r').
    { unfold key_triple. now rewrite E1t, E1c, E1l. }
    rewrite <- (@unique_key_of_triple _ _ Ek'), <- (@unique_key_of_triple _ _ Eks).
    apply persisted_in_answer.
    + rewrite T, eqb_refl. apply in_or_app. left. apply in_or_app. now right.
    + unfold of_entity in *. now rewrite E1e.
    + unfold str_keys in *. now rewrite E1t, E1c, E1l.
    + exists x. now rewrite E1t.
Qed.

(** A failing query of the new ids hides an insert: when the query of
    the existing records and the bulk insert are granted and the query
    that follows fails, the new records stay in the regulations table,
    and yet the run returns no count other than 0. *)
Theorem committed_rows_survive_a_failed_id_query (df : DataFrame) (entity : str)
    (db : database) (p : partition) (exc : str) (rest : list (option str)) :
  connected db = true -> faults db = None :: None :: Some exc :: rest ->
  validate_duplicates (answer (SelectExisting REGULATIONS_TABLE entity) db) df entity
  = Ok (Some p) ->
  empty (new_records p) = false ->
  (forall k msg, fst (insert_new_records df entity db) = Ok (k, msg) -> k = 0%Z)
  /\ exists added,
       table_rows REGULATIONS_TABLE (snd (insert_new_records df entity db))
       = table_rows REGULATIONS_TABLE db ++ added
       /\ List.length added = List.length (rows (new_records p))
       /\ added <> [].
Proof.
  intros Hc Hf V Hemp.
  assert (Ha0 : next_answer db = None) by (unfold next_answer; now rewrite Hf).
  pose proof (insert_new_records_eval df entity db Hc Ha0) as E. cbv zeta in E.
  rewrite V, Hemp in E.
  set (db1 := advance CallExecute db) in *.
  set (nr := fold_left _ _ (new_records p)) in *.
  destruct (helper_columns_dropped (new_records p)) as [Hlen _]. fold nr in Hlen.
  assert (Ha1 : next_answer db1 = None).
  { subst db1. unfold next_answer, advance. cbn [faults]. now rewrite Hf. }
  rewrite Ha1 in E.
  set (db3 := committed REGULATIONS_TABLE (rows nr) _) in *.
  assert (Hne : rows (new_records p) <> []).
  { unfold empty in Hemp. destruct (rows (new_records p)); [discriminate|discriminate]. }
  assert (Hz : (df_len nr =? 0)%Z = false).
  { apply Z.eqb_neq. unfold df_len. rewrite Hlen.
    destruct (rows (new_records p)); [now contradiction Hne|]. cbn [List.length]. lia. }
  rewrite Hz in E.
  assert (Ha3 : next_answer db3 = Some exc).
  { subst db3. rewrite next_answer_committed. subst db1.
    unfold next_answer, advance. cbn [faults]. now rewrite Hf. }
  rewrite Ha3 in E. rewrite E. split.
  - intros k msg H. now apply on_error_count in H.
  - exists (fst (stored_rows (next_id (advance (CallExecutemany REGULATIONS_TABLE (df_len nr))
                                               db1)) (rows nr))).
    assert (T : tables (snd (on_error entity exc (advance CallExecute db3))) = tables db3).
    { rewrite on_error_run. cbv zeta.
      destruct (connected (advance CallExecute db3));
        [destruct (next_answer (advance CallExecute db3))|]; reflexivity. }
    rewrite (@table_rows_tables _ _ _ T). subst db3.
    rewrite table_rows_committed, eqb_refl. split; [reflexivity|].
    rewrite stored_rows_length, Hlen. split; [reflexivity|].
    intros H. apply (f_equal (@List.length _)) in H.
    rewrite stored_rows_length, Hlen in H.
    destruct (rows (new_records p)); [now contradiction Hne|discriminate].
Qed.

(** The insertion of the components never raises: it returns the
    number of rows it added to the components table, one for every id
    and in their order, each with component 7, or 0 when it added none. *)
Theorem insert_regulations_component_never_raises (new_ids : list Z) (db : database) :
  exists k msg db' added,
    insert_regulations_component new_ids db = (Ok (k, msg), db')
    /\ (forall t, table_rows t db'
                  = table_rows t db
                    ++ (if eqb REGULATIONS_COMPONENT_TABLE t then added else []))
    /\ k = Z.of_nat (List.length added)
    /\ (added = []
        \/ List.map (fun r => (row_get (lit "regulations_id") r,
                               row_get (lit "components_id") r)) added
           = List.map (fun i => (VInt i, VInt 7)) new_ids).
Proof.
  assert (Same : forall t (d : database),
            table_rows t d
            = table_rows t d ++ (if eqb REGULATIONS_COMPONENT_TABLE t then [] else [])).
  { intros t d. destruct (eqb _ t); now rewrite app_nil_r. }
  unfold insert_regulations_component. destruct new_ids as [|i ids].
  { exists 0%Z, (lit "No new regulation IDs provided"), db, [].
    split; [reflexivity|]. split; [intros t; exact (Same t db)|].
    split; [reflexivity|now left]. }
  unfold try_except, bind, ret. cbv beta iota zeta.
  rewrite bulk_insert_run. cbv zeta.
  set (id_rows := {| columns := _; rows := _ |}).
  destruct (connected db) eqn:Hc.
  - destruct (next_answer db) as [e|] eqn:Ha.
    + destruct (next_answer (advance _ db)) eqn:Ha2; do 3 eexists; exists [];
        (split; [reflexivity|]); (split; [intros t; exact (Same t db)|]);
        (split; [reflexivity|now left]).
    + do 3 eexists.
      exists (fst (stored_rows (next_id (advance (CallExecutemany REGULATIONS_COMPONENT_TABLE
                                                   (df_len id_rows)) db))
                              (rows id_rows))).
      split; [reflexivity|]. split; [intros t; now rewrite table_rows_committed|].
      split; [unfold df_len; now rewrite stored_rows_length|]. right.
      set (n := next_id _).
      assert (R : forall c, eqb (lit "id") c = false ->
                  (forall r, In r (rows id_rows) -> is_null (row_get c r) = false) ->
                  List.map (row_get c) (fst (stored_rows n (rows id_rows)))
                  = List.map (row_get c) (rows id_rows))
        by (intros c; apply stored_rows_column).
      pose proof (R (lit "regulations_id") eq_refl) as R1.
      pose proof (R (lit "components_id") eq_refl) as R2.
      assert (N : forall r, In r (rows id_rows) ->
                    exists z, r = [(lit "regulations_id", VInt z); (lit "components_id", VInt 7)]).
      { intros r Hr. subst id_rows. cbn [rows] in Hr.
        apply in_map_iff in Hr as (z & <- & _). eauto. }
      specialize (R1 ltac:(intros r Hr; destruct (N r Hr) as [z ->]; reflexivity)).
      specialize (R2 ltac:(intros r Hr; destruct (N r Hr) as [z ->]; reflexivity)).
      assert (Z1 : List.map (row_get (lit "regulations_id")) (rows id_rows)
                   = List.map VInt (i :: ids)).
      { subst id_rows. cbn [rows]. rewrite map_map. reflexivity. }
      assert (Z2 : List.map (row_get (lit "components_id")) (rows id_rows)
                   = List.map (fun _ => VInt 7) (i :: ids)).
      { subst id_rows. cbn [rows]. rewrite map_map. reflexivity. }
      rewrite Z1 in R1. rewrite Z2 in R2. clear - R1 R2.
      revert R1 R2. generalize (i :: ids) as l.
      generalize (fst (stored_rows n (rows id_rows))) as ss.
      induction ss as [|s ss IH]; intros [|z l] R1 R2; try discriminate; [reflexivity|].
      cbn [List.map] in *. injection R1 as -> R1. injection R2 as -> R2.
      f_equal. now apply IH.
  - do 3 eexists. exists []. split; [reflexivity|].
    split; [intros t; exact (Same t db)|]. split; [reflexivity|now left].
Qed.

End WriterTheorems.

(** ** The latest persisted date *)

Section AccessorFacts.

Import extraccion escritura.

Context {env : Environ}.

Lemma strptime_naive (data fmt : str) (d : datetime) :
  strptime data fmt = Some d -> tzinfo d = None.
Proof.
  unfold strptime, datetime_of_captures. destruct (compile_format fmt); [|discriminate].
  destruct (match_items _ data) as [[caps [|c rest]]|]; try discriminate.
  destruct (_ && _)%bool; [|discriminate]. intros H. injection H as <-. reflexivity.
Qed.

Lemma normalize_datetime_naive (o : option datetime) (d : datetime) :
  normalize_datetime o = Some d -> tzinfo d = None.
Proof.
  destruct o as [x|]; [|discriminate]. unfold normalize_datetime.
  destruct (tzinfo x) eqn:E; intros H; injection H as <-; [reflexivity|exact E].
Qed.

Lemma parse_web_date_naive (s : str) (d : datetime) :
  parse_web_date s = Some d -> tzinfo d = None.
Proof.
  unfold parse_web_date. destruct (strptime s fmt_datetime) eqn:E1.
  - intros H. injection H as <-. exact (strptime_naive _ _ E1).
  - destruct (split s) as [|first rest]; [discriminate|]. apply strptime_naive.
Qed.

(** [MAX] answers [NULL] when every value is null, and one of the
    values that are not null otherwise. *)
Lemma sql_max_facts (vs : list value) :
  (sql_max vs = VNone /\ forall v, In v vs -> is_null v = true)
  \/ (In (sql_max vs) vs /\ is_null (sql_max vs) = false).
Proof.
  unfold sql_max.
  set (f := fun acc v => if is_null v then acc
                         else if is_null acc then v
                         else if value_ltb acc v then v else acc).
  assert (G : forall vs acc,
            (is_null acc = true /\ fold_left f vs acc = acc
             /\ forall v, In v vs -> is_null v = true)
            \/ (is_null (fold_left f vs acc) = false
                /\ (fold_left f vs acc = acc \/ In (fold_left f vs acc) vs))).
  { clear vs. induction vs as [|v vs IH]; intros acc.
    - cbn [fold_left]. destruct (is_null acc) eqn:E.
      + left. split; [reflexivity|]. split; [reflexivity|intros v []].
      + right. split; [reflexivity|now left].
    - cbn [fold_left]. destruct (is_null v) eqn:Ev.
      + replace (f acc v) with acc by (unfold f; now rewrite Ev).
        destruct (IH acc) as [(Ha & Hr & Hall)|(Hn & Hr)].
        * left. split; [exact Ha|]. split; [exact Hr|].
          intros v' [<-|Hv']; [exact Ev|now apply Hall].
        * right. split; [exact Hn|]. destruct Hr as [Hr|Hr]; [now left|right; now right].
      + assert (Hf : is_null (f acc v) = false /\ (f acc v = v \/ f acc v = acc)).
        { unfold f. rewrite Ev. destruct (is_null acc) eqn:Ea; [split; [exact Ev|now left]|].
          destruct (value_ltb acc v); [split; [exact Ev|now left]|split; [exact Ea|now right]]. }
        destruct Hf as [Hn Hf].
        destruct (IH (f acc v)) as [(Ha & _)|(Hn' & Hr)]; [congruence|].
        right. split; [exact Hn'|].
        destruct Hr as [Hr|Hr]; [|right; now right].
        rewrite Hr. destruct Hf as [->| ->]; [right; now left|now left]. }
  destruct (G vs VNone) as [(_ & Hr & Hall)|(Hn & [Hr|Hr])].
  - left. split; assumption.
  - rewrite Hr in Hn. discriminate.
  - right. split; assumption.
Qed.

(** A date that the accessor returns is naive and is the date of a
    persisted record of the entity: a text that the probe's parser
    reads to it, or a [datetime] with its zone taken off.  The accessor
    leaves the tables as they are. *)
Theorem latest_created_at_comes_from_a_record (entity : str) (db db' : database)
    (d : datetime) :
  fetch_latest_created_at entity db = (Ok (Some d), db') ->
  tzinfo d = None
  /\ tables db' = tables db
  /\ exists r, In r (table_rows REGULATIONS_TABLE db) /\ of_entity entity r = true
       /\ ((exists s, row_get (lit "created_at") r = VStr s /\ parse_web_date s = Some d)
           \/ (exists dt, row_get (lit "created_at") r = VDatetime dt
                          /\ normalize_datetime (Some dt) = Some d)).
Proof.
  unfold fetch_latest_created_at, bind. rewrite execute_query_run.
  destruct (connected db); [|discriminate].
  destruct (next_answer db); [discriminate|]. cbn [answer].
  set (vs := List.map (row_get (lit "created_at"))
                      (filter (of_entity entity) (table_rows REGULATIONS_TABLE db))).
  assert (Hrec : forall v, In v vs ->
            exists r, In r (table_rows REGULATIONS_TABLE db) /\ of_entity entity r = true
                      /\ row_get (lit "created_at") r = v).
  { intros v Hv. apply in_map_iff in Hv as (r & E & Hr). apply filter_In in Hr as [Hr He].
    exists r. repeat split; assumption. }
  destruct (sql_max_facts vs) as [[-> _]|[Hin _]]; [discriminate|].
  destruct (Hrec _ Hin) as (r & Hr & He & Ev).
  destruct (sql_max vs) as [| | | | |s|dt]; try discriminate.
  - destruct (is_empty s); [discriminate|]. unfold ret. intros H. injection H as H <-.
    change (parse_web_date s = Some d) in H.
    split; [exact (@parse_web_date_naive s d H)|]. split; [reflexivity|].
    exists r. split; [exact Hr|]. split; [exact He|]. left.
    exists s. split; [exact Ev|exact H].
  - unfold ret. intros H. injection H as H <-.
    split; [exact (@normalize_datetime_naive (Some dt) d H)|]. split; [reflexivity|].
    exists r. split; [exact Hr|]. split; [exact He|]. right.
    exists dt. split; [exact Ev|exact H].
Qed.

(** On a store that holds no dated record of the entity the accessor
    answers [None]. *)
Theorem latest_created_at_of_no_record (entity : str) (db : database) :
  connected db = true -> next_answer db = None ->
  (forall r, In r (table_rows REGULATIONS_TABLE db) -> of_entity entity r = true ->
     is_null (row_get (lit "created_at") r) = true) ->
  fetch_latest_created_at entity db = (Ok None, advance CallExecute db).
Proof.
  intros Hc Ha Hall. unfold fetch_latest_created_at, bind. rewrite execute_query_run, Hc, Ha.
  cbn [answer].
  destruct (sql_max_facts (List.map (row_get (lit "created_at"))
                             (filter (of_entity entity) (table_rows REGULATIONS_TABLE db))))
    as [[-> _]|[Hin Hn]]; [reflexivity|].
  apply in_map_iff in Hin as (r & E & Hr). apply filter_In in Hr as [Hr He].
  rewrite <- E, (Hall r Hr He) in Hn. discriminate.
Qed.

End AccessorFacts.

(** ** The counts of the entry point *)

Section EntryPoint.

Import extraccion validacion escritura lambda.

Context {rt : PyRuntime} {env : Environ}.

Lemma fetch_latest_tables (db : database) :
  tables (snd (_fetch_latest_created_at db)) = tables db.
Proof.
  unfold _fetch_latest_created_at. rewrite with_manager_run.
  destruct (next_answer db); [reflexivity|].
  set (db1 := with_connection true (advance CallConnect db)).
  unfold fetch_latest_created_at, bind. rewrite execute_query_run.
  change (connected db1) with true. cbv iota.
  destruct (next_answer db1); [reflexivity|].
  destruct (answer _ db1) as [|[|[] ?] ?]; try reflexivity.
  destruct (is_empty s); reflexivity.
Qed.

Lemma apply_validation_length (df : DataFrame) (rules_fields : validaciones.rules)
    (out : DataFrame) (st : stats) :
  apply_validation df rules_fields = Ok (out, st) -> (0 <= df_len out <= df_len df)%Z.
Proof.
  unfold apply_validation. destruct (empty df).
  { intros H. injection H as <- _. unfold df_len. lia. }
  destruct (fields_loop (df, [], []) rules_fields) as [[[df_clean ic] req]|e] eqn:E;
    [|discriminate].
  destruct (fields_loop_facts _ _ _ _ E) as (L & _).
  destruct (required_rows req df_clean) as [R _].
  intros H. injection H as <- _. unfold df_len. rewrite R.
  pose proof (filter_length_le (fun r => forallb (fun f => negb (is_null (row_get f r))) req)
                (rows df_clean)).
  lia.
Qed.

Lemma with_manager_count (df : DataFrame) (entity : str) (db db' : database)
    (k : Z) (msg : str) :
  with_manager (insert_new_records df entity) db = (Ok (k, msg), db') ->
  (0 <= k <= df_len df)%Z.
Proof.
  rewrite with_manager_run. destruct (next_answer db); [discriminate|].
  destruct (insert_new_records df entity _) as [r db2] eqn:E.
  intros H. injection H as -> _.
  pose proof (@writer_count_bounds _ df entity
                (with_connection true (advance CallConnect db)) k msg) as B.
  rewrite E in B.
  specialize (B eq_refl).
  pose proof (filter_length_le (of_entity entity) (rows df)). unfold df_len. lia.
Qed.

Ltac other_key H :=
  exfalso; apply (f_equal fst) in H; cbn [fst] in H; apply eqb_eq in H;
  vm_compute in H; discriminate H.

Ltac body_entry H :=
  cbn [body In] in H;
  repeat (destruct H as [H|H]; [try other_key H|]); try contradiction.

(** The counts of a response are ordered: the records inserted are at
    most the records validated, and these at most the records scraped;
    none is negative. *)
Theorem response_counts_are_ordered (w : web) (rules_file : option validaciones.rules)
    (event : option event) (db db' : database) (resp : response) (k s : Z) :
  lambda_handler w rules_file event db = (resp, db') ->
  In (lit "records_inserted", JInt k) (body resp) ->
  In (lit "records_scraped", JInt s) (body resp) ->
  (0 <= k <= s)%Z
  /\ forall v, In (lit "records_validated", JInt v) (body resp) -> (k <= v <= s)%Z.
Proof.
  intros Hrun. unfold lambda_handler in Hrun.
  destruct (lambda_handler_body w rules_file event db) as [[r|exc] db0] eqn:Hbody;
    injection Hrun as <- <-.
  2:{ intros H. body_entry H. }
  revert Hbody. unfold lambda_handler_body, bind.
  set (num_pages := Z.max _ 1).
  set (force := match event with Some e => _ | None => false end).
  match goal with
  | |- context [match ?probe db with _ => _ end] => destruct (probe db) as [[has_new|e] dbA]
  end; [|discriminate].
  destruct (negb has_new).
  { unfold ret. intros H. injection H as <- _. intros Hk Hs.
    body_entry Hk. body_entry Hs. injection Hk as <-. injection Hs as <-.
    split; [lia|]. intros v Hv. body_entry Hv. }
  cbv zeta.
  destruct (scrape_recent_pages w 0 (num_pages - 1)) as [|norma normas].
  { unfold ret. intros H. injection H as <- _. intros Hk Hs.
    body_entry Hk. body_entry Hs. injection Hk as <-. injection Hs as <-.
    split; [lia|]. intros v Hv. body_entry Hv. }
  set (df_normas := DataFrame_of_normas (norma :: normas)).
  unfold lift.
  destruct (apply_validation df_normas (validaciones.load_rules rules_file))
    as [[validated_df stats]|e] eqn:V; [|discriminate].
  pose proof (apply_validation_length _ _ V) as HV.
  cbn [fst].
  destruct (empty validated_df) eqn:Hemp.
  { unfold ret. intros H. injection H as <- _. intros Hk Hs.
    body_entry Hk. body_entry Hs. injection Hk as <-. injection Hs as <-.
    split; [lia|]. intros v Hv. body_entry Hv. injection Hv as <-. lia. }
  destruct (with_manager (insert_new_records validated_df escritura.ENTITY_VALUE) dbA)
    as [[[inserted_count status_message]|e] dbW] eqn:W; [|discriminate].
  pose proof (with_manager_count _ _ _ W) as HW.
  unfold ret. intros H. injection H as <- _. intros Hk Hs.
  body_entry Hk. body_entry Hs. injection Hk as <-. injection Hs as <-.
  split; [lia|]. intros v Hv. body_entry Hv. injection Hv as <-. lia.
Qed.

(** A response that reports no new content comes from a run that left
    every table as it was: it scraped nothing and inserted nothing. *)
Theorem no_new_content_leaves_the_store (w : web) (rules_file : option validaciones.rules)
    (event : option event) (db db' : database) (resp : response) :
  lambda_handler w rules_file event db = (resp, db') ->
  In (lit "content_check", JStr (lit "no_new_content")) (body resp) ->
  tables db' = tables db
  /\ statusCode resp = 200%Z
  /\ In (lit "records_scraped", JInt 0) (body resp)
  /\ In (lit "records_inserted", JInt 0) (body resp)
  /\ match event with
     | Some e => force_scrape e = None \/ force_scrape e = Some false
     | None => True
     end.
Proof.
  intros Hrun. unfold lambda_handler in Hrun.
  destruct (lambda_handler_body w rules_file event db) as [[r|exc] db0] eqn:Hbody;
    injection Hrun as <- <-.
  2:{ intros H. body_entry H. }
  revert Hbody. unfold lambda_handler_body, bind.
  set (num_pages := Z.max _ 1).
  set (force := match event with Some e => _ | None => false end).
  destruct (negb force) eqn:Hforce.
  - pose proof (fetch_latest_tables db) as T.
    destruct (_fetch_latest_created_at db) as [latest dbA]. cbn [snd] in T.
    destruct (negb (check_for_new_content w (fun _ => latest) (Z.min 3 num_pages))).
    + unfold ret. intros H. injection H as <- <-. intros _.
      split; [exact T|]. split; [reflexivity|].
      split; [cbn [body In]; tauto|]. split; [cbn [body In]; tauto|].
      subst force. destruct event as [e|]; [|exact I].
      destruct (force_scrape e) as [[|]|]; [discriminate|now right|now left].
    + cbv zeta.
      destruct (scrape_recent_pages w 0 (num_pages - 1)) as [|norma normas].
      { unfold ret. intros H. injection H as <- _. intros Hk. body_entry Hk. }
      unfold lift.
      destruct (apply_validation _ _) as [[validated_df stats]|e]; [|discriminate].
      cbn [fst]. destruct (empty validated_df).
      { unfold ret. intros H. injection H as <- _. intros Hk. body_entry Hk. }
      destruct (with_manager _ dbA) as [[[inserted_count status_message]|e] dbW];
        [|discriminate].
      unfold ret. intros H. injection H as <- _. intros Hk. body_entry Hk.
      injection Hk as Hk. vm_compute in Hk. discriminate Hk.
  - unfold ret at 1. cbn [negb]. cbv zeta.
    destruct (scrape_recent_pages w 0 (num_pages - 1)) as [|norma normas].
    { unfold ret. intros H. injection H as <- _. intros Hk. body_entry Hk. }
    unfold lift.
    destruct (apply_validation _ _) as [[validated_df stats]|e]; [|discriminate].
    cbn [fst]. destruct (empty validated_df).
    { unfold ret. intros H. injection H as <- _. intros Hk. body_entry Hk. }
    destruct (with_manager _ db) as [[[inserted_count status_message]|e] dbW];
      [|discriminate].
    unfold ret. intros H. injection H as <- _. intros Hk. body_entry Hk.
    injection Hk as Hk. vm_compute in Hk. discriminate Hk.
Qed.

End EntryPoint.

(** ** Runs on the sample data *)

Section WriterExamples.

Import extraccion validacion escritura lambda samples.

(** The sample batch against the sample store: of the three records
    one is persisted and the two others share a triple. *)
Lemma new_records_are_distinct_witness :
  validate_duplicates sample_existing sample_batch E = Ok (Some sample_partition)
  /\ List.length (rows (new_records sample_partition)) = 1%nat
  /\ NoDup (List.map key_triple (rows (new_records sample_partition)))
  /\ (forall r, In r (rows (new_records sample_partition)) ->
        In r (rows (p_entity_df sample_partition))
        /\ ~ In (unique_key r) (List.map unique_key (rows (p_db_df sample_partition))))
  /\ (forall r, In r (rows (p_entity_df sample_partition)) ->
        In (unique_key r) (List.map unique_key (rows (p_db_df sample_partition)))
        \/ In (key_triple r) (List.map key_triple (rows (new_records sample_partition)))).
Proof.
  assert (H : validate_duplicates sample_existing sample_batch E = Ok (Some sample_partition))
    by (vm_compute; reflexivity).
  split; [exact H|]. split; [vm_compute; reflexivity|].
  exact (@new_records_are_distinct sample_existing sample_batch E sample_partition H).
Defined.

(** The writer on the sample batch and the sample store returns 1; the
    batch has three records of the entity. *)
Lemma reported_count_is_bounded_witness :
  fst (@insert_new_records default_environ sample_batch E sample_db)
  = Ok (1%Z, lit "Entity " ++ E ++ lit ": Processed: 3 | Existing: 1 | "
             ++ lit "Duplicates skipped: 2 | New inserted: 1. "
             ++ lit "Successfully inserted 1 regulation components")
  /\ (0 <= 1 <= Z.of_nat (List.length (filter (of_entity E) (rows sample_batch))))%Z.
Proof.
  assert (H : fst (@insert_new_records default_environ sample_batch E sample_db)
              = Ok (1%Z, lit "Entity " ++ E ++ lit ": Processed: 3 | Existing: 1 | "
                         ++ lit "Duplicates skipped: 2 | New inserted: 1. "
                         ++ lit "Successfully inserted 1 regulation components"))
    by (vm_compute; reflexivity).
  split; [exact H|].
  exact (@reported_count_is_bounded default_environ sample_batch E sample_db 1%Z _ H).
Defined.

Lemma granted_run_adds_reported_rows_witness :
  connected sample_db = true /\ faults sample_db = []
  /\ exists k msg db' added,
       @insert_new_records default_environ sample_batch E sample_db = (Ok (k, msg), db')
       /\ filter (of_entity E) (table_rows (@REGULATIONS_TABLE default_environ) db')
          = filter (of_entity E) (table_rows (@REGULATIONS_TABLE default_environ) sample_db)
            ++ added
       /\ Z.of_nat (List.length added) = k
       /\ NoDup (List.map key_triple added)
       /\ forall t, exists more, table_rows t db' = table_rows t sample_db ++ more.
Proof.
  split; [reflexivity|]. split; [reflexivity|].
  exact (@granted_run_adds_reported_rows default_environ sample_batch E sample_db
           eq_refl eq_refl).
Defined.

(** The sample batch written twice: the first run stores one record,
    the second none. *)
Lemma second_run_inserts_nothing_witness :
  connected sample_db = true /\ faults sample_db = []
  /\ List.length (table_rows (lit "regulations")
                    (snd (@insert_new_records default_environ sample_batch E sample_db)))
     = 2%nat
  /\ exists msg,
       fst (@insert_new_records default_environ sample_batch E
              (snd (@insert_new_records default_environ sample_batch E sample_db)))
       = Ok (0%Z, msg)
       /\ tables (snd (@insert_new_records default_environ sample_batch E
                         (snd (@insert_new_records default_environ sample_batch E sample_db))))
          = tables (snd (@insert_new_records default_environ sample_batch E sample_db)).
Proof.
  split; [reflexivity|]. split; [reflexivity|]. split; [vm_compute; reflexivity|].
  exact (@second_run_inserts_nothing default_environ sample_batch E sample_db
           eq_refl eq_refl).
Defined.

(** The sample batch on a store that refuses the query of the new
    ids: the run returns 0 and the store has one record more. *)
Lemma committed_rows_survive_a_failed_id_query_witness :
  fst (@insert_new_records default_environ sample_batch E ids_refusing_db)
  = Ok (0%Z, lit "Error processing entity " ++ E
             ++ lit ": server closed the connection unexpectedly")
  /\ (forall k msg,
        fst (@insert_new_records default_environ sample_batch E ids_refusing_db) = Ok (k, msg) ->
        k = 0%Z)
  /\ exists added,
       table_rows (@REGULATIONS_TABLE default_environ)
                  (snd (@insert_new_records default_environ sample_batch E ids_refusing_db))
       = table_rows (@REGULATIONS_TABLE default_environ) ids_refusing_db ++ added
       /\ List.length added = List.length (rows (new_records sample_partition))
       /\ added <> [].
Proof.
  split; [vm_compute; reflexivity|].
  apply (@committed_rows_survive_a_failed_id_query default_environ sample_batch E
           ids_refusing_db sample_partition
           (lit "server closed the connection unexpectedly") [None]).
  - reflexivity.
  - reflexivity.
  - vm_compute. reflexivity.
  - vm_compute. reflexivity.
Defined.

(** The sample store holds one record, of 2024-01-01. *)
Lemma latest_created_at_comes_from_a_record_witness :
  @fetch_latest_created_at default_environ E sample_db
  = (Ok (Some (mk_datetime 2024 1 1 0 0 0 0 None)), advance CallExecute sample_db)
  /\ exists r, In r (table_rows (@REGULATIONS_TABLE default_environ) sample_db)
       /\ of_entity E r = true
       /\ ((exists s, row_get (lit "created_at") r = VStr s
                      /\ parse_web_date s = Some (mk_datetime 2024 1 1 0 0 0 0 None))
           \/ (exists dt, row_get (lit "created_at") r = VDatetime dt
                          /\ normalize_datetime (Some dt)
                             = Some (mk_datetime 2024 1 1 0 0 0 0 None))).
Proof.
  assert (H : @fetch_latest_created_at default_environ E sample_db
              = (Ok (Some (mk_datetime 2024 1 1 0 0 0 0 None)), advance CallExecute sample_db))
    by (vm_compute; reflexivity).
  split; [exact H|].
  exact (proj2 (proj2 (@latest_created_at_comes_from_a_record default_environ E sample_db
                         _ _ H))).
Defined.

Lemma latest_created_at_of_no_record_witness :
  @fetch_latest_created_at default_environ E (database_of [] [])
  = (Ok None, advance CallExecute (database_of [] [])).
Proof.
  apply (@latest_created_at_of_no_record default_environ E (database_of [] [])).
  - reflexivity.
  - reflexivity.
  - intros r [].
Defined.

(** A forced scrape of the first page of [sample_web] on the empty
    store: two records scraped, one valid, one inserted. *)
Lemma response_counts_are_ordered_witness :
  In (lit "records_inserted", JInt 1) (body (fst forced_run))
  /\ In (lit "records_scraped", JInt 2) (body (fst forced_run))
  /\ In (lit "records_validated", JInt 1) (body (fst forced_run))
  /\ (0 <= 1 <= 2)%Z
  /\ forall v, In (lit "records_validated", JInt v) (body (fst forced_run)) -> (1 <= v <= 2)%Z.
Proof.
  assert (Hk : In (lit "records_inserted", JInt 1) (body (fst forced_run)))
    by (vm_compute; right; right; right; left; reflexivity).
  assert (Hs : In (lit "records_scraped", JInt 2) (body (fst forced_run)))
    by (vm_compute; right; left; reflexivity).
  assert (Hv : In (lit "records_validated", JInt 1) (body (fst forced_run)))
    by (vm_compute; right; right; left; reflexivity).
  assert (Hrun : @lambda_handler sample_runtime default_environ sample_web None
                   forced_event empty_store = (fst forced_run, snd forced_run))
    by (unfold forced_run; apply surjective_pairing).
  split; [exact Hk|]. split; [exact Hs|]. split; [exact Hv|].
  exact (@response_counts_are_ordered sample_runtime default_environ sample_web None
           forced_event empty_store (snd forced_run) (fst forced_run) 1%Z 2%Z
           Hrun Hk Hs).
Defined.

(** A probed run over [dead_web]: no page answers, nothing is new. *)
Lemma no_new_content_leaves_the_store_witness :
  In (lit "content_check", JStr (lit "no_new_content")) (body (fst quiet_run))
  /\ tables (snd quiet_run) = tables empty_store
  /\ statusCode (fst quiet_run) = 200%Z
  /\ In (lit "records_scraped", JInt 0) (body (fst quiet_run))
  /\ In (lit "records_inserted", JInt 0) (body (fst quiet_run)).
Proof.
  assert (H : In (lit "content_check", JStr (lit "no_new_content")) (body (fst quiet_run)))
    by (vm_compute; right; right; right; left; reflexivity).
  assert (Hrun : @lambda_handler sample_runtime default_environ dead_web None
                   None empty_store = (fst quiet_run, snd quiet_run))
    by (unfold quiet_run; apply surjective_pairing).
  split; [exact H|].
  destruct (@no_new_content_leaves_the_store sample_runtime default_environ dead_web None
              None empty_store (snd quiet_run) (fst quiet_run) Hrun H) as (T & S & A & B & _).
  split; [exact T|]. split; [exact S|]. split; [exact A|exact B].
Defined.

End WriterExamples.

(** ** The cells of a validated frame and their rules *)

Section ValidatorRules.

Import validaciones validacion.

Context {rt : PyRuntime}.

(** [series.where(mask, pd.NA)] for a mask computed cell by cell. *)
Lemma where_na_mask (g : str -> bool) (s : Series) :
  Forall2 (fun v v' =>
             v' = VNA
             \/ (v' = v /\ (fun x => g (py_str (if is_null x then VStr [] else x))) v = true))
          s (where_na s (List.map g (astype_str (fillna_empty s)))).
Proof.
  unfold where_na, astype_str, fillna_empty. induction s as [|v s IH]; [constructor|].
  cbn [List.map combine fst snd]. constructor; [|exact IH].
  destruct (g _); auto.
Qed.

Lemma Forall2_narrowed (Q : value -> Prop) (g : value -> bool) (s s' : Series) :
  Forall2 (fun v v' => v' = VNA \/ (v' = v /\ g v = true)) s s' ->
  Forall (fun v => v = VNA \/ Q v) s ->
  Forall (fun v' => v' = VNA \/ (Q v' /\ g v' = true)) s'.
Proof.
  induction 1 as [|v v' s s' Hv _ IH]; intros HQ; [constructor|].
  inversion HQ as [|? ? Hq HQ']; subst. constructor; [|now apply IH].
  destruct Hv as [->|[-> Hg]]; [now left|].
  destruct Hq as [->|Hq]; [now left|right; now split].
Qed.

(** One turn of the loop over the rules leaves, in the column of its
    field, [NA] or cells that match the pattern and are within the
    length of the rule. *)
Lemma field_step_rules (df : DataFrame) (ic : list (str * Z)) (req : list str)
    (field : str) (config : field_config) (df' : DataFrame) (ic' : list (str * Z))
    (req' : list str) :
  field_step (df, ic, req) field config = Ok (df', ic', req') ->
  Forall (fun v' =>
            v' = VNA
            \/ ((forall p regex, cfg_regex config = Some p -> p <> [] ->
                   re_compile p = Ok regex ->
                   regex (py_str (if is_null v' then VStr [] else v')) = true)
                /\ (forall n, cfg_max_length config = Some n ->
                      (len (py_str (if is_null v' then VStr [] else v')) <= n)%Z)))
         (column field df').
Proof.
  unfold field_step. destruct (has_column field df) eqn:Hcol; cbn [negb].
  2:{ intros H. injection H as <- _ _. unfold column.
      rewrite set_column_same by now rewrite length_map.
      apply Forall_forall. intros v Hv. apply in_map_iff in Hv as (r & <- & _). now left. }
  set (series := column field df).
  assert (Hlen : List.length series = List.length (rows df))
    by (subst series; unfold column; now rewrite length_map).
  destruct (type_step_cells config series) as (T1 & T2 & _).
  set (cm0 := type_step config series) in *.
  destruct (regex_step config (fst cm0)) as [mask_regex|e] eqn:Er; [|discriminate].
  destruct (@narrow_cells cm0 mask_regex) as (N1 & N2 & _).
  { now rewrite T1, T2. }
  { intros mask ->. now apply regex_step_length in Er. }
  set (cm1 := narrow cm0 mask_regex) in *.
  destruct (@narrow_cells cm1 (length_step config (fst cm1))) as (M1 & M2 & _).
  { now rewrite N1, N2. }
  { intros mask Hm. now apply length_step_length in Hm. }
  set (cm2 := narrow cm1 (length_step config (fst cm1))) in *.
  assert (Hlen2 : List.length (fst cm2) = List.length (rows df)) by lia.
  intros H. injection H as <- _ _. unfold column. rewrite (set_column_same _ _ _ Hlen2).
  set (Preg := fun v' : value =>
                 forall p regex, cfg_regex config = Some p -> p <> [] ->
                   re_compile p = Ok regex ->
                   regex (py_str (if is_null v' then VStr [] else v')) = true).
  assert (R1 : Forall (fun v => v = VNA \/ Preg v) (fst cm1)).
  { subst cm1. unfold regex_step in Er.
    destruct (cfg_regex config) as [p0|] eqn:Ep.
    2:{ injection Er as <-. cbn [narrow]. apply Forall_forall. intros v _. right.
        intros p regex Hp. discriminate. }
    destruct (is_empty p0) eqn:Ee.
    { injection Er as <-. cbn [narrow]. apply Forall_forall. intros v _. right.
      intros p regex Hp Hne. injection Hp as <-. destruct p0; [now contradiction Hne|discriminate]. }
    destruct (re_compile p0) as [regex0|] eqn:Ec; [|discriminate].
    injection Er as <-. cbn [narrow fst].
    pose proof (where_na_mask regex0 (fst cm0)) as W.
    apply Forall_forall. intros v' Hv'.
    destruct (Forall2_In_r v' W Hv') as (v & _ & [->|[-> Hg]]); [now left|right].
    intros p regex Hp _ Hc. injection Hp as <-. rewrite Ec in Hc. now injection Hc as <-. }
  subst cm2. unfold length_step. destruct (cfg_max_length config) as [n0|] eqn:En.
  2:{ cbn [narrow]. apply Forall_forall. intros v Hv. rewrite Forall_forall in R1.
      destruct (R1 v Hv) as [->|Hr]; [now left|right]. split; [exact Hr|]. discriminate. }
  cbn [narrow fst].
  pose proof (where_na_mask (fun t => (len t <=? n0)%Z) (fst cm1)) as W.
  pose proof (@Forall2_narrowed Preg _ _ _ W R1) as F.
  apply Forall_forall. intros v Hv. rewrite Forall_forall in F.
  destruct (F v Hv) as [->|[Hr Hl]]; [now left|right]. split; [exact Hr|].
  intros n Hn. injection Hn as <-. now apply Z.leb_le.
Qed.

Lemma fields_loop_rules (f : str) (cfg : field_config) (rules_fields : rules)
    (df : DataFrame) (ic : list (str * Z)) (req : list str) (df' : DataFrame)
    (ic' : list (str * Z)) (req' : list str) :
  fields_loop (df, ic, req) rules_fields = Ok (df', ic', req') ->
  NoDup (List.map fst rules_fields) ->
  In (f, cfg) rules_fields ->
  forall v', In v' (column f df') ->
    v' = VNA
    \/ ((forall p regex, cfg_regex cfg = Some p -> p <> [] -> re_compile p = Ok regex ->
           regex (py_str (if is_null v' then VStr [] else v')) = true)
        /\ (forall n, cfg_max_length cfg = Some n ->
              (len (py_str (if is_null v' then VStr [] else v')) <= n)%Z)).
Proof.
  revert df ic req. induction rules_fields as [|[field config] rest IH]; intros df ic req;
    [intros _ _ []|].
  cbn [fields_loop List.map fst].
  destruct (field_step (df, ic, req) field config) as [[[df1 ic1] req1]|e] eqn:E1;
    [|discriminate].
  intros H Hnd Hin v' Hv'. inversion Hnd as [|? ? Hnotin Hnd']; subst.
  destruct Hin as [Hin|Hin]; [|exact (IH _ _ _ H Hnd' Hin v' Hv')].
  injection Hin as -> ->.
  destruct (fields_loop_facts _ _ _ _ H) as (_ & _ & O & _).
  unfold column in Hv'. rewrite (O f Hnotin) in Hv'.
  pose proof (field_step_rules _ _ _ _ _ E1) as F. rewrite Forall_forall in F.
  now apply F.
Qed.

(** The frame the validator returns keeps the rules: a cell that is
    not null matches, from its start, the pattern of its field, and is
    not longer than the maximal length of its field. *)
Theorem validated_cells_keep_the_rules (df : DataFrame) (rules_fields : rules)
    (out : DataFrame) (st : stats) (field : str) (config : field_config) (r : row) :
  apply_validation df rules_fields = Ok (out, st) ->
  empty df = false ->
  NoDup (List.map fst rules_fields) ->
  In (field, config) rules_fields ->
  In r (rows out) ->
  is_null (row_get field r) = false ->
  (forall p regex, cfg_regex config = Some p -> p <> [] -> re_compile p = Ok regex ->
     regex (py_str (row_get field r)) = true)
  /\ (forall n, cfg_max_length config = Some n -> (len (py_str (row_get field r)) <= n)%Z).
Proof.
  unfold apply_validation. intros H He Hnd Hin Hr Hn. rewrite He in H.
  destruct (fields_loop (df, [], []) rules_fields) as [[[df_clean ic] req]|e] eqn:E;
    [|discriminate].
  destruct (required_rows req df_clean) as [R _].
  injection H as <- _. rewrite R in Hr. apply filter_In in Hr as [Hr _].
  destruct (@fields_loop_rules field config _ _ _ _ _ _ _ E Hnd Hin (row_get field r))
    as [Hna|Hrule].
  - unfold column. now apply in_map.
  - rewrite Hna in Hn. discriminate.
  - now rewrite Hn in Hrule.
Qed.

End ValidatorRules.

Section ValidatorRulesExample.

Import extraccion validaciones validacion lambda samples.

(** The record of the first page of [sample_web] that the built-in
    rules keep: its date opens with four digits, two digits and two
    digits. *)
Lemma validated_cells_keep_the_rules_witness :
  @apply_validation sample_runtime scraped_frame DEFAULT_RULES
  = Ok (fst (validation_of scraped_frame DEFAULT_RULES),
        snd (validation_of scraped_frame DEFAULT_RULES))
  /\ rows (fst (validation_of scraped_frame DEFAULT_RULES))
     = [validated_row]
  /\ match_date_prefix (py_str (row_get (lit "created_at") validated_row)) = true
  /\ (len (py_str (row_get (lit "title") validated_row)) <= 65)%Z.
Proof.
  assert (E : @apply_validation sample_runtime scraped_frame DEFAULT_RULES
              = Ok (fst (validation_of scraped_frame DEFAULT_RULES),
                    snd (validation_of scraped_frame DEFAULT_RULES)))
    by (vm_compute; reflexivity).
  assert (R : rows (fst (validation_of scraped_frame DEFAULT_RULES)) = [validated_row])
    by (vm_compute; reflexivity).
  assert (Hr : In validated_row (rows (fst (validation_of scraped_frame DEFAULT_RULES))))
    by (rewrite R; left; reflexivity).
  assert (He : empty scraped_frame = false) by (vm_compute; reflexivity).
  assert (Hnd : NoDup (List.map fst DEFAULT_RULES)).
  { vm_compute. repeat constructor; cbn [In]; intros H;
      repeat (destruct H as [H|H]; [discriminate H|]); exact H. }
  split; [exact E|]. split; [exact R|]. split.
  - apply (proj1 (@validated_cells_keep_the_rules sample_runtime scraped_frame DEFAULT_RULES _ _
                    (lit "created_at")
                    {| cfg_type := Some (lit "date");
                       cfg_regex := Some (lit "^\d{4}-\d{2}-\d{2}");
                       cfg_required := true; cfg_max_length := None |}
                    validated_row E He Hnd
                    ltac:(right; left; reflexivity) Hr ltac:(vm_compute; reflexivity))
                 (lit "^\d{4}-\d{2}-\d{2}") match_date_prefix eq_refl).
    + discriminate.
    + reflexivity.
  - apply (proj2 (@validated_cells_keep_the_rules sample_runtime scraped_frame DEFAULT_RULES _ _
                    (lit "title")
                    {| cfg_type := Some (lit "string"); cfg_regex := Some (lit ".+");
                       cfg_required := true; cfg_max_length := Some 65%Z |}
                    validated_row E He Hnd
                    ltac:(left; reflexivity) Hr ltac:(vm_compute; reflexivity))
                 65%Z eq_refl).
Defined.

End ValidatorRulesExample.

(** ** Ranges of pages *)

Section ScrapedRanges.

Import extraccion.

Lemma range_from_app (lo : Z) (n m : nat) :
  range_from lo (n + m) = range_from lo n ++ range_from (lo + Z.of_nat n) m.
Proof.
  revert lo. induction n as [|n IH]; intros lo.
  - cbn [Nat.add range_from app]. now rewrite Z.add_0_r.
  - cbn [Nat.add range_from app]. rewrite IH. do 3 f_equal. lia.
Qed.

(** Scraping a range of pages is scraping its pages one after the
    other: an empty range gives no record, a range of one page the
    records of that page, and a range cut in two the records of the
    first part followed by those of the second.  A page that fails or
    has no table gives no record. *)
Theorem scrape_recent_pages_composes (w : web) :
  (forall start_page end_page, (end_page < start_page)%Z ->
     scrape_recent_pages w start_page end_page = [])
  /\ (forall page_num, scrape_recent_pages w page_num page_num = scrape_page w page_num)
  /\ (forall start_page mid end_page,
        (start_page <= mid + 1)%Z -> (mid <= end_page)%Z ->
        scrape_recent_pages w start_page end_page
        = scrape_recent_pages w start_page mid ++ scrape_recent_pages w (mid + 1) end_page)
  /\ (forall page_num, (forall rows, fetch w page_num <> PageRows rows) ->
        scrape_page w page_num = []).
Proof.
  unfold scrape_recent_pages. split; [|split; [|split]].
  - intros s e H. replace (Z.to_nat (e + 1 - s)) with 0%nat by lia. reflexivity.
  - intros p. replace (Z.to_nat (p + 1 - p)) with 1%nat by lia.
    cbn [range_from flat_map]. apply app_nil_r.
  - intros s m e H1 H2.
    replace (Z.to_nat (e + 1 - s))
      with (Z.to_nat (m + 1 - s) + Z.to_nat (e + 1 - (m + 1)))%nat by lia.
    rewrite range_from_app, flat_map_app. do 3 f_equal. lia.
  - intros p H. unfold scrape_page. destruct (fetch w p) as [rows| |exc]; try reflexivity.
    now contradiction (H rows).
Qed.

End ScrapedRanges.

(** ** The failure result of the entry point *)

Section EntryPointFailures.

Import extraccion validacion escritura lambda.

Context {rt : PyRuntime} {env : Environ}.

Lemma writer_run_raise (entity exc : str) (P : list (driver_call * option str)) :
  writer_run entity P (Raise exc) -> exists rest, P = (CallRollback, Some exc) :: rest.
Proof.
  assert (Herr : forall e a, error_result entity e a = Raise exc -> a = Some exc).
  { intros e [x|]; cbn [error_result]; [|discriminate]. intros H. now injection H as ->. }
  intros H. inversion H; subst; try discriminate;
    match goal with
    | Hr : error_result _ _ _ = Raise _ |- _ =>
        apply Herr in Hr; first [discriminate Hr | rewrite Hr; eauto]
    end.
Qed.

(** The stages of a run after the probe.  [after_probe] is the store
    as the probe leaves it (the store itself on a forced scrape),
    [df_normas] the frame of the scraped records and [writer_db] the
    store once the writer holds its connection.  A response is the 200
    result unless the validator raises on [df_normas], the connection
    of the writer is refused, or the writer raises, which it does on a
    rollback of its own that fails. *)
Lemma lambda_handler_stages (w : web) (rules_file : option validaciones.rules)
    (event : option event) (db db' : database) (resp : response) :
  lambda_handler w rules_file event db = (resp, db') ->
  let after_probe :=
    if scrape_forced event then db else snd (_fetch_latest_created_at db) in
  let df_normas :=
    DataFrame_of_normas (scrape_recent_pages w 0 (pages_requested event - 1)) in
  let writer_db := with_connection true (advance CallConnect after_probe) in
  statusCode resp = 200%Z
  \/ exists exc,
       resp = failure exc
       /\ ((apply_validation df_normas (validaciones.load_rules rules_file) = Raise exc
            /\ db' = after_probe)
           \/ exists validated_df st,
                apply_validation df_normas (validaciones.load_rules rules_file)
                = Ok (validated_df, st)
                /\ ((exc = lit "Could not establish database connection"
                     /\ (exists e, next_answer after_probe = Some e)
                     /\ db' = advance CallConnect after_probe)
                    \/ (next_answer after_probe = None
                        /\ fst (insert_new_records validated_df escritura.ENTITY_VALUE writer_db)
                           = Raise exc
                        /\ db' = with_connection false
                                   (snd (insert_new_records validated_df
                                           escritura.ENTITY_VALUE writer_db))
                        /\ exists rest, log db' = (CallRollback, Some exc) :: rest))).
Proof.
  intros Hrun after_probe df_normas writer_db. revert Hrun.
  unfold scrape_forced, pages_requested in *.
  unfold lambda_handler, lambda_handler_body, bind.
  set (num_pages := Z.max _ 1) in *.
  set (force := match event with Some e => _ | None => false end) in *.
  match goal with
  | |- context [match ?probe db with _ => _ end] =>
      assert (HA : exists b, probe db = (Ok b, after_probe))
  end.
  { subst after_probe. destruct force; cbn [negb].
    - unfold ret. eauto.
    - destruct (_fetch_latest_created_at db) as [latest dbA]. cbn [snd]. eauto. }
  destruct HA as (has_new & ->).
  destruct (negb has_new).
  { unfold ret. intros H. injection H as <- _. now left. }
  cbv zeta.
  destruct (scrape_recent_pages w 0 (num_pages - 1)) as [|norma normas] eqn:S.
  { unfold ret. intros H. injection H as <- _. now left. }
  unfold lift. fold df_normas.
  destruct (apply_validation df_normas (validaciones.load_rules rules_file))
    as [[validated_df stats]|e] eqn:V.
  2:{ intros H. injection H as <- <-. right. exists e. split; [reflexivity|]. left.
      split; reflexivity. }
  cbn [fst]. destruct (empty validated_df).
  { unfold ret. intros H. injection H as <- _. now left. }
  rewrite with_manager_run.
  destruct (next_answer after_probe) as [e|] eqn:Ha.
  { intros H. injection H as <- <-. right. eexists. split; [reflexivity|]. right.
    exists validated_df, stats. split; [reflexivity|]. left.
    split; [reflexivity|]. split; [eauto|reflexivity]. }
  fold writer_db.
  destruct (insert_new_records validated_df escritura.ENTITY_VALUE writer_db)
    as [rw dbW] eqn:W.
  destruct (insert_new_records_runs _ _ _ W) as (P & HP & Hrun).
  destruct rw as [[inserted_count status_message]|e].
  { unfold ret. intros H. injection H as <- _. now left. }
  intros H. injection H as <- <-. right. exists e. split; [reflexivity|]. right.
  exists validated_df, stats. split; [reflexivity|]. right.
  rewrite W. cbn [fst snd].
  split; [reflexivity|]. split; [reflexivity|]. split; [reflexivity|].
  destruct (writer_run_raise Hrun) as [rest ->].
  eexists. cbn [log with_connection]. rewrite HP. reflexivity.
Qed.

(** The 500 result and its causes.  A response is the 200 result or
    the failure result; the failure result carries the exception that
    the validator raised on the frame of the scraped records, or the
    text of a refused connection when the refused connection is the
    one the writer asks for, after the probe, or the error of a
    rollback of the writer that failed.  The probe never fails a run:
    whatever its connection and its query are answered, a run whose
    validator, writer connection and writer raise nothing ends in the
    200 result. *)
Theorem failure_result_has_a_cause (w : web) (rules_file : option validaciones.rules)
    (event : option event) (db db' : database) (resp : response) :
  lambda_handler w rules_file event db = (resp, db') ->
  let after_probe :=
    if scrape_forced event then db else snd (_fetch_latest_created_at db) in
  let df_normas :=
    DataFrame_of_normas (scrape_recent_pages w 0 (pages_requested event - 1)) in
  let writer_db := with_connection true (advance CallConnect after_probe) in
  (statusCode resp = 200%Z
   \/ exists exc,
        resp = failure exc
        /\ ((apply_validation df_normas (validaciones.load_rules rules_file) = Raise exc
             /\ db' = after_probe)
            \/ exists validated_df st,
                 apply_validation df_normas (validaciones.load_rules rules_file)
                 = Ok (validated_df, st)
                 /\ ((exc = lit "Could not establish database connection"
                      /\ (exists e, next_answer after_probe = Some e)
                      /\ db' = advance CallConnect after_probe)
                     \/ (next_answer after_probe = None
                         /\ fst (insert_new_records validated_df escritura.ENTITY_VALUE
                                   writer_db)
                            = Raise exc
                         /\ db' = with_connection false
                                    (snd (insert_new_records validated_df
                                            escritura.ENTITY_VALUE writer_db))
                         /\ exists rest, log db' = (CallRollback, Some exc) :: rest))))
  /\ (forall validated_df st,
        apply_validation df_normas (validaciones.load_rules rules_file)
        = Ok (validated_df, st) ->
        next_answer after_probe = None ->
        (forall exc, fst (insert_new_records validated_df escritura.ENTITY_VALUE writer_db)
                     <> Raise exc) ->
        statusCode resp = 200%Z).
Proof.
  intros Hrun after_probe df_normas writer_db.
  pose proof (lambda_handler_stages _ _ _ _ Hrun) as S. cbv zeta in S.
  fold after_probe df_normas writer_db in S.
  split; [exact S|].
  intros validated_df st V Ha Hw.
  destruct S as [S|(exc & _ & [[V' _]|(vd & st' & V' & [(_ & (e & Ha') & _)|(_ & W & _)])])].
  - exact S.
  - rewrite V in V'. discriminate.
  - rewrite Ha in Ha'. discriminate.
  - rewrite V in V'. injection V' as <- _. now contradiction (Hw exc).
Qed.

End EntryPointFailures.

Section EntryPointFailuresExample.

Import extraccion validacion escritura lambda samples.

Lemma scrape_recent_pages_composes_witness :
  scrape_recent_pages sample_web 0 2
  = scrape_recent_pages sample_web 0 0 ++ scrape_recent_pages sample_web 1 2
  /\ scrape_page sample_web 1 = [].
Proof.
  destruct (scrape_recent_pages_composes sample_web) as (_ & _ & S & F). split.
  - apply (S 0%Z 0%Z 2%Z); lia.
  - apply (F 1%Z). intros rows. discriminate.
Defined.

(** Two probed runs over [sample_web].  When the connection of the
    probe is refused the run goes on and ends in the 200 result, one
    record inserted; when the probe is served and the connection of the
    writer is refused the run ends in the failure result. *)
Lemma failure_result_has_a_cause_witness :
  statusCode (fst probe_refused_run) = 200%Z
  /\ log (snd probe_refused_run)
     = [(CallExecutemany (lit "regulations_component") 1, None); (CallExecute, None);
        (CallExecutemany (lit "regulations") 1, None); (CallExecute, None);
        (CallConnect, None); (CallConnect, Some (lit "connection refused"))]
  /\ fst writer_refused_run = failure (lit "Could not establish database connection")
  /\ log (snd writer_refused_run)
     = [(CallConnect, Some (lit "connection refused")); (CallExecute, None);
        (CallConnect, None)]
  /\ (statusCode (fst writer_refused_run) = 200%Z
      \/ exists exc,
           fst writer_refused_run = failure exc
           /\ ((@apply_validation sample_runtime scraped_nine (validaciones.load_rules None)
                = Raise exc
                /\ snd writer_refused_run = after_sample_probe)
               \/ exists validated_df st,
                    @apply_validation sample_runtime scraped_nine (validaciones.load_rules None)
                    = Ok (validated_df, st)
                    /\ ((exc = lit "Could not establish database connection"
                         /\ (exists e, next_answer after_sample_probe = Some e)
                         /\ snd writer_refused_run = advance CallConnect after_sample_probe)
                        \/ (next_answer after_sample_probe = None
                            /\ fst (@insert_new_records default_environ validated_df
                                      escritura.ENTITY_VALUE
                                      (with_connection true
                                         (advance CallConnect after_sample_probe)))
                               = Raise exc
                            /\ snd writer_refused_run
                               = with_connection false
                                   (snd (@insert_new_records default_environ validated_df
                                           escritura.ENTITY_VALUE
                                           (with_connection true
                                              (advance CallConnect after_sample_probe))))
                            /\ exists rest,
                                 log (snd writer_refused_run)
                                 = (CallRollback, Some exc) :: rest)))).
Proof.
  assert (Hrun : @lambda_handler sample_runtime default_environ sample_web None
                   None writer_refusing_store
                 = (fst writer_refused_run, snd writer_refused_run))
    by (unfold writer_refused_run; apply surjective_pairing).
  split; [vm_compute; reflexivity|]. split; [vm_compute; reflexivity|].
  split; [vm_compute; reflexivity|]. split; [vm_compute; reflexivity|].
  exact (proj1 (@failure_result_has_a_cause sample_runtime default_environ sample_web None
                  None writer_refusing_store (snd writer_refused_run)
                  (fst writer_refused_run) Hrun)).
Defined.

End EntryPointFailuresExample.
